(** * MediGuide: the deterministic extraction-and-confidence core

    A shallow embedding of the rule-based extractor
    ([lib/extractor-improved.ts]), the confidence thresholds and gate
    ([lib/config/confidence-thresholds.ts], [lib/ocr/confidence-gate.ts]),
    the interaction checker ([lib/interactions/interaction-checker.ts]),
    the explainability composer
    ([lib/explainability/explainability-generator.ts]), the nudge
    generator ([lib/nudges/nudge-generator.ts]), the adherence score
    ([lib/adherence.ts]), the safety hints ([lib/safety.ts]) and the
    local drug information service
    ([lib/druginfo/drug-info-service.ts]), with the properties the
    specification states about them and further properties of the code.

    Conventions of the embedding:
    - a JavaScript [number] is an IEEE 754 binary64 value, here a primitive
      [float]; comparisons are the IEEE ones ([NaN < x] is false);
    - a JavaScript string is a [string] of 8-bit code units read as
      Latin-1 (U+0000..U+00FF); the character classes and case mappings
      below are the ECMAScript ones restricted to that range;
    - [undefined] / [null] in an optional position is [None];
    - the JSON tables [data/abbreviations.json],
      [data/contraindications.json], [data/nudge_library.json] and
      [druginfo/local-knowledge-base.json] are parameters of the
      sections that use them. *)

From Stdlib Require Import Floats String Ascii List ZArith Bool Arith Lia.
From Stdlib Require Import Permutation Sorted DecimalString.
Import ListNotations.

Set Warnings "-inexact-float".
Set Implicit Arguments.

Local Open Scope string_scope.
Local Open Scope list_scope.

(* ================================================================== *)
(** * The fragment of the ECMAScript library that the sources call     *)
(* ================================================================== *)

Module JS.

Definition code (c : ascii) : nat := nat_of_ascii c.

Definition between (lo hi : nat) (c : ascii) : bool :=
  (lo <=? code c)%nat && (code c <=? hi)%nat.

Definition is_digit (c : ascii) : bool := between 48 57 c.
Definition is_upper (c : ascii) : bool := between 65 90 c.
Definition is_lower (c : ascii) : bool := between 97 122 c.

(** [\w]: ASCII letters, digits and the underscore. *)
Definition is_word_char (c : ascii) : bool :=
  is_digit c || is_upper c || is_lower c || (code c =? 95)%nat.

(** LineTerminator: LF and CR (U+2028 and U+2029 are outside Latin-1). *)
Definition is_line_terminator (c : ascii) : bool :=
  (code c =? 10)%nat || (code c =? 13)%nat.

(** WhiteSpace and LineTerminator, the set of [\s] and of [trim]:
    TAB, LF, VT, FF, CR, SP and NBSP. *)
Definition is_white_space (c : ascii) : bool :=
  between 9 13 c || (code c =? 32)%nat || (code c =? 160)%nat.

(** [String.prototype.toLowerCase], one code unit. *)
Definition lower_char (c : ascii) : ascii :=
  if is_upper c then ascii_of_nat (code c + 32)
  else if between 192 222 c && negb (code c =? 215)%nat
       then ascii_of_nat (code c + 32)
  else c.

(** [String.prototype.toUpperCase], one code unit.  The three Latin-1
    letters whose upper case leaves the range (U+00B5, U+00DF, U+00FF)
    are left as they are. *)
Definition upper_char (c : ascii) : ascii :=
  if is_lower c then ascii_of_nat (code c - 32)
  else if between 224 254 c && negb (code c =? 247)%nat
       then ascii_of_nat (code c - 32)
  else c.

Fixpoint map_string (f : ascii -> ascii) (s : string) : string :=
  match s with
  | EmptyString => EmptyString
  | String c r => String (f c) (map_string f r)
  end.

Definition toLowerCase : string -> string := map_string lower_char.
Definition toUpperCase : string -> string := map_string upper_char.

Definition is_empty (s : string) : bool :=
  match s with EmptyString => true | _ => false end.

(** Truthiness of a string: every string but the empty one. *)
Definition truthy (s : string) : bool := negb (is_empty s).

(** Truthiness of an optional string: [undefined] and the empty string
    are falsy. *)
Definition truthy_opt (o : option string) : bool :=
  match o with Some s => truthy s | None => false end.

(** Truthiness of a number: every number but [0], [-0] and [NaN]. *)
Definition truthy_num (x : float) : bool :=
  negb (PrimFloat.eqb x 0%float) && negb (PrimFloat.is_nan x).

Definition truthy_num_opt (o : option float) : bool :=
  match o with Some x => truthy_num x | None => false end.

Fixpoint trimStart (s : string) : string :=
  match s with
  | EmptyString => EmptyString
  | String c r => if is_white_space c then trimStart r else s
  end.

Fixpoint trimEnd (s : string) : string :=
  match s with
  | EmptyString => EmptyString
  | String c r =>
      let r' := trimEnd r in
      if is_white_space c && is_empty r' then EmptyString else String c r'
  end.

Definition trim (s : string) : string := trimEnd (trimStart s).

(** [s.startsWith(p)] *)
Fixpoint startsWith (s p : string) : bool :=
  match p, s with
  | EmptyString, _ => true
  | String a p', String b s' => Ascii.eqb a b && startsWith s' p'
  | String _ _, EmptyString => false
  end.

(** [s.includes(sub)] *)
Fixpoint includes (s sub : string) : bool :=
  startsWith s sub ||
  match s with
  | EmptyString => false
  | String _ r => includes r sub
  end.

(** [s.split(sep)] for a separator of one code unit. *)
Fixpoint split_char (sep : ascii) (s : string) : list string :=
  match s with
  | EmptyString => [EmptyString]
  | String c r =>
      if Ascii.eqb c sep then EmptyString :: split_char sep r
      else match split_char sep r with
           | [] => [String c EmptyString]
           | w :: ws => String c w :: ws
           end
  end.

(** [s.split(/\s+/)]: the pieces between maximal runs of white space.
    [after_space] tells that the previous code unit was white space, so
    that a run separates once. *)
Fixpoint split_ws_from (after_space : bool) (s : string) : list string :=
  match s with
  | EmptyString => [EmptyString]
  | String c r =>
      if is_white_space c then
        if after_space then split_ws_from true r
        else EmptyString :: split_ws_from true r
      else match split_ws_from false r with
           | [] => [String c EmptyString]
           | w :: ws => String c w :: ws
           end
  end.

Definition split_ws (s : string) : list string := split_ws_from false s.

(** [xs.join(sep)] *)
Fixpoint join (sep : string) (xs : list string) : string :=
  match xs with
  | [] => EmptyString
  | [x] => x
  | x :: rest => x ++ sep ++ join sep rest
  end.

(** [xs.includes(x)] on an array of strings. *)
Definition array_includes (xs : list string) (x : string) : bool :=
  existsb (String.eqb x) xs.

(** [parseInt] on a string of decimal digits.  The extractor compares
    the result with the literals 1 to 4 only, or stores a one-digit
    value, so the exact integer stands for the number. *)
Definition digit_value (c : ascii) : Z := Z.of_nat (code c - 48).

Fixpoint parseInt_from (acc : Z) (s : string) : Z :=
  match s with
  | EmptyString => acc
  | String c r =>
      if is_digit c then parseInt_from (10 * acc + digit_value c) r else acc
  end.

Definition parseInt (s : string) : Z := parseInt_from 0 s.

(** [Math.max] and [Math.min] on two numbers: [NaN] when an argument is
    [NaN].  (The sign of a zero result is not modelled; the extractor
    calls them with the non-zero bounds 0.3 and 1.0.) *)
Definition Math_max (a b : float) : float :=
  if PrimFloat.is_nan a || PrimFloat.is_nan b then nan
  else if PrimFloat.ltb a b then b else a.

Definition Math_min (a b : float) : float :=
  if PrimFloat.is_nan a || PrimFloat.is_nan b then nan
  else if PrimFloat.ltb b a then b else a.

(** The double quote, for the template strings that print one. *)
Definition dq : string := String (ascii_of_nat 34) EmptyString.

End JS.

(* ================================================================== *)
(** * Regular expressions: a backtracking matcher                      *)
(* ================================================================== *)

(** The patterns of the sources use literals, character classes,
    concatenation, ordered alternatives, greedy and lazy repetition,
    capturing groups, [^], [$] and [\b], with or without the [i] flag.
    The matcher below follows the ECMAScript continuation semantics: the
    alternatives of a disjunction are tried left to right, a greedy
    quantifier tries one more iteration before it tries the rest of the
    pattern, a lazy one the other way round, and [exec] tries the start
    positions from the left. *)

Module Regex.
Import JS.

Inductive regex : Type :=
| Empty                                  (* the empty pattern *)
| Chr (c : ascii)                        (* a pattern character *)
| Cls (p : ascii -> bool)                (* \d \w \s . [...] *)
| Cat (r1 r2 : regex)                    (* r1 r2 *)
| Alt (r1 r2 : regex)                    (* r1|r2 *)
| Star (greedy : bool) (r : regex)       (* r* and r*? *)
| Group (n : nat) (r : regex)            (* the n-th capturing group *)
| Bol                                    (* ^ *)
| Eol                                    (* $ *)
| WordB.                                 (* \b *)

Record RegExp : Type := mkRegExp { source : regex; ignoreCase : bool }.

(** Captures: the most recent binding of a group comes first. *)
Definition captures : Type := list (nat * string).

Fixpoint group (cs : captures) (n : nat) : option string :=
  match cs with
  | [] => None
  | (m, v) :: rest => if (m =? n)%nat then Some v else group rest n
  end.

(** Canonicalize of the [i] flag without the [u] flag: a code unit of
    the ASCII range is upper-cased, any other one never equals an ASCII
    one. *)
Definition canonicalize (i : bool) (c : ascii) : ascii :=
  if i && is_lower c then ascii_of_nat (code c - 32) else c.

Definition chr_matches (i : bool) (c x : ascii) : bool :=
  Ascii.eqb (canonicalize i c) (canonicalize i x).

(** A class holds of [x] when one of its members has the canonical form
    of [x]; the classes used here have ASCII members, NBSP in [\s], or
    are the complement of the line terminators. *)
Definition cls_matches (i : bool) (p : ascii -> bool) (x : ascii) : bool :=
  p x ||
  (i && ((is_lower x && p (ascii_of_nat (code x - 32)))
         || (is_upper x && p (ascii_of_nat (code x + 32))))).

Definition is_word_before (prev : option ascii) : bool :=
  match prev with Some c => is_word_char c | None => false end.

Definition is_word_at (s : string) : bool :=
  match s with String c _ => is_word_char c | EmptyString => false end.

Fixpoint take (n : nat) (s : string) : string :=
  match n, s with
  | S m, String c r => String c (take m r)
  | _, _ => EmptyString
  end.

(** A continuation receives the code unit before the current position,
    the rest of the input and the captures. *)
Definition cont : Type := option ascii -> string -> captures -> option captures.

(** A matcher takes the position (previous code unit, rest of the
    input), the captures and its continuation. *)
Definition matcher : Type :=
  option ascii -> string -> captures -> cont -> option captures.

(** RepeatMatcher for [r*] and [r*?].  [fuel] bounds the number of
    iterations; it starts at the length of the rest.  An iteration that
    consumes nothing is rejected, so every accepted iteration shortens the
    rest and the fuel never runs out before the input does. *)
Fixpoint repeat_loop (greedy : bool) (body : matcher) (k : cont)
         (fuel : nat) (prev : option ascii) (s : string) (cs : captures)
         {struct fuel} : option captures :=
  match fuel with
  | O => k prev s cs
  | S fuel' =>
      let again (_ : unit) :=
        body prev s cs
             (fun prev' s' cs' =>
                if (String.length s' <? String.length s)%nat
                then repeat_loop greedy body k fuel' prev' s' cs'
                else None) in
      if greedy then
        match again tt with
        | Some res => Some res
        | None => k prev s cs
        end
      else
        match k prev s cs with
        | Some res => Some res
        | None => again tt
        end
  end.

(** [run i r prev s cs k]: match [r] at the position whose rest is [s]
    and previous code unit is [prev], then continue with [k]. *)
Fixpoint run (i : bool) (r : regex) (prev : option ascii) (s : string)
         (cs : captures) (k : cont) {struct r} : option captures :=
  match r with
  | Empty => k prev s cs
  | Chr c =>
      match s with
      | String x s' => if chr_matches i c x then k (Some x) s' cs else None
      | EmptyString => None
      end
  | Cls p =>
      match s with
      | String x s' => if cls_matches i p x then k (Some x) s' cs else None
      | EmptyString => None
      end
  | Cat r1 r2 =>
      run i r1 prev s cs (fun prev' s' cs' => run i r2 prev' s' cs' k)
  | Alt r1 r2 =>
      match run i r1 prev s cs k with
      | Some res => Some res
      | None => run i r2 prev s cs k
      end
  | Star greedy r1 =>
      repeat_loop greedy (run i r1) k (String.length s) prev s cs
  | Group n r1 =>
      run i r1 prev s cs
          (fun prev' s' cs' =>
             k prev' s'
               ((n, take (String.length s - String.length s') s) :: cs'))
  | Bol => match prev with None => k prev s cs | Some _ => None end
  | Eol => match s with EmptyString => k prev s cs | String _ _ => None end
  | WordB =>
      if xorb (is_word_before prev) (is_word_at s) then k prev s cs else None
  end.

(** The first start position, from the left, at which the pattern
    matches; group 0 is the matched text. *)
Fixpoint search (i : bool) (r : regex) (prev : option ascii) (s : string)
  : option captures :=
  match run i (Group 0 r) prev s [] (fun _ _ cs => Some cs) with
  | Some cs => Some cs
  | None =>
      match s with
      | EmptyString => None
      | String x s' => search i r (Some x) s'
      end
  end.

(** [re.exec(s)], which is also [s.match(re)] for a pattern without the
    [g] flag. *)
Definition exec (re : RegExp) (s : string) : option captures :=
  search (ignoreCase re) (source re) None s.

(** [re.test(s)] *)
Definition test (re : RegExp) (s : string) : bool :=
  match exec re s with Some _ => true | None => false end.

(** [m[n]] for a group that takes part in every match of its pattern. *)
Definition at_ (m : captures) (n : nat) : string :=
  match group m n with Some v => v | None => EmptyString end.

(** ** Pattern syntax *)

Fixpoint lit (s : string) : regex :=
  match s with
  | EmptyString => Empty
  | String c EmptyString => Chr c
  | String c r => Cat (Chr c) (lit r)
  end.

Fixpoint seq (rs : list regex) : regex :=
  match rs with
  | [] => Empty
  | [r] => r
  | r :: rest => Cat r (seq rest)
  end.

Fixpoint alt (rs : list regex) : regex :=
  match rs with
  | [] => Empty
  | [r] => r
  | r :: rest => Alt r (alt rest)
  end.

(** Alternatives that are all literal words: [(w1|w2|...)]. *)
Definition words (ws : list string) : regex := alt (map lit ws).

Definition star (r : regex) : regex := Star true r.          (* r*  *)
Definition lazy_star (r : regex) : regex := Star false r.    (* r*? *)
Definition plus (r : regex) : regex := Cat r (Star true r).  (* r+  *)
(** [r?] for an [r] that does not match the empty string. *)
Definition opt (r : regex) : regex := Alt r Empty.

Definition digit : regex := Cls is_digit.                    (* \d *)
Definition space : regex := Cls is_white_space.              (* \s *)
Definition any : regex := Cls (fun c => negb (is_line_terminator c)). (* . *)
Definition chr (s : string) : regex := lit s.

End Regex.

(* ================================================================== *)
(** * The rule-based extractor ([lib/extractor-improved.ts])           *)
(* ================================================================== *)

Module Extractor.
Import JS Regex.

(** The timing buckets of a legacy [Medication]: an object with optional
    numeric properties.  The extractor stores the literal 1 or the value
    of one decimal digit, so the counts are integers. *)
Record TimingBuckets : Type := mkBuckets {
  morning : option Z;
  afternoon : option Z;
  evening : option Z;
  night : option Z
}.

Record Medication : Type := mkMedication {
  drug_name : string;
  strength : string;
  form : string;
  dose_pattern : string;
  timing_buckets : TimingBuckets;
  duration : string;
  food_instruction : option string;
  notes : option string;
  confidence : float
}.

Record ExtractionExplanation : Type := mkExplanation {
  matched_span : string;
  rule_name : string;
  normalized_meaning : string;
  rule_confidence : float          (* the field [confidence] *)
}.

Record ExtractionResult : Type := mkResult {
  medications : list Medication;
  explanations : list ExtractionExplanation
}.

(** The result of one line: [{ medication, explanations }]. *)
Record LineResult : Type := mkLineResult {
  medication : option Medication;
  line_explanations : list ExtractionExplanation
}.

(** An entry of [abbreviations.frequency]; [full] is the property read. *)
Record FrequencyInfo : Type := mkFrequencyInfo { full : string }.

Definition NON_MEDICATION_KEYWORDS : list string :=
  ["name"; "age"; "date"; "weight"; "address"; "phone"; "doctor"; "clinic";
   "hospital"; "patient"; "gender"; "diagnosis"; "advice"; "follow";
   "review"; "signature"; "registration"; "reg"; "mbbs"; "md"; "clinical";
   "description"; "urti"; "fever"].

Definition MEDICATION_FORMS : list string :=
  ["tab"; "cap"; "syr"; "syp"; "inj"; "inh"; "oint"; "cr"; "gel"; "drops";
   "susp"; "powder"].

(** ** The patterns, in the order of the source *)

Definition is_dash_or_slash (c : ascii) : bool :=
  Ascii.eqb c "-" || Ascii.eqb c "/".
Definition is_digit_space_colon (c : ascii) : bool :=
  is_digit c || is_white_space c || Ascii.eqb c ":".
Definition is_word_or_hyphen (c : ascii) : bool :=
  is_word_char c || Ascii.eqb c "-".

(** [(d|day|days|w|week|weeks|m|month|months)] *)
Definition duration_units : regex :=
  words ["d"; "day"; "days"; "w"; "week"; "weeks"; "m"; "month"; "months"].

(** [units?] *)
Definition units_opt : regex := seq [lit "unit"; opt (chr "s")].

(** [/^\d+[-\/]\d+[-\/]\d+/] *)
Definition dateLikeRe : RegExp :=
  mkRegExp (seq [Bol; plus digit; Cls is_dash_or_slash; plus digit;
                 Cls is_dash_or_slash; plus digit]) false.

(** [/^[\d\s:]+$/] *)
Definition numericOnlyRe : RegExp :=
  mkRegExp (seq [Bol; plus (Cls is_digit_space_colon); Eol]) false.

(** [/\d+\s*(mg|mcg|ml|g|iu|units?)/i] *)
Definition hasStrengthRe : RegExp :=
  mkRegExp (seq [plus digit; star space;
                 Group 1 (alt [lit "mg"; lit "mcg"; lit "ml"; lit "g";
                               lit "iu"; units_opt])]) true.

(** [/\b(od|bd|tds|qds|qid|prn|sos|hs|q\d+h|stat|times?\s+(daily|a\s+day|per\s+day))/i] *)
Definition hasFrequencyRe : RegExp :=
  mkRegExp
    (seq [WordB;
          Group 1
            (alt [lit "od"; lit "bd"; lit "tds"; lit "qds"; lit "qid";
                  lit "prn"; lit "sos"; lit "hs";
                  seq [chr "q"; plus digit; chr "h"];
                  lit "stat";
                  seq [lit "time"; opt (chr "s"); plus space;
                       Group 2
                         (alt [lit "daily";
                               seq [chr "a"; plus space; lit "day"];
                               seq [lit "per"; plus space; lit "day"]])]])])
    true.

(** [/\b(tab|cap|syr|syp|inj|inh|oint|cr|gel|drops|susp|powder)\b/i] *)
Definition hasFormRe : RegExp :=
  mkRegExp (seq [WordB; Group 1 (words MEDICATION_FORMS); WordB]) true.

(** [/x\s*\d+\s*(d|day|days|w|week|weeks|m|month|months)/i] *)
Definition hasDurationRe : RegExp :=
  mkRegExp (seq [chr "x"; star space; plus digit; star space;
                 Group 1 duration_units]) true.

(** [/\b(tab|cap|syr|syp|inj|inh|oint|cr|gel|drops|susp)\s+([a-z][\w\-]+)/i] *)
Definition formDrugRe : RegExp :=
  mkRegExp
    (seq [WordB;
          Group 1 (words ["tab"; "cap"; "syr"; "syp"; "inj"; "inh"; "oint";
                          "cr"; "gel"; "drops"; "susp"]);
          plus space;
          Group 2 (seq [Cls is_lower; plus (Cls is_word_or_hyphen)])])
    true.

(** [/^\d+$/] *)
Definition allDigitsRe : RegExp :=
  mkRegExp (seq [Bol; plus digit; Eol]) false.

(** [/(\d+(?:\.\d+)?(?:\/\d+)?)\s*(mg|mcg|g|ml|iu|units?)/i] *)
Definition strengthRe : RegExp :=
  mkRegExp
    (seq [Group 1 (seq [plus digit;
                        opt (seq [chr "."; plus digit]);
                        opt (seq [chr "/"; plus digit])]);
          star space;
          Group 2 (alt [lit "mg"; lit "mcg"; lit "g"; lit "ml"; lit "iu";
                        units_opt])])
    true.

(** [/(\d)-(\d)-(\d)/] *)
Definition dosePatternRe : RegExp :=
  mkRegExp (seq [Group 1 digit; chr "-"; Group 2 digit; chr "-";
                 Group 3 digit]) false.

(** [/\b(od|bd|tds|qds|qid|prn|hs|sos|q4h|q6h|q8h|q12h|stat)\b/i] *)
Definition freqRe : RegExp :=
  mkRegExp
    (seq [WordB;
          Group 1 (words ["od"; "bd"; "tds"; "qds"; "qid"; "prn"; "hs";
                          "sos"; "q4h"; "q6h"; "q8h"; "q12h"; "stat"]);
          WordB])
    true.

(** [/(\d+)\s*times?\s*(daily|per day|a day)/i] *)
Definition timesRe : RegExp :=
  mkRegExp
    (seq [Group 1 (plus digit); star space; lit "time"; opt (chr "s");
          star space; Group 2 (words ["daily"; "per day"; "a day"])])
    true.

(** [/x\s*(\d+)\s*(d|day|days|w|week|weeks|m|month|months)/i] *)
Definition durationRe1 : RegExp :=
  mkRegExp (seq [chr "x"; star space; Group 1 (plus digit); star space;
                 Group 2 duration_units]) true.

(** [/for\s+(\d+)\s*(d|day|days|w|week|weeks|m|month|months)/i] *)
Definition durationRe2 : RegExp :=
  mkRegExp (seq [lit "for"; plus space; Group 1 (plus digit); star space;
                 Group 2 duration_units]) true.

(** [/\b(ac|pc|with meals|empty stomach|before meals|after meals|with food)\b/i] *)
Definition foodRe : RegExp :=
  mkRegExp
    (seq [WordB;
          Group 1 (words ["ac"; "pc"; "with meals"; "empty stomach";
                          "before meals"; "after meals"; "with food"]);
          WordB])
    true.

(** [/\b(morning|evening|bedtime|night|afternoon)\b/i] *)
Definition timingRe : RegExp :=
  mkRegExp
    (seq [WordB;
          Group 1 (words ["morning"; "evening"; "bedtime"; "night";
                          "afternoon"]);
          WordB])
    true.

(** [/(prn|sos|as needed|if needed).*?(\(.*?\))?/i] *)
Definition prnRe : RegExp :=
  mkRegExp
    (seq [Group 1 (words ["prn"; "sos"; "as needed"; "if needed"]);
          lazy_star any;
          opt (Group 2 (seq [chr "("; lazy_star any; chr ")"]))])
    true.

(** [/max\s+\d+.*?(dose|mg|ml|times)/i] *)
Definition maxDoseRe : RegExp :=
  mkRegExp
    (seq [lit "max"; plus space; plus digit; lazy_star any;
          Group 1 (words ["dose"; "mg"; "ml"; "times"])])
    true.

(** ** Line screening *)

Definition isNonMedicationLine (line : string) : bool :=
  let lowerLine := trim (toLowerCase line) in
  (* Skip very short lines *)
  if (String.length lowerLine <? 3)%nat then true
  (* Skip lines that start with common non-medication keywords *)
  else if existsb
            (fun keyword =>
               startsWith lowerLine keyword
               || (includes lowerLine ":"
                   && String.eqb (trim (hd EmptyString (split_char ":" lowerLine)))
                                 keyword))
            NON_MEDICATION_KEYWORDS then true
  (* Skip lines that are just numbers or dates *)
  else if test dateLikeRe lowerLine then true
  else if test numericOnlyRe lowerLine then true
  else false.

Definition hasMedicationIndicators (line : string) : bool :=
  let lowerLine := toLowerCase line in
  let hasStrength := test hasStrengthRe line in
  let hasFrequency := test hasFrequencyRe line in
  let hasForm := test hasFormRe lowerLine in
  let hasDuration := test hasDurationRe line in
  let indicatorCount :=
    List.length (filter (fun b : bool => b)
                        [hasStrength; hasFrequency; hasForm; hasDuration]) in
  (1 <=? indicatorCount)%nat.

(** The test of the word loop of pattern 2. *)
Definition is_candidate_word (word : string) : bool :=
  (3 <=? String.length word)%nat
  && negb (test allDigitsRe word)
  && negb (array_includes NON_MEDICATION_KEYWORDS (toLowerCase word)).

(** [unit.startsWith('d') ? 'days' : unit.startsWith('w') ? 'weeks' : 'months'] *)
Definition fullUnit (unit : string) : string :=
  if startsWith unit "d" then "days"
  else if startsWith unit "w" then "weeks" else "months".

Definition only_morning : TimingBuckets :=
  mkBuckets (Some 1%Z) None None None.
Definition morning_evening : TimingBuckets :=
  mkBuckets (Some 1%Z) None (Some 1%Z) None.
Definition three_a_day : TimingBuckets :=
  mkBuckets (Some 1%Z) (Some 1%Z) (Some 1%Z) None.
Definition four_a_day : TimingBuckets :=
  mkBuckets (Some 1%Z) (Some 1%Z) (Some 1%Z) (Some 1%Z).
Definition only_night : TimingBuckets :=
  mkBuckets None None None (Some 1%Z).
Definition only_afternoon : TimingBuckets :=
  mkBuckets None (Some 1%Z) None None.

(** The base confidence of the improved extractor. *)
Definition BASE_CONFIDENCE : float := 0.3%float.

Section Abbreviations.

(** [abbreviations.frequency[key]] and [abbreviations.form[key]] of
    [data/abbreviations.json]; [None] is an absent key. *)
Variable abbreviations_frequency : string -> option FrequencyInfo.
Variable abbreviations_form : string -> option string.

(** Each [let] below is one of the source's local variables; a
    variable assigned inside an [if] is rebound by a [match] on the
    same condition. *)
Definition extractMedicationFromLine (line : string) : LineResult :=
  let explanations : list ExtractionExplanation := [] in
  let confidence := BASE_CONFIDENCE in
  (* Try to extract drug name *)
  let drug_name := EmptyString in
  let form := "Tablet" in
  (* Pattern 1: Form + Drug name *)
  let formDrugMatch := exec formDrugRe line in
  (* Pattern 2: Just drug name (first meaningful word) *)
  let words := split_ws (trim line) in
  let firstWord := find is_candidate_word words in
  let form :=
    match formDrugMatch with Some m => at_ m 1 | None => form end in
  let drug_name :=
    match formDrugMatch with
    | Some m => at_ m 2
    | None => match firstWord with Some word => word | None => drug_name end
    end in
  let confidence :=
    match formDrugMatch with
    | Some _ => (confidence + 0.3)%float
    | None => match firstWord with
              | Some _ => (confidence + 0.2)%float
              | None => confidence
              end
    end in
  if match formDrugMatch with Some _ => false | None => negb (truthy drug_name) end
  then mkLineResult None []
  else
  let explanations :=
    match formDrugMatch with
    | Some m =>
        explanations ++
        [mkExplanation (at_ m 0) "form_drug_extraction"
           ("Medication: " ++ drug_name ++ " (" ++ form ++ ")") 0.9%float]
    | None =>
        explanations ++
        [mkExplanation drug_name "drug_name_extraction"
           ("Medication: " ++ drug_name) 0.7%float]
    end in
  (* Extract strength *)
  let strength := "Unknown" in
  let strengthMatch := exec strengthRe line in
  let strength :=
    match strengthMatch with
    | Some m => (at_ m 1 ++ at_ m 2)%string
    | None => strength
    end in
  let confidence :=
    match strengthMatch with
    | Some _ => (confidence + 0.2)%float
    | None => confidence
    end in
  let explanations :=
    match strengthMatch with
    | Some m =>
        explanations ++
        [mkExplanation (at_ m 0) "strength_extraction"
           ("Strength: " ++ strength) 0.9%float]
    | None => explanations
    end in
  (* Extract frequency/dose pattern *)
  let dose_pattern := "OD" in
  let timing_buckets := only_morning in
  let dosePatternMatch := exec dosePatternRe line in
  let freqMatch := exec freqRe line in
  let timesMatch := exec timesRe line in
  let dose_pattern :=
    match dosePatternMatch with
    | Some m => at_ m 0
    | None =>
        match freqMatch with
        | Some m => toUpperCase (at_ m 1)
        | None =>
            match timesMatch with
            | Some m =>
                let times := parseInt (at_ m 1) in
                if (times =? 1)%Z then "OD"
                else if (times =? 2)%Z then "BD"
                else if (times =? 3)%Z then "TDS"
                else if (times =? 4)%Z then "QDS"
                else dose_pattern
            | None => dose_pattern
            end
        end
    end in
  let freqInfo := abbreviations_frequency dose_pattern in
  let timing_buckets :=
    match dosePatternMatch with
    | Some m =>
        mkBuckets (Some (parseInt (at_ m 1))) (Some (parseInt (at_ m 2)))
                  (Some (parseInt (at_ m 3))) None
    | None =>
        match freqMatch with
        | Some _ =>
            match freqInfo with
            | Some _ =>
                if String.eqb dose_pattern "OD" then only_morning
                else if String.eqb dose_pattern "BD" then morning_evening
                else if String.eqb dose_pattern "TDS" then three_a_day
                else if String.eqb dose_pattern "QDS"
                        || String.eqb dose_pattern "QID" then four_a_day
                else if String.eqb dose_pattern "HS"
                        || String.eqb dose_pattern "SOS" then only_night
                else if String.eqb dose_pattern "Q6H" then four_a_day
                else timing_buckets
            | None => timing_buckets
            end
        | None =>
            match timesMatch with
            | Some m =>
                let times := parseInt (at_ m 1) in
                if (times =? 1)%Z then timing_buckets
                else if (times =? 2)%Z then morning_evening
                else if (times =? 3)%Z then three_a_day
                else if (times =? 4)%Z then four_a_day
                else timing_buckets
            | None => timing_buckets
            end
        end
    end in
  let confidence :=
    match dosePatternMatch with
    | Some _ => (confidence + 0.2)%float
    | None =>
        match freqMatch with
        | Some _ => (confidence + 0.15)%float
        | None =>
            match timesMatch with
            | Some _ => (confidence + 0.15)%float
            | None => confidence
            end
        end
    end in
  let explanations :=
    match dosePatternMatch with
    | Some m =>
        explanations ++
        [mkExplanation (at_ m 0) "dose_pattern_extraction"
           ("Dose pattern: " ++ at_ m 1 ++ "-" ++ at_ m 2 ++ "-" ++ at_ m 3)
           0.95%float]
    | None =>
        match freqMatch with
        | Some m =>
            match freqInfo with
            | Some info =>
                explanations ++
                [mkExplanation (at_ m 0) "frequency_extraction"
                   ("Frequency: " ++ full info) 0.9%float]
            | None => explanations
            end
        | None => explanations
        end
    end in
  (* Extract duration *)
  let duration := "As directed" in
  let durationMatch1 := exec durationRe1 line in
  let durationMatch2 := exec durationRe2 line in
  let duration :=
    match durationMatch1 with
    | Some m => (at_ m 1 ++ " " ++ fullUnit (toLowerCase (at_ m 2)))%string
    | None =>
        match durationMatch2 with
        | Some m => (at_ m 1 ++ " " ++ fullUnit (toLowerCase (at_ m 2)))%string
        | None => duration
        end
    end in
  let confidence :=
    match durationMatch1 with
    | Some _ => (confidence + 0.1)%float
    | None =>
        match durationMatch2 with
        | Some _ => (confidence + 0.1)%float
        | None => confidence
        end
    end in
  let explanations :=
    match durationMatch1 with
    | Some m =>
        explanations ++
        [mkExplanation (at_ m 0) "duration_extraction"
           ("Duration: " ++ duration) 0.85%float]
    | None => explanations
    end in
  (* Extract food instructions *)
  let foodMatch := exec foodRe line in
  let food_instruction :=
    match foodMatch with Some m => Some (at_ m 1) | None => None end in
  let confidence :=
    match foodMatch with
    | Some _ => (confidence + 0.1)%float
    | None => confidence
    end in
  let explanations :=
    match foodMatch with
    | Some m =>
        explanations ++
        [mkExplanation (at_ m 0) "food_instruction_extraction"
           ("Food instruction: " ++ at_ m 1) 0.85%float]
    | None => explanations
    end in
  (* Extract timing hints *)
  let timingMatch := exec timingRe line in
  let timing_buckets :=
    match timingMatch with
    | Some m =>
        let timing := toLowerCase (at_ m 1) in
        if String.eqb timing "morning" then only_morning
        else if String.eqb timing "evening" || String.eqb timing "night"
                || String.eqb timing "bedtime" then only_night
        else if String.eqb timing "afternoon" then only_afternoon
        else timing_buckets
    | None => timing_buckets
    end in
  let explanations :=
    match timingMatch with
    | Some m =>
        explanations ++
        [mkExplanation (at_ m 0) "timing_extraction"
           ("Timing: " ++ at_ m 1) 0.8%float]
    | None => explanations
    end in
  (* Extract notes *)
  let prnMatch := exec prnRe line in
  let notes : option string :=
    match prnMatch with Some m => Some (at_ m 0) | None => None end in
  let maxDoseMatch := exec maxDoseRe line in
  let notes :=
    match maxDoseMatch with
    | Some m =>
        Some ((if truthy_opt notes
               then match notes with Some n => n | None => EmptyString end
                    ++ " | "
               else EmptyString) ++ at_ m 0)%string
    | None => notes
    end in
  (* Normalize confidence *)
  let confidence := Math_min (Math_max confidence 0.3%float) 1.0%float in
  let medication :=
    mkMedication
      drug_name strength
      (match abbreviations_form form with
       | Some v => if truthy v then v else form
       | None => form
       end)
      dose_pattern timing_buckets duration food_instruction notes
      confidence in
  mkLineResult (Some medication) explanations.

(** The body of the [for (const line of lines)] loop. *)
Definition process_line (acc : ExtractionResult) (line : string)
  : ExtractionResult :=
  (* Skip lines that are clearly not medications *)
  if isNonMedicationLine line then acc
  (* Only process lines that have medication indicators *)
  else if negb (hasMedicationIndicators line) then acc
  else
    let result := extractMedicationFromLine line in
    match medication result with
    | Some m =>
        mkResult (medications acc ++ [m])
                 (explanations acc ++ line_explanations result)
    | None => acc
    end.

Definition extractMedications (text : string) : ExtractionResult :=
  (* Split text into lines *)
  let lines :=
    filter (fun line => (0 <? String.length (trim line))%nat)
           (split_char "010"%char text) in
  fold_left process_line lines (mkResult [] []).

End Abbreviations.

End Extractor.

(* ================================================================== *)
(** * Shared types ([lib/types/schemas.ts])                            *)
(* ================================================================== *)

Module Schemas.

(** Four corner points. *)
Definition Point : Type := (float * float)%type.
Definition Bbox : Type := (Point * Point * Point * Point)%type.

Record PaddleOCRToken : Type := mkToken {
  token_text : string;
  token_confidence : float;
  bbox : Bbox;
  angle : option float
}.

Record OCRLine : Type := mkOCRLine {
  ocr_line_text : string;
  ocr_line_confidence : float;
  ocr_line_tokens : list PaddleOCRToken
}.

Record OCRResult : Type := mkOCRResult {
  ocr_text : string;
  ocr_confidence : float;              (* the field [confidence] *)
  ocr_tokens_all : list PaddleOCRToken; (* the field [tokens] *)
  ocr_lines : list OCRLine;
  language_detected : option string;
  processing_time_ms : float
}.

Record TimingBuckets : Type := mkTimingBuckets {
  morning : option float;
  afternoon : option float;
  evening : option float;
  night : option float
}.

Record FieldEvidence : Type := mkFieldEvidence {
  ev_value : string;                   (* the field [value] *)
  ev_confidence : float;               (* the field [confidence] *)
  ocr_tokens : list PaddleOCRToken;
  matched_rule : option string
}.

Record MedicationItem : Type := mkMedicationItem {
  name : string;
  name_confidence : float;
  name_evidence : FieldEvidence;
  generic_name : option string;
  strength : string;
  strength_confidence : float;
  strength_evidence : FieldEvidence;
  form : string;
  form_confidence : float;
  route : option string;
  frequency : string;
  frequency_normalized : string;
  frequency_confidence : float;
  frequency_evidence : FieldEvidence;
  timing_buckets : TimingBuckets;
  duration : string;
  duration_confidence : float;
  duration_evidence : option FieldEvidence;
  food_instruction : option string;
  food_instruction_confidence : option float;
  special_instructions : option string;
  notes : option string;
  needs_confirmation : bool;
  uncertain_fields : list string
}.

Record ClarificationQuestion : Type := mkQuestion {
  field : string;
  question : string;
  detected_value : option string;
  q_confidence : float;                (* the field [confidence] *)
  suggestions : option (list string)
}.

Inductive DrugInfoSource : Type := openfda | local | not_found.

Record DrugInfo : Type := mkDrugInfo {
  info_drug_name : string;             (* the field [drug_name] *)
  info_generic_name : option string;   (* the field [generic_name] *)
  brand_names : option (list string);
  indications : list string;
  mechanism_of_action : option string;
  common_side_effects : list string;
  serious_side_effects : option (list string);
  precautions : list string;
  contraindications : option (list string);
  dosage_forms : list string;
  typical_dosage_range : option string;
  max_daily_dose : option string;
  source : DrugInfoSource;
  source_url : option string;
  last_updated : string;
  cached : bool
}.

Inductive Severity : Type := minor | moderate | severe | unknown.

Record InteractionResult : Type := mkInteraction {
  drug1 : string;
  drug2 : string;
  severity : Severity;
  description : string;
  symptoms : option (list string);
  mechanism : option string;
  recommendation : string;
  interaction_source : string;         (* the field [source] *)
  interaction_source_url : option string
}.

End Schemas.

(* ================================================================== *)
(** * Thresholds and clarification rules
      ([lib/config/confidence-thresholds.ts])                          *)
(* ================================================================== *)

Module Thresholds.
Import JS.

Record ConfidenceThresholds : Type := mkThresholds {
  ocr_minimum : float;
  ocr_warning : float;
  ocr_good : float;
  drug_name : float;
  strength : float;
  frequency : float;
  duration : float;
  food_instruction : float;
  needs_confirmation_threshold : float;
  missing_field_threshold : float
}.

Record ClarificationRules : Type := mkRules {
  drug_name_uncertain : bool;
  strength_uncertain : bool;
  frequency_missing : bool;
  duration_missing : bool
}.

Definition CONFIDENCE_THRESHOLDS : ConfidenceThresholds :=
  {| ocr_minimum := 0.50;
     ocr_warning := 0.65;
     ocr_good := 0.80;
     drug_name := 0.70;
     strength := 0.75;
     frequency := 0.65;
     duration := 0.60;
     food_instruction := 0.55;
     needs_confirmation_threshold := 0.65;
     missing_field_threshold := 0.30 |}.

Definition CLARIFICATION_RULES : ClarificationRules :=
  {| drug_name_uncertain := true;
     strength_uncertain := true;
     frequency_missing := true;
     duration_missing := false |}.

Definition shouldRequestClarification
           (field : string) (confidence : float) (value : option string)
  : bool :=
  let thresholds := CONFIDENCE_THRESHOLDS in
  let rules := CLARIFICATION_RULES in
  (* Check if field is missing (very low confidence or no value) *)
  let isMissing :=
    PrimFloat.ltb confidence (missing_field_threshold thresholds)
    || negb (truthy_opt value) in
  if String.eqb field "drug_name" then
    drug_name_uncertain rules
    && (PrimFloat.ltb confidence (drug_name thresholds) || isMissing)
  else if String.eqb field "strength" then
    strength_uncertain rules
    && (PrimFloat.ltb confidence (strength thresholds) || isMissing)
  else if String.eqb field "frequency" then
    frequency_missing rules && isMissing
  else if String.eqb field "duration" then
    duration_missing rules && isMissing
  else
    PrimFloat.ltb confidence (needs_confirmation_threshold thresholds).

(** [CONFIDENCE_LEVELS]: the confidence level descriptions for the UI. *)
Record ConfidenceLevelInfo : Type := mkLevelInfo {
  level_min : float;                   (* the field [min] *)
  level_label : string;                (* the field [label] *)
  level_color : string                 (* the field [color] *)
}.

Inductive ConfidenceLevel : Type := high | medium | low | very_low.

Definition CONFIDENCE_LEVELS (level : ConfidenceLevel) : ConfidenceLevelInfo :=
  match level with
  | high => mkLevelInfo 0.80 "High Confidence" "green"
  | medium => mkLevelInfo 0.65 "Medium Confidence" "yellow"
  | low => mkLevelInfo 0.50 "Low Confidence" "orange"
  | very_low => mkLevelInfo 0 "Very Low Confidence" "red"
  end.

Definition getConfidenceLevel (confidence : float) : ConfidenceLevel :=
  if PrimFloat.leb (level_min (CONFIDENCE_LEVELS high)) confidence then high
  else if PrimFloat.leb (level_min (CONFIDENCE_LEVELS medium)) confidence
  then medium
  else if PrimFloat.leb (level_min (CONFIDENCE_LEVELS low)) confidence
  then low
  else very_low.

End Thresholds.

(* ================================================================== *)
(** * The confidence gate ([lib/ocr/confidence-gate.ts])               *)
(* ================================================================== *)

Module ConfidenceGate.
Import JS Schemas Thresholds.

Record ConfidenceGateResult : Type := mkGateResult {
  passed : bool;
  overall_confidence : float;
  needs_confirmation : bool;
  clarification_questions : list ClarificationQuestion;
  low_confidence_fields : list string;
  warnings : list string
}.

(** [{ value: string; confidence: number }] *)
Record ExtractedField : Type := mkField {
  value : string;
  confidence : float
}.

Record ExtractedFields : Type := mkFields {
  drug_name : option ExtractedField;
  strength : option ExtractedField;
  frequency : option ExtractedField;
  duration : option ExtractedField;
  food_instruction : option ExtractedField
}.

(** What the check of one field appends to [lowConfidenceFields] and to
    [clarificationQuestions]. *)
Definition FieldCheck : Type :=
  (list string * list ClarificationQuestion)%type.

Definition no_question : FieldCheck := ([], []).

Section Gate.

(** [x.toFixed(digits)] of the host. *)
Variable toFixed : float -> nat -> string.

(* Check drug name *)
Definition check_drug_name (f : option ExtractedField) : FieldCheck :=
  match f with
  | Some {| value := value; confidence := confidence |} =>
      if shouldRequestClarification "drug_name" confidence (Some value)
      then (["drug_name"],
            [mkQuestion "drug_name"
               (if truthy value
                then "The medication name appears to be " ++ dq ++ value
                     ++ dq ++ ". Is this correct?"
                else "The medication name could not be detected clearly. Please enter the medication name.")
               (Some value) confidence
               (if truthy value then Some [value] else None)])
      else no_question
  | None =>
      (* Drug name missing *)
      (["drug_name"],
       [mkQuestion "drug_name"
          "The medication name could not be detected. Please enter the medication name."
          None 0%float None])
  end.

(* Check strength *)
Definition check_strength (f : option ExtractedField) : FieldCheck :=
  match f with
  | Some {| value := value; confidence := confidence |} =>
      if shouldRequestClarification "strength" confidence (Some value)
      then (["strength"],
            [mkQuestion "strength"
               (if truthy value
                then "The strength appears to be " ++ dq ++ value ++ dq
                     ++ ". Is this correct?"
                else "The medication strength could not be detected clearly. Please enter the strength (e.g., 500mg).")
               (Some value) confidence
               (if truthy value then Some [value] else None)])
      else no_question
  | None =>
      (* Strength missing *)
      (["strength"],
       [mkQuestion "strength"
          "The medication strength could not be detected. Please enter the strength (e.g., 500mg)."
          None 0%float None])
  end.

(* Check frequency *)
Definition check_frequency (f : option ExtractedField) : FieldCheck :=
  match f with
  | Some {| value := value; confidence := confidence |} =>
      if shouldRequestClarification "frequency" confidence (Some value)
      then (["frequency"],
            [mkQuestion "frequency"
               (if truthy value
                then "The frequency appears to be " ++ dq ++ value ++ dq
                     ++ ". Is this correct?"
                else "How often should this medication be taken? (e.g., Once daily, Twice daily, 1-0-1)")
               (Some value) confidence
               (Some (if truthy value
                      then [value; "Once daily"; "Twice daily";
                            "Three times daily"]
                      else ["Once daily"; "Twice daily";
                            "Three times daily"]))])
      else no_question
  | None =>
      (* Frequency missing *)
      (["frequency"],
       [mkQuestion "frequency"
          "How often should this medication be taken?"
          None 0%float
          (Some ["Once daily"; "Twice daily"; "Three times daily";
                 "As needed"])])
  end.

(* Check duration (optional, only ask if rule says so) *)
Definition check_duration (f : option ExtractedField) : FieldCheck :=
  match f with
  | Some {| value := value; confidence := confidence |} =>
      if shouldRequestClarification "duration" confidence (Some value)
      then (["duration"],
            [mkQuestion "duration"
               (if truthy value
                then "The duration appears to be " ++ dq ++ value ++ dq
                     ++ ". Is this correct?"
                else "How long should this medication be taken? (e.g., 7 days, 2 weeks)")
               (Some value) confidence
               (Some (if truthy value
                      then [value; "7 days"; "14 days"; "30 days"]
                      else ["7 days"; "14 days"; "30 days";
                            "As directed"]))])
      else no_question
  | None => no_question
  end.

Definition evaluateConfidence
           (ocrResult : OCRResult) (extractedFields : option ExtractedFields)
  : ConfidenceGateResult :=
  let overallConfidence := ocr_confidence ocrResult in
  (* Check overall OCR confidence *)
  if PrimFloat.ltb overallConfidence (ocr_minimum CONFIDENCE_THRESHOLDS)
  then
    {| passed := false;
       overall_confidence := overallConfidence;
       needs_confirmation := true;
       clarification_questions :=
         [mkQuestion "image_quality"
            "The image quality is too low for accurate text extraction. Please upload a clearer image."
            None overallConfidence None];
       low_confidence_fields := ["image_quality"];
       warnings := ["Image quality below minimum threshold"] |}
  else
    let warnings :=
      if PrimFloat.ltb overallConfidence (ocr_warning CONFIDENCE_THRESHOLDS)
      then [("OCR confidence is "
               ++ toFixed (overallConfidence * 100)%float 1 ++ "%. "
               ++ "Please review the extracted information carefully.")%string]
      else [] in
    (* Check individual fields if provided *)
    let checks : list FieldCheck :=
      match extractedFields with
      | Some fields =>
          [check_drug_name (drug_name fields);
           check_strength (strength fields);
           check_frequency (frequency fields);
           check_duration (duration fields)]
      | None => []
      end in
    let lowConfidenceFields := flat_map fst checks in
    let clarificationQuestions := flat_map snd checks in
    let needsConfirmation :=
      (0 <? List.length clarificationQuestions)%nat in
    let passed :=
      PrimFloat.leb (ocr_minimum CONFIDENCE_THRESHOLDS) overallConfidence in
    {| passed := passed;
       overall_confidence := overallConfidence;
       needs_confirmation := needsConfirmation;
       clarification_questions := clarificationQuestions;
       low_confidence_fields := lowConfidenceFields;
       warnings := warnings |}.

(** The result of [checkOCRQuality]. *)
Record QualityCheck : Type := mkQualityCheck {
  acceptable : bool;
  quality_reason : option string;          (* the field [reason] *)
  quality_recommendation : option string   (* the field [recommendation] *)
}.

(** Check if OCR result has sufficient quality for processing *)
Definition checkOCRQuality (ocrResult : OCRResult) : QualityCheck :=
  (* Check overall confidence *)
  if PrimFloat.ltb (ocr_confidence ocrResult)
                   (ocr_minimum CONFIDENCE_THRESHOLDS) then
    {| acceptable := false;
       quality_reason :=
         Some ("OCR confidence ("
                 ++ toFixed (ocr_confidence ocrResult * 100)%float 1
                 ++ "%) is below minimum threshold")%string;
       quality_recommendation :=
         Some "Please upload a clearer image with better lighting and focus" |}
  (* Check if any text was extracted *)
  else if negb (truthy (ocr_text ocrResult))
          || (String.length (trim (ocr_text ocrResult)) =? 0)%nat then
    {| acceptable := false;
       quality_reason := Some "No text could be extracted from the image";
       quality_recommendation :=
         Some "Please ensure the prescription is clearly visible and not obscured" |}
  (* Check if sufficient tokens were detected *)
  else if (List.length (ocr_tokens_all ocrResult) <? 5)%nat then
    {| acceptable := false;
       quality_reason := Some "Very few words detected in the image";
       quality_recommendation :=
         Some "Please upload a complete prescription image" |}
  else
    {| acceptable := true;
       quality_reason := None;
       quality_recommendation := None |}.

End Gate.

(** The question of one entry of [medication.uncertain_fields]; a field
    name that is none of the four cases of the [switch] pushes nothing. *)
Definition question_for_field (medication : MedicationItem)
           (uncertain : string) : list ClarificationQuestion :=
  if String.eqb uncertain "name" then
    [mkQuestion "name"
       ("Is " ++ dq ++ Schemas.name medication ++ dq
          ++ " the correct medication name?")%string
       (Some (Schemas.name medication))
       (name_confidence medication) None]
  else if String.eqb uncertain "strength" then
    [mkQuestion "strength"
       ("Is " ++ dq ++ Schemas.strength medication ++ dq
          ++ " the correct strength?")%string
       (Some (Schemas.strength medication))
       (strength_confidence medication) None]
  else if String.eqb uncertain "frequency" then
    [mkQuestion "frequency"
       ("Is " ++ dq ++ frequency_normalized medication ++ dq
          ++ " the correct frequency?")%string
       (Some (Schemas.frequency medication))
       (frequency_confidence medication)
       (Some ["Once daily"; "Twice daily"; "Three times daily"])]
  else if String.eqb uncertain "duration" then
    [mkQuestion "duration"
       ("Is " ++ dq ++ Schemas.duration medication ++ dq
          ++ " the correct duration?")%string
       (Some (Schemas.duration medication))
       (duration_confidence medication)
       (Some ["7 days"; "14 days"; "30 days"; "As directed"])]
  else [].

(** Generate clarification questions for a medication item *)
Definition generateClarificationQuestionsForMedication
           (medication : MedicationItem) : list ClarificationQuestion :=
  (* Check each field *)
  if Schemas.needs_confirmation medication then
    flat_map (question_for_field medication) (uncertain_fields medication)
  else [].

End ConfidenceGate.

(* ================================================================== *)
(** * The interaction checker
      ([lib/interactions/interaction-checker.ts])                      *)
(* ================================================================== *)

Module Interactions.
Import JS Schemas.

(** An entry of [contraindications.drug_interactions]. *)
Record DrugInteractionEntry : Type := mkEntry {
  drug : string;
  interactions : list string;
  warning : string
}.

Definition CONSULT_RECOMMENDATION : string :=
  "Please consult your doctor or pharmacist about this potential interaction.".

Definition LOCAL_SOURCE : string := "Local contraindications database".

(** [t === n || t.includes(n)]: the test applied to a lower-cased table
    string [t] and a normalized medication name [n]. *)
Definition matches_name (t n : string) : bool :=
  String.eqb t n || includes t n.

(** One [if] block of the loop body: the entry's drug matches [first] and
    [item.interactions.find(...)] yields a truthy string for [second]. *)
Definition entry_interaction (item : DrugInteractionEntry)
           (first second : string) : option InteractionResult :=
  let itemDrug := toLowerCase (drug item) in
  if matches_name itemDrug first then
    match find (fun i => matches_name (toLowerCase i) second)
               (interactions item) with
    | Some interactsWith =>
        if truthy interactsWith then
          Some {| drug1 := drug item;
                  drug2 := interactsWith;
                  severity := moderate;
                  description := warning item;
                  symptoms := None;
                  mechanism := None;
                  recommendation := CONSULT_RECOMMENDATION;
                  interaction_source := LOCAL_SOURCE;
                  interaction_source_url := None |}
        else None
    | None => None
    end
  else None.

Section Table.

(** [contraindications.drug_interactions] of
    [data/contraindications.json]. *)
Variable drug_interactions : list DrugInteractionEntry.

(** The [for (const item of ...)] loop of [findInteraction]. *)
Fixpoint search_entries (items : list DrugInteractionEntry)
         (normalizedDrug1 normalizedDrug2 : string)
  : option InteractionResult :=
  match items with
  | [] => None
  | item :: rest =>
      (* Check if drug1 matches and drug2 is in interactions list *)
      match entry_interaction item normalizedDrug1 normalizedDrug2 with
      | Some result => Some result
      | None =>
          (* Check reverse *)
          match entry_interaction item normalizedDrug2 normalizedDrug1 with
          | Some result => Some result
          | None => search_entries rest normalizedDrug1 normalizedDrug2
          end
      end
  end.

Definition findInteraction (drug1 drug2 : string) : option InteractionResult :=
  let normalizedDrug1 := trim (toLowerCase drug1) in
  let normalizedDrug2 := trim (toLowerCase drug2) in
  search_entries drug_interactions normalizedDrug1 normalizedDrug2.

(** The body of the inner loop: what the pair [(i, j)] pushes. *)
Definition pair_results (drug1 drug2 : string) : list InteractionResult :=
  match findInteraction drug1 drug2 with
  | Some interaction => [interaction]
  | None => []
  end.

(** The two nested loops over [i < j]. *)
Fixpoint check_pairs (drugNames : list string) : list InteractionResult :=
  match drugNames with
  | [] => []
  | drug1 :: rest =>
      flat_map (fun drug2 => pair_results drug1 drug2) rest ++ check_pairs rest
  end.

Definition checkDrugInteractions (medications : list MedicationItem)
  : list InteractionResult :=
  let drugNames := map name medications in
  check_pairs drugNames.

End Table.

(** An entry of [contraindications.conditions]; the four drug lists are
    optional properties. *)
Record ConditionEntry : Type := mkConditionEntry {
  condition : string;
  high_risk_drugs : option (list string);
  caution_drugs : option (list string);
  avoid_drugs : option (list string);
  monitor_drugs : option (list string);
  condition_warning : string             (* the field [warning] *)
}.

(** An entry of [contraindications.allergies]. *)
Record AllergyEntry : Type := mkAllergyEntry {
  allergy : string;
  allergy_avoid_drugs : list string;     (* the field [avoid_drugs] *)
  allergy_warning : string               (* the field [warning] *)
}.

Inductive ConditionSeverity : Type := caution | avoid | monitor.

Record DrugConditionInteraction : Type := mkConditionInteraction {
  dc_drug : string;                      (* the field [drug] *)
  dc_condition : string;                 (* the field [condition] *)
  dc_severity : ConditionSeverity;       (* the field [severity] *)
  dc_description : string;               (* the field [description] *)
  dc_recommendation : string;            (* the field [recommendation] *)
  dc_source : string                     (* the field [source] *)
}.

(** [{ drug, allergy, warning }] *)
Record DrugAllergyWarning : Type := mkAllergyWarning {
  aw_drug : string;                      (* the field [drug] *)
  aw_allergy : string;                   (* the field [allergy] *)
  aw_warning : string                    (* the field [warning] *)
}.

(** [list || []] *)
Definition or_empty (l : option (list string)) : list string :=
  match l with Some xs => xs | None => [] end.

(** [list?.includes(x)] as a condition. *)
Definition opt_array_includes (l : option (list string)) (x : string) : bool :=
  match l with Some xs => array_includes xs x | None => false end.

(** The body of the loop of [findDrugConditionInteraction] for one entry. *)
Definition condition_entry_interaction (item : ConditionEntry)
           (normalizedDrug normalizedCondition : string)
  : option DrugConditionInteraction :=
  let itemCondition := toLowerCase (condition item) in
  if matches_name itemCondition normalizedCondition then
    (* Check if drug is in high_risk_drugs, caution_drugs, avoid_drugs, or
       monitor_drugs *)
    let allDrugs :=
      or_empty (high_risk_drugs item) ++ or_empty (caution_drugs item)
      ++ or_empty (avoid_drugs item) ++ or_empty (monitor_drugs item) in
    match find (fun d => matches_name (toLowerCase d) normalizedDrug)
               allDrugs with
    | Some matchingDrug =>
        if truthy matchingDrug then
          (* Determine severity *)
          let severity :=
            if opt_array_includes (avoid_drugs item) matchingDrug then avoid
            else if opt_array_includes (monitor_drugs item) matchingDrug
            then monitor
            else caution in
          Some {| dc_drug := matchingDrug;
                  dc_condition := condition item;
                  dc_severity := severity;
                  dc_description := condition_warning item;
                  dc_recommendation :=
                    "Please inform your doctor about this condition.";
                  dc_source := LOCAL_SOURCE |}
        else None
    | None => None
    end
  else None.

(** The body of the loop of [findDrugAllergy] for one entry. *)
Definition allergy_entry_match (item : AllergyEntry)
           (normalizedDrug normalizedAllergy : string)
  : option DrugAllergyWarning :=
  let itemAllergy := toLowerCase (allergy item) in
  if matches_name itemAllergy normalizedAllergy then
    match find (fun d => matches_name (toLowerCase d) normalizedDrug)
               (allergy_avoid_drugs item) with
    | Some matchingDrug =>
        if truthy matchingDrug then
          Some {| aw_drug := matchingDrug;
                  aw_allergy := allergy item;
                  aw_warning := allergy_warning item |}
        else None
    | None => None
    end
  else None.

(** The first entry of a table for which the loop body returns. *)
Fixpoint first_result {E R : Type} (body : E -> option R) (items : list E)
  : option R :=
  match items with
  | [] => None
  | item :: rest =>
      match body item with
      | Some result => Some result
      | None => first_result body rest
      end
  end.

(** [result ? [result] : []]: what one iteration pushes. *)
Definition pushed {R : Type} (result : option R) : list R :=
  match result with Some r => [r] | None => [] end.

Record InteractionReport : Type := mkReport {
  report_drug_interactions : list InteractionResult;  (* [drug_interactions] *)
  condition_interactions : list DrugConditionInteraction;
  allergy_warnings : list DrugAllergyWarning;
  has_interactions : bool
}.

Section Tables.

(** The three tables of [data/contraindications.json]. *)
Variable drug_interactions : list DrugInteractionEntry.
Variable condition_table : list ConditionEntry.   (* [conditions] *)
Variable allergy_table : list AllergyEntry.       (* [allergies] *)

(** Find drug-condition interaction *)
Definition findDrugConditionInteraction (drugName condition : string)
  : option DrugConditionInteraction :=
  let normalizedDrug := trim (toLowerCase drugName) in
  let normalizedCondition := trim (toLowerCase condition) in
  first_result
    (fun item =>
       condition_entry_interaction item normalizedDrug normalizedCondition)
    condition_table.

(** Check for drug-condition interactions *)
Definition checkDrugConditionInteractions
           (medications : list MedicationItem) (conditions : list string)
  : list DrugConditionInteraction :=
  flat_map
    (fun medication =>
       flat_map
         (fun condition =>
            pushed (findDrugConditionInteraction (name medication) condition))
         conditions)
    medications.

(** Find drug allergy match *)
Definition findDrugAllergy (drugName allergy : string)
  : option DrugAllergyWarning :=
  let normalizedDrug := trim (toLowerCase drugName) in
  let normalizedAllergy := trim (toLowerCase allergy) in
  first_result
    (fun item => allergy_entry_match item normalizedDrug normalizedAllergy)
    allergy_table.

(** Check for drug allergies *)
Definition checkDrugAllergies
           (medications : list MedicationItem) (allergies : list string)
  : list DrugAllergyWarning :=
  flat_map
    (fun medication =>
       flat_map
         (fun allergy => pushed (findDrugAllergy (name medication) allergy))
         allergies)
    medications.

(** Get comprehensive interaction report *)
Definition getInteractionReport
           (medications : list MedicationItem)
           (conditions allergies : option (list string))
  : InteractionReport :=
  let drugInteractions := checkDrugInteractions drug_interactions medications in
  let conditionInteractions :=
    match conditions with
    | Some cs => checkDrugConditionInteractions medications cs
    | None => []
    end in
  let allergyWarnings :=
    match allergies with
    | Some als => checkDrugAllergies medications als
    | None => []
    end in
  {| report_drug_interactions := drugInteractions;
     condition_interactions := conditionInteractions;
     allergy_warnings := allergyWarnings;
     has_interactions :=
       (0 <? List.length drugInteractions)%nat
       || (0 <? List.length conditionInteractions)%nat
       || (0 <? List.length allergyWarnings)%nat |}.

End Tables.

End Interactions.

(* ================================================================== *)
(** * The explainability composer
      ([lib/explainability/explainability-generator.ts])               *)
(* ================================================================== *)

Module Explainability.
Import JS Schemas.

(** [{ value: string; confidence: number }] *)
Record DetectedField : Type := mkDetected {
  value : string;
  confidence : float
}.

(** [{ value: string | null; confidence: number }] *)
Record DetectedOptionalField : Type := mkDetectedOpt {
  opt_value : option string;           (* the field [value] *)
  opt_confidence : float               (* the field [confidence] *)
}.

Record DetectedFields : Type := mkDetectedFields {
  detected_name : DetectedField;                    (* [name] *)
  detected_strength : DetectedField;                (* [strength] *)
  detected_frequency : DetectedField;               (* [frequency] *)
  detected_duration : DetectedField;                (* [duration] *)
  detected_food_instruction : DetectedOptionalField (* [food_instruction] *)
}.

Record EvidenceToken : Type := mkEvidenceToken {
  evidence_field : string;             (* the field [field] *)
  evidence_text : string;              (* the field [text] *)
  evidence_bbox : Bbox;                (* the field [bbox] *)
  evidence_confidence : float          (* the field [confidence] *)
}.

Record PrescriptionEvidence : Type := mkPrescriptionEvidence {
  evidence_tokens : list EvidenceToken; (* the field [ocr_tokens] *)
  matched_rules : list string;
  original_text_snippet : string
}.

Record WhyThisPlan : Type := mkWhyThisPlan {
  schedule_explanation : string;
  timing_rationale : string;
  duration_reasoning : string;
  food_instruction_reasoning : option string
}.

Record DrugDetails : Type := mkDrugDetails {
  what_it_treats : string;
  how_it_works : option string;
  details_side_effects : list string;  (* the field [common_side_effects] *)
  details_precautions : list string;   (* the field [precautions] *)
  details_source : string;             (* the field [source] *)
  details_source_url : option string   (* the field [source_url] *)
}.

Record Uncertainty : Type := mkUncertainty {
  has_uncertainty : bool;
  unclear_fields : list string;
  confirmation_questions : list ClarificationQuestion
}.

Record ExplainabilityCard : Type := mkCard {
  medication_name : string;
  what_was_detected : DetectedFields;  (* [what_was_detected.fields] *)
  prescription_evidence : PrescriptionEvidence;
  why_this_plan : WhyThisPlan;
  drug_details : DrugDetails;
  uncertainty : Uncertainty
}.

Definition ZERO_BBOX : Bbox :=
  ((0, 0), (0, 0), (0, 0), (0, 0))%float.

(** [evidence.ocr_tokens[0]?.bbox || [[0, 0], [0, 0], [0, 0], [0, 0]]] *)
Definition first_bbox (e : FieldEvidence) : Bbox :=
  match ocr_tokens e with
  | tok :: _ => bbox tok
  | [] => ZERO_BBOX
  end.

(** [evidence.matched_rule || fallback] *)
Definition rule_or (e : FieldEvidence) (fallback : string) : string :=
  match matched_rule e with
  | Some r => if truthy r then r else fallback
  | None => fallback
  end.

(** The placeholder of a drug-info lookup miss. *)
Definition NOT_AVAILABLE : DrugDetails :=
  {| what_it_treats := "Information not available";
     how_it_works := None;
     details_side_effects := [];
     details_precautions := [];
     details_source := "Not found";
     details_source_url := None |}.

Section Composer.

(** [String(x)] of a number, as a template string prints it. *)
Variable Number_toString : float -> string.

(** The text a template string prints for an optional number that the
    surrounding test found truthy. *)
Definition print_count (o : option float) : string :=
  match o with Some x => Number_toString x | None => "undefined" end.

Definition generateScheduleExplanation (medication : MedicationItem) : string :=
  let buckets := timing_buckets medication in
  let parts : list string :=
    (if truthy_num_opt (morning buckets)
     then [(print_count (morning buckets) ++ " in the morning")%string] else [])
    ++ (if truthy_num_opt (afternoon buckets)
        then [(print_count (afternoon buckets) ++ " in the afternoon")%string]
        else [])
    ++ (if truthy_num_opt (evening buckets)
        then [(print_count (evening buckets) ++ " in the evening")%string]
        else [])
    ++ (if truthy_num_opt (night buckets)
        then [(print_count (night buckets) ++ " at night")%string] else []) in
  if (List.length parts =? 0)%nat then "Take as directed by your doctor."
  else
    let schedule := join ", " parts in
    ("Based on " ++ dq ++ frequency medication ++ dq
       ++ " in the prescription, take " ++ schedule ++ ". "
       ++ "This means " ++ toLowerCase (frequency_normalized medication)
       ++ ".")%string.

Definition generateTimingRationale (medication : MedicationItem) : string :=
  let from_buckets :=
    if truthy_num_opt (morning (timing_buckets medication))
       && negb (truthy_num_opt (evening (timing_buckets medication)))
    then "Taking this medication in the morning helps maintain consistent levels throughout the day."
    else if truthy_num_opt (night (timing_buckets medication))
            && negb (truthy_num_opt (morning (timing_buckets medication)))
    then "Taking this medication at night may help with better absorption or reduce daytime side effects."
    else "The timing is based on the prescription instructions to maintain consistent medication levels." in
  match food_instruction medication with
  | Some fi =>
      if truthy fi then
        let instruction := toLowerCase fi in
        if includes instruction "before" || includes instruction "ac" then
          ("The prescription indicates to take this medication before meals. "
             ++ "This helps with better absorption or reduces stomach upset.")%string
        else if includes instruction "after" || includes instruction "pc" then
          ("The prescription indicates to take this medication after meals. "
             ++ "This helps reduce stomach irritation.")%string
        else if includes instruction "with" then
          ("The prescription indicates to take this medication with food. "
             ++ "This helps with absorption and reduces stomach upset.")%string
        else from_buckets
      else from_buckets
  | None => from_buckets
  end.

Definition generateDurationReasoning (medication : MedicationItem) : string :=
  if String.eqb (duration medication) "As directed" then
    "The prescription does not specify a duration. Continue taking as directed by your doctor."
  else
    match duration_evidence medication with
    | Some ev =>
        ("The prescription specifies " ++ dq ++ ev_value ev ++ dq
           ++ " as the duration. "
           ++ "Complete the full course even if you feel better.")%string
    | None =>
        ("Take for " ++ duration medication
           ++ ". Complete the full course as prescribed.")%string
    end.

Definition generateFoodInstructionReasoning (instruction : string) : string :=
  let lower := toLowerCase instruction in
  if includes lower "before" || includes lower "ac" then
    "Taking before meals (usually 30-60 minutes) helps with absorption or prevents stomach upset."
  else if includes lower "after" || includes lower "pc" then
    "Taking after meals helps reduce stomach irritation from the medication."
  else if includes lower "with" then
    "Taking with food helps with absorption and reduces the chance of stomach upset."
  else if includes lower "empty" then
    "Taking on an empty stomach (1 hour before or 2 hours after food) ensures proper absorption."
  else ("Follow the instruction: " ++ instruction)%string.

Definition generateExplainabilityCard
           (medication : MedicationItem) (drugInfo : option DrugInfo)
  : ExplainabilityCard :=
  {| medication_name := name medication;
     (* Section 1: What was detected *)
     what_was_detected :=
       {| detected_name :=
            mkDetected (name medication) (name_confidence medication);
          detected_strength :=
            mkDetected (strength medication) (strength_confidence medication);
          detected_frequency :=
            mkDetected (frequency_normalized medication)
                       (frequency_confidence medication);
          detected_duration :=
            mkDetected (duration medication) (duration_confidence medication);
          detected_food_instruction :=
            mkDetectedOpt
              (if truthy_opt (food_instruction medication)
               then food_instruction medication else None)
              (match food_instruction_confidence medication with
               | Some c => if truthy_num c then c else 0%float
               | None => 0%float
               end) |};
     (* Section 2: Prescription evidence *)
     prescription_evidence :=
       {| evidence_tokens :=
            [mkEvidenceToken "name" (ev_value (name_evidence medication))
               (first_bbox (name_evidence medication))
               (ev_confidence (name_evidence medication));
             mkEvidenceToken "strength"
               (ev_value (strength_evidence medication))
               (first_bbox (strength_evidence medication))
               (ev_confidence (strength_evidence medication));
             mkEvidenceToken "frequency"
               (ev_value (frequency_evidence medication))
               (first_bbox (frequency_evidence medication))
               (ev_confidence (frequency_evidence medication))];
          matched_rules :=
            [rule_or (name_evidence medication) "drug_name_extraction";
             rule_or (strength_evidence medication) "strength_extraction";
             rule_or (frequency_evidence medication) "frequency_extraction"];
          original_text_snippet :=
            (name medication ++ " " ++ strength medication ++ " "
               ++ frequency medication)%string |};
     (* Section 3: Why this plan *)
     why_this_plan :=
       {| schedule_explanation := generateScheduleExplanation medication;
          timing_rationale := generateTimingRationale medication;
          duration_reasoning := generateDurationReasoning medication;
          food_instruction_reasoning :=
            match food_instruction medication with
            | Some fi =>
                if truthy fi then Some (generateFoodInstructionReasoning fi)
                else None
            | None => None
            end |};
     (* Section 4: Drug details *)
     drug_details :=
       match drugInfo with
       | Some info =>
           {| what_it_treats := join ", " (indications info);
              how_it_works := mechanism_of_action info;
              details_side_effects := common_side_effects info;
              details_precautions := precautions info;
              details_source :=
                match source info with
                | local => "Local Knowledge Base"
                | _ => "OpenFDA"
                end;
              details_source_url := source_url info |}
       | None => NOT_AVAILABLE
       end;
     (* Section 5: Uncertainty *)
     uncertainty :=
       {| has_uncertainty := needs_confirmation medication;
          unclear_fields := uncertain_fields medication;
          confirmation_questions := [] |} |}.

(** [xs.map((x, index) => f(x, index))], from the index [index]. *)
Fixpoint map_indexed {A B : Type} (f : A -> nat -> B) (index : nat)
         (xs : list A) : list B :=
  match xs with
  | [] => []
  | x :: rest => f x index :: map_indexed f (S index) rest
  end.

(** Generate explainability cards for all medications;
    [drugInfoList[index] || null] is [null] for [null] and for an index
    past the end of the list. *)
Definition generateExplainabilityCards
           (medications : list MedicationItem)
           (drugInfoList : list (option DrugInfo))
  : list ExplainabilityCard :=
  map_indexed
    (fun med index =>
       generateExplainabilityCard med (nth index drugInfoList None))
    0 medications.

End Composer.

End Explainability.

(* ================================================================== *)
(** * The nudge generator ([lib/nudges/nudge-generator.ts])            *)
(* ================================================================== *)

Module Nudges.
Import JS Schemas.

Inductive Category : Type :=
| implementation_intention
| friction_reduction
| positive_reinforcement
| why_it_matters.

Inductive Timing : Type :=
| immediate | before_dose | after_dose | missed_dose | daily_summary.

(** [plan_value: any]: the generator stores a bucket count or a string. *)
Inductive PlanValue : Type :=
| NumberValue (x : option float)
| StringValue (s : string).

Record Evidence : Type := mkEvidence {
  medication : string;
  plan_field : string;
  plan_value : PlanValue
}.

(** [priority] holds one of the integer literals 6 to 9. *)
Record Nudge : Type := mkNudge {
  id : string;
  category : Category;
  behavioral_principle : string;
  message : string;
  evidence : Evidence;
  timing : Timing;
  priority : Z;
  created_at : string;
  expires_at : option string
}.

Inductive NudgeStyle : Type := gentle | motivational | factual.

Record MealTimes : Type := mkMealTimes {
  breakfast : string;
  lunch : string;
  dinner : string
}.

Record UserPreferences : Type := mkPreferences {
  wake_time : string;
  sleep_time : string;
  meal_times : MealTimes;
  preferred_nudge_style : NudgeStyle;
  timezone : string
}.

Inductive PatternType : Type :=
| time_of_day | day_of_week | medication_specific.

Record AdherencePattern : Type := mkPattern {
  pattern_type : PatternType;
  pattern_description : string;        (* the field [description] *)
  pattern_frequency : float;           (* the field [frequency] *)
  suggestion : string
}.

Definition DEFAULT_PREFERENCES : UserPreferences :=
  {| wake_time := "07:00";
     sleep_time := "22:00";
     meal_times := mkMealTimes "08:00" "13:00" "19:00";
     preferred_nudge_style := gentle;
     timezone := "Asia/Kolkata" |}.

(** [s?.includes(sub)] as a condition: [undefined] is falsy. *)
Definition opt_includes (o : option string) (sub : string) : bool :=
  match o with Some s => includes s sub | None => false end.

(** [a || b] on two optional numbers. *)
Definition or_num (a b : option float) : option float :=
  if truthy_num_opt a then a else b.

(** [table[key]] on an object literal given by its entries (the keys
    inherited from [Object.prototype] are outside the model). *)
Fixpoint lookup (table : list (string * string)) (key : string)
  : option string :=
  match table with
  | [] => None
  | (k, v) :: rest => if String.eqb k key then Some v else lookup rest key
  end.

Definition whyItMattersMessages (medication : MedicationItem)
  : list (string * string) :=
  [("amlodipine", "Taking Amlodipine as prescribed helps maintain healthy blood pressure");
   ("losartan", "Consistent Losartan helps protect your heart and kidneys");
   ("metoprolol", "Regular Metoprolol helps keep your heart rate steady");
   ("metformin", "Taking Metformin as prescribed helps manage blood sugar levels");
   ("glimepiride", "Consistent Glimepiride helps control blood sugar throughout the day");
   ("atorvastatin", "Regular Atorvastatin helps maintain healthy cholesterol levels");
   ("rosuvastatin", "Taking Rosuvastatin as prescribed supports heart health");
   ("azithromycin", "Completing the full course of Azithromycin ensures the infection is fully treated");
   ("amoxicillin", "Finishing all Amoxicillin doses prevents antibiotic resistance");
   ("paracetamol", "Taking Paracetamol as directed provides effective pain and fever relief");
   ("default", "Taking " ++ name medication ++ " as prescribed helps it work effectively")%string].

(** U+1F4AA, the last character of the reinforcement message, in UTF-8. *)
Definition FLEXED_BICEPS : string :=
  String (ascii_of_nat 240) (String (ascii_of_nat 159)
    (String (ascii_of_nat 146) (String (ascii_of_nat 170) EmptyString))).

(** The comparator [(a, b) => b.priority - a.priority] puts [a] first when
    its priority is the larger one; [Array.prototype.sort] is stable, so
    nudges of equal priority keep their order.  [insert_nudge] places a
    nudge in front of a list that is already in order, and the sort
    inserts from the right. *)
Fixpoint insert_nudge (n : Nudge) (sorted : list Nudge) : list Nudge :=
  match sorted with
  | [] => [n]
  | m :: rest =>
      if (priority m <=? priority n)%Z then n :: m :: rest
      else m :: insert_nudge n rest
  end.

Definition sort_by_priority (nudges : list Nudge) : list Nudge :=
  fold_right insert_nudge [] nudges.

Section Clock.

(** [new Date().toISOString()]: the text of the [t]-th reading of the
    clock during one call of [generateNudges].  The generators take the
    number of readings made so far and return it with their nudges. *)
Variable clock : nat -> string.

Definition generateImplementationIntentionNudges
           (medication : MedicationItem) (prefs : UserPreferences) (t : nat)
  : list Nudge * nat :=
  let nudges : list Nudge := [] in
  let buckets := timing_buckets medication in
  (* Morning dose -> link to breakfast *)
  let '(nudges, t) :=
    if truthy_num_opt (morning buckets) then
      let habit :=
        if opt_includes (food_instruction medication) "before"
        then "Before breakfast"
        else if opt_includes (food_instruction medication) "after"
        then "After breakfast"
        else "With breakfast" in
      (nudges ++
       [{| id := ("impl_intent_morning_" ++ name medication)%string;
           category := implementation_intention;
           behavioral_principle := "EAST: Easy - Implementation Intention";
           message := (habit ++ ", take your " ++ name medication ++ " "
                         ++ strength medication)%string;
           evidence := mkEvidence (name medication) "timing_buckets.morning"
                                  (NumberValue (morning buckets));
           timing := before_dose;
           priority := 9;
           created_at := clock t;
           expires_at := None |}],
       S t)
    else (nudges, t) in
  (* Evening/Night dose -> link to dinner or bedtime *)
  let '(nudges, t) :=
    if truthy_num_opt (evening buckets) || truthy_num_opt (night buckets) then
      let timing := if truthy_num_opt (night buckets)
                    then "bedtime" else "dinner" in
      let habit :=
        if opt_includes (food_instruction medication) "before"
        then ("Before " ++ timing)%string
        else if opt_includes (food_instruction medication) "after"
        then ("After " ++ timing)%string
        else if String.eqb timing "bedtime"
        then "When you brush your teeth at night"
        else ("With " ++ timing)%string in
      (nudges ++
       [{| id := ("impl_intent_evening_" ++ name medication)%string;
           category := implementation_intention;
           behavioral_principle := "EAST: Easy - Implementation Intention";
           message := (habit ++ ", take your " ++ name medication ++ " "
                         ++ strength medication)%string;
           evidence :=
             mkEvidence (name medication)
                        (if truthy_num_opt (night buckets)
                         then "timing_buckets.night"
                         else "timing_buckets.evening")
                        (NumberValue (or_num (night buckets) (evening buckets)));
           timing := before_dose;
           priority := 9;
           created_at := clock t;
           expires_at := None |}],
       S t)
    else (nudges, t) in
  (nudges, t).

Definition generateFrictionReductionNudges
           (medication : MedicationItem) (t : nat) : list Nudge * nat :=
  ([{| id := ("friction_reduction_" ++ name medication)%string;
       category := friction_reduction;
       behavioral_principle := "EAST: Easy - Reduce Friction";
       message := ("One-tap to mark " ++ dq ++ name medication ++ dq
                     ++ " as taken")%string;
       evidence := mkEvidence (name medication) "name"
                              (StringValue (name medication));
       timing := immediate;
       priority := 7;
       created_at := clock t;
       expires_at := None |}],
   S t).

Definition generateWhyItMattersNudges
           (medication : MedicationItem) (t : nat) : list Nudge * nat :=
  let nudges : list Nudge := [] in
  let table := whyItMattersMessages medication in
  let drugNameLower := toLowerCase (name medication) in
  let message :=
    if truthy_opt (lookup table drugNameLower)
    then match lookup table drugNameLower with
         | Some m => m
         | None => EmptyString
         end
    else match lookup table "default" with
         | Some m => m
         | None => EmptyString
         end in
  let nudges :=
    nudges ++
    [{| id := ("why_matters_" ++ name medication)%string;
        category := why_it_matters;
        behavioral_principle := "COM-B: Motivation - Reflective";
        message := message;
        evidence := mkEvidence (name medication) "name"
                               (StringValue (name medication));
        timing := before_dose;
        priority := 6;
        created_at := clock t;
        expires_at := None |}] in
  let t := S t in
  (* Duration-specific nudge for antibiotics *)
  if truthy (duration medication)
     && negb (includes (duration medication) "directed")
  then
    (nudges ++
     [{| id := ("duration_reminder_" ++ name medication)%string;
         category := why_it_matters;
         behavioral_principle := "COM-B: Motivation - Reflective";
         message := ("Complete the full " ++ duration medication
                       ++ " course for best results")%string;
         evidence := mkEvidence (name medication) "duration"
                                (StringValue (duration medication));
         timing := daily_summary;
         priority := 7;
         created_at := clock t;
         expires_at := None |}],
     S t)
  else (nudges, t).

Definition generatePositiveReinforcementNudges
           (patterns : list AdherencePattern) (t : nat) : list Nudge * nat :=
  ([{| id := "positive_reinforcement_streak";
       category := positive_reinforcement;
       behavioral_principle := "EAST: Attractive - Positive Reinforcement";
       message := ("You're building a great medication routine! Keep it up "
                     ++ FLEXED_BICEPS)%string;
       evidence := mkEvidence "all" "adherence" (StringValue "streak");
       timing := daily_summary;
       priority := 8;
       created_at := clock t;
       expires_at := None |}],
   S t).

(** The [for (const medication of medications)] loop: each medication
    pushes its three groups of nudges, in this order. *)
Fixpoint nudges_of_medications
         (medications : list MedicationItem) (prefs : UserPreferences)
         (t : nat) : list Nudge * nat :=
  match medications with
  | [] => ([], t)
  | medication :: rest =>
      (* 1. Implementation Intention Nudges *)
      let '(n1, t) := generateImplementationIntentionNudges medication prefs t in
      (* 2. Friction Reduction Nudges *)
      let '(n2, t) := generateFrictionReductionNudges medication t in
      (* 3. Why It Matters Nudges *)
      let '(n3, t) := generateWhyItMattersNudges medication t in
      let '(more, t) := nudges_of_medications rest prefs t in
      (n1 ++ n2 ++ n3 ++ more, t)
  end.

(** All the nudges pushed before the sort. *)
Definition all_nudges
           (medications : list MedicationItem)
           (userPreferences : option UserPreferences)
           (adherencePatterns : option (list AdherencePattern))
  : list Nudge :=
  (* Default preferences if not provided *)
  let prefs :=
    match userPreferences with
    | Some p => p
    | None => DEFAULT_PREFERENCES
    end in
  let '(nudges, t) := nudges_of_medications medications prefs 0 in
  (* 4. Positive Reinforcement Nudges *)
  match adherencePatterns with
  | Some patterns =>
      nudges ++ fst (generatePositiveReinforcementNudges patterns t)
  | None => nudges
  end.

Definition generateNudges
           (medications : list MedicationItem)
           (userPreferences : option UserPreferences)
           (adherencePatterns : option (list AdherencePattern))
  : list Nudge :=
  (* Sort by priority and return top nudges *)
  firstn 5 (sort_by_priority
              (all_nudges medications userPreferences adherencePatterns)).

End Clock.

End Nudges.

(* ================================================================== *)
(** * Adherence scoring ([lib/adherence.ts])                           *)
(* ================================================================== *)

Module Adherence.
Import JS Extractor.

Record AdherenceNudge : Type := mkAdherenceNudge {
  nudge_id : Z;                          (* the field [id] *)
  nudge_category : string;               (* the field [category] *)
  nudge : string;
  rationale : string
}.

(** The score and the counts are integers far below 2^53, so [Z] stands
    for the numbers. *)
Record AdherenceResult : Type := mkAdherenceResult {
  score : Z;
  nudges : list (option AdherenceNudge);
  explanation : string
}.

(** [String(n)] of an array length. *)
Definition count_to_string (n : nat) : string :=
  NilEmpty.string_of_uint (Nat.to_uint n).

(** Truthiness of a bucket count: a number other than 0. *)
Definition truthy_count (o : option Z) : bool :=
  match o with Some z => negb (z =? 0)%Z | None => false end.

(** [set.add(x)] on a [Set<string>] kept in insertion order. *)
Definition set_add (x : string) (set : list string) : list string :=
  if array_includes set x then set else set ++ [x].

(** The body of [medications.forEach] that fills [timingVariety]. *)
Definition add_timings (timingVariety : list string) (m : Medication)
  : list string :=
  let timingVariety :=
    if truthy_count (morning (timing_buckets m))
    then set_add "morning" timingVariety else timingVariety in
  let timingVariety :=
    if truthy_count (afternoon (timing_buckets m))
    then set_add "afternoon" timingVariety else timingVariety in
  let timingVariety :=
    if truthy_count (evening (timing_buckets m))
    then set_add "evening" timingVariety else timingVariety in
  if truthy_count (night (timing_buckets m))
  then set_add "night" timingVariety else timingVariety.

Section Library.

(** [nudgeLibrary[i]] of [data/nudge_library.json]; [None] is an index
    past the end of the array. *)
Variable nudgeLibrary : nat -> option AdherenceNudge.

Definition selectNudges (medications : list Medication) (score : Z)
  : list (option AdherenceNudge) :=
  let selectedNudges : list (option AdherenceNudge) := [] in
  let medCount := List.length medications in
  (* Always include timing nudge *)
  let selectedNudges := selectedNudges ++ [nudgeLibrary 0] in
  let selectedNudges := selectedNudges ++ [nudgeLibrary 1] in
  (* If complex regimen, add organization nudges *)
  let selectedNudges :=
    if (3 <? medCount)%nat
    then selectedNudges ++ [nudgeLibrary 2] ++ [nudgeLibrary 3]
    else selectedNudges in
  (* If score is lower, add more support nudges *)
  let selectedNudges :=
    if (score <? 80)%Z
    then selectedNudges ++ [nudgeLibrary 5] ++ [nudgeLibrary 6]
    else selectedNudges in
  (* Add understanding nudge *)
  let selectedNudges := selectedNudges ++ [nudgeLibrary 4] in
  (* If very complex, add simplification nudge *)
  let selectedNudges :=
    if (5 <? medCount)%nat
    then selectedNudges ++ [nudgeLibrary 8]
    else selectedNudges in
  (* Add refill reminder *)
  let selectedNudges := selectedNudges ++ [nudgeLibrary 7] in
  (* Limit to 5-7 nudges *)
  firstn (Nat.min 7 (List.length selectedNudges)) selectedNudges.

Definition calculateAdherenceScore (medications : list Medication)
  : AdherenceResult :=
  let score := 100%Z in
  let factors : list string := [] in
  (* Factor 1: Complexity (number of medications) *)
  let medCount := List.length medications in
  let score :=
    if (5 <? medCount)%nat then (score - 15)%Z
    else if (3 <? medCount)%nat then (score - 8)%Z
    else score in
  let factors :=
    if (5 <? medCount)%nat
    then factors ++ ["High number of medications (>5) increases complexity"]
    else if (3 <? medCount)%nat
    then factors ++ ["Moderate number of medications (3-5)"]
    else factors in
  (* Factor 2: Frequency complexity (multiple times per day) *)
  let complexFrequencies :=
    filter (fun m => String.eqb (dose_pattern m) "TDS"
                     || String.eqb (dose_pattern m) "QDS"
                     || String.eqb (dose_pattern m) "QID")
           medications in
  let score :=
    if (0 <? List.length complexFrequencies)%nat
    then (score - Z.of_nat (List.length complexFrequencies) * 5)%Z
    else score in
  let factors :=
    if (0 <? List.length complexFrequencies)%nat
    then factors ++ [(count_to_string (List.length complexFrequencies)
                        ++ " medication(s) require 3+ doses per day")%string]
    else factors in
  (* Factor 3: Food instruction complexity *)
  let foodInstructions :=
    filter (fun m => truthy_opt (food_instruction m)) medications in
  let score :=
    if (2 <? List.length foodInstructions)%nat then (score - 5)%Z
    else score in
  let factors :=
    if (2 <? List.length foodInstructions)%nat
    then factors ++ ["Multiple medications with specific food timing requirements"]
    else factors in
  (* Factor 4: PRN medications (as-needed can be forgotten) *)
  let prnMeds :=
    filter (fun m => String.eqb (dose_pattern m) "PRN") medications in
  let score :=
    if (0 <? List.length prnMeds)%nat
    then (score - Z.of_nat (List.length prnMeds) * 3)%Z
    else score in
  let factors :=
    if (0 <? List.length prnMeds)%nat
    then factors ++ [(count_to_string (List.length prnMeds)
                        ++ " PRN medication(s) may be inconsistently used")%string]
    else factors in
  (* Factor 5: Different timing requirements *)
  let timingVariety := fold_left add_timings medications [] in
  let score :=
    if (3 <? List.length timingVariety)%nat then (score - 8)%Z
    else if (2 <? List.length timingVariety)%nat then (score - 4)%Z
    else score in
  let factors :=
    if (3 <? List.length timingVariety)%nat
    then factors ++ ["Medications spread across 4+ different times of day"]
    else if (2 <? List.length timingVariety)%nat
    then factors ++ ["Medications spread across 3 different times of day"]
    else factors in
  (* Ensure score is between 0 and 100 *)
  let score := Z.max 0 (Z.min 100 score) in
  (* Select appropriate nudges *)
  let nudges := selectNudges medications score in
  let explanation :=
    if (0 <? List.length factors)%nat
    then ("Adherence factors: " ++ join "; " factors ++ ".")%string
    else "Simple medication regimen with high expected adherence." in
  {| score := score; nudges := nudges; explanation := explanation |}.

End Library.

End Adherence.

(* ================================================================== *)
(** * Safety hints ([lib/safety.ts])                                   *)
(* ================================================================== *)

Module Safety.
Import JS Extractor.

Inductive HintType : Type := interaction | condition | allergy.

Inductive HintSeverity : Type := info | caution.

Record SafetyHint : Type := mkSafetyHint {
  hint_type : HintType;                  (* the field [type] *)
  severity : HintSeverity;
  message : string;
  affected_medications : list string
}.

(** [xs.findIndex(p)]; [None] stands for -1. *)
Fixpoint findIndex {A : Type} (p : A -> bool) (xs : list A) : option nat :=
  match xs with
  | [] => None
  | x :: rest =>
      if p x then Some 0%nat
      else match findIndex p rest with
           | Some i => Some (S i)
           | None => None
           end
  end.

(** [index === i] for the result [i] of [findIndex]. *)
Definition index_is (index : nat) (i : option nat) : bool :=
  match i with Some j => (index =? j)%nat | None => false end.

(** [xs.filter((x, index) => p(x, index))], from the index [index]. *)
Fixpoint filter_indexed {A : Type} (p : A -> nat -> bool) (index : nat)
         (xs : list A) : list A :=
  match xs with
  | [] => []
  | x :: rest =>
      if p x index then x :: filter_indexed p (S index) rest
      else filter_indexed p (S index) rest
  end.

(** The filter that deduplicates the hints: a hint stays when it is the
    first of the array with its message. *)
Definition unique_hints (hints : list SafetyHint) : list SafetyHint :=
  filter_indexed
    (fun hint index =>
       index_is index
                (findIndex (fun h => String.eqb (message h) (message hint))
                           hints))
    0 hints.

Section Contraindications.

(** The three tables of [data/contraindications.json]. *)
Variable drug_interactions : list Interactions.DrugInteractionEntry.
Variable conditions : list Interactions.ConditionEntry.
Variable allergies : list Interactions.AllergyEntry.

(** The body of the loop over the medications: what one medication
    pushes. *)
Definition interaction_hints (drugNames : list string) (med : Medication)
  : list SafetyHint :=
  let drugLower := toLowerCase (drug_name med) in
  (* Find contraindication info for this drug *)
  match find (fun d =>
                includes drugLower (toLowerCase (Interactions.drug d))
                || includes (toLowerCase (Interactions.drug d)) drugLower)
             drug_interactions with
  | Some drugInfo =>
      (* Check if any interacting drugs are in the medication list *)
      let foundInteractions :=
        filter (fun interactingDrug =>
                  existsb (fun name =>
                             includes name (toLowerCase interactingDrug)
                             || includes (toLowerCase interactingDrug) name)
                          drugNames)
               (Interactions.interactions drugInfo) in
      if (0 <? List.length foundInteractions)%nat then
        [{| hint_type := interaction;
            severity := caution;
            message := (drug_name med ++ ": "
                          ++ Interactions.warning drugInfo)%string;
            affected_medications := drug_name med :: foundInteractions |}]
      else
        (* Add general interaction info even if not found in current list *)
        [{| hint_type := interaction;
            severity := info;
            message := (drug_name med ++ ": "
                          ++ Interactions.warning drugInfo)%string;
            affected_medications := [drug_name med] |}]
  | None => []
  end.

(** What one entry of the allergy table pushes. *)
Definition allergy_hints (medications : list Medication)
           (allergyInfo : Interactions.AllergyEntry) : list SafetyHint :=
  let affectedMeds :=
    filter (fun med =>
              existsb (fun drug =>
                         includes (toLowerCase (drug_name med))
                                  (toLowerCase drug))
                      (Interactions.allergy_avoid_drugs allergyInfo))
           medications in
  if (0 <? List.length affectedMeds)%nat then
    [{| hint_type := allergy;
        severity := caution;
        message := Interactions.allergy_warning allergyInfo;
        affected_medications := map drug_name affectedMeds |}]
  else [].

(** The hints pushed before the deduplication. *)
Definition pushed_hints (medications : list Medication) : list SafetyHint :=
  let hints : list SafetyHint := [] in
  let drugNames := map (fun m => toLowerCase (drug_name m)) medications in
  (* Check for drug-drug interactions *)
  let hints := hints ++ flat_map (interaction_hints drugNames) medications in
  (* Add condition-based warnings (informational only) *)
  let highRiskDrugs :=
    filter (fun med =>
              existsb (fun cond =>
                         match Interactions.high_risk_drugs cond with
                         | Some drugs =>
                             existsb (fun drug =>
                                        includes (toLowerCase (drug_name med))
                                                 (toLowerCase drug))
                                     drugs
                         | None => false
                         end)
                      conditions)
           medications in
  let hints :=
    if (0 <? List.length highRiskDrugs)%nat then
      match find (fun c => String.eqb (Interactions.condition c) "Pregnancy")
                 conditions with
      | Some pregnancyWarning =>
          hints ++
          [{| hint_type := condition;
              severity := caution;
              message := Interactions.condition_warning pregnancyWarning;
              affected_medications := map drug_name highRiskDrugs |}]
      | None => hints
      end
    else hints in
  (* Add allergy warnings *)
  hints ++ flat_map (allergy_hints medications) allergies.

Definition generateSafetyHints (medications : list Medication)
  : list SafetyHint :=
  let hints := pushed_hints medications in
  (* Deduplicate hints *)
  let uniqueHints := unique_hints hints in
  uniqueHints.

End Contraindications.

End Safety.

(* ================================================================== *)
(** * The local drug information service
      ([lib/druginfo/drug-info-service.ts])                            *)
(* ================================================================== *)

Module DrugInfoService.
Import JS Schemas.

(** An entry of [localKnowledgeBase.drugs]. *)
Record KnowledgeBaseDrug : Type := mkDrug {
  kb_name : string;                              (* the field [name] *)
  kb_generic_name : option string;               (* [generic_name] *)
  kb_brand_names : option (list string);         (* [brand_names] *)
  kb_indications : list string;                  (* [indications] *)
  kb_mechanism_of_action : option string;        (* [mechanism_of_action] *)
  kb_common_side_effects : list string;          (* [common_side_effects] *)
  kb_serious_side_effects : option (list string); (* [serious_side_effects] *)
  kb_precautions : list string;                  (* [precautions] *)
  kb_dosage_forms : list string;                 (* [dosage_forms] *)
  kb_typical_dosage_range : option string;       (* [typical_dosage_range] *)
  kb_max_daily_dose : option string              (* [max_daily_dose] *)
}.

(** The object literal that both searches build from an entry;
    [lastUpdated] is [new Date().toISOString()]. *)
Definition to_info (drug : KnowledgeBaseDrug) (lastUpdated : string)
  : DrugInfo :=
  {| info_drug_name := kb_name drug;
     info_generic_name := kb_generic_name drug;
     brand_names := kb_brand_names drug;
     indications := kb_indications drug;
     mechanism_of_action := kb_mechanism_of_action drug;
     common_side_effects := kb_common_side_effects drug;
     serious_side_effects := kb_serious_side_effects drug;
     precautions := kb_precautions drug;
     contraindications := Some [];
     dosage_forms := kb_dosage_forms drug;
     typical_dosage_range := kb_typical_dosage_range drug;
     max_daily_dose := kb_max_daily_dose drug;
     source := local;
     source_url := None;
     last_updated := lastUpdated;
     cached := true |}.

(** The predicate of [localKnowledgeBase.drugs.find] in
    [searchLocalDrugInfo]. *)
Definition exact_match (normalizedQuery : string) (d : KnowledgeBaseDrug)
  : bool :=
  let nameMatch := String.eqb (toLowerCase (kb_name d)) normalizedQuery in
  let genericMatch :=
    match kb_generic_name d with
    | Some g => String.eqb (toLowerCase g) normalizedQuery
    | None => false
    end in
  let brandMatch :=
    match kb_brand_names d with
    | Some bs => existsb (fun b => String.eqb (toLowerCase b) normalizedQuery) bs
    | None => false
    end in
  nameMatch || genericMatch || brandMatch.

(** The score that the loop of [fuzzySearchDrugInfo] gives an entry. *)
Definition fuzzy_score (normalizedQuery : string) (drug : KnowledgeBaseDrug)
  : Z :=
  (* Exact match *)
  if String.eqb (toLowerCase (kb_name drug)) normalizedQuery then 100
  (* Starts with *)
  else if startsWith (toLowerCase (kb_name drug)) normalizedQuery then 80
  (* Contains *)
  else if includes (toLowerCase (kb_name drug)) normalizedQuery then 60
  (* Brand name match *)
  else if match kb_brand_names drug with
          | Some bs =>
              existsb (fun b => includes (toLowerCase b) normalizedQuery) bs
          | None => false
          end then 70
  (* Generic name match *)
  else if match kb_generic_name drug with
          | Some g => includes (toLowerCase g) normalizedQuery
          | None => false
          end then 75
  else 0.

(** [results.sort((a, b) => b.score - a.score)]: a stable sort, highest
    score first; [insert_scored] places an entry in front of a list that
    is already in order, and the sort inserts from the right. *)
Fixpoint insert_scored (r : KnowledgeBaseDrug * Z)
         (sorted : list (KnowledgeBaseDrug * Z))
  : list (KnowledgeBaseDrug * Z) :=
  match sorted with
  | [] => [r]
  | s :: rest =>
      if (snd s <=? snd r)%Z then r :: s :: rest
      else s :: insert_scored r rest
  end.

Definition sort_by_score (results : list (KnowledgeBaseDrug * Z))
  : list (KnowledgeBaseDrug * Z) :=
  fold_right insert_scored [] results.

Section KnowledgeBase.

(** [localKnowledgeBase.drugs] of [local-knowledge-base.json]. *)
Variable drugs : list KnowledgeBaseDrug.

(** [new Date().toISOString()]: the text of the [t]-th reading of the
    clock during one call. *)
Variable clock : nat -> string.

(** Search for drug information in local knowledge base *)
Definition searchLocalDrugInfo (drugName : string) : option DrugInfo :=
  let normalizedQuery := trim (toLowerCase drugName) in
  (* Search by name, generic name, or brand names *)
  match find (exact_match normalizedQuery) drugs with
  | Some drug => Some (to_info drug (clock 0))
  | None => None
  end.

(** Fuzzy search for drug names (handles typos and variations) *)
Definition fuzzySearchDrugInfo (query : string) : list DrugInfo :=
  let normalizedQuery := trim (toLowerCase query) in
  let results :=
    flat_map (fun drug =>
                let score := fuzzy_score normalizedQuery drug in
                if (0 <? score)%Z then [(drug, score)] else [])
             drugs in
  (* Sort by score and return top 5 *)
  Explainability.map_indexed
    (fun r index => to_info (fst r) (clock index))
    0 (firstn 5 (sort_by_score results)).

End KnowledgeBase.

End DrugInfoService.

(* ================================================================== *)
(** * The vocabulary of the specification                              *)
(* ================================================================== *)

(** The notions the properties below are stated with, and the sample
    inputs they are evaluated on. *)

Module Vocabulary.

Definition is_some {A : Type} (o : option A) : bool :=
  match o with Some _ => true | None => false end.

(** A confidence lies in the closed interval [0, 1]. *)
Definition unit_interval (c : float) : Prop :=
  PrimFloat.leb 0 c = true /\ PrimFloat.leb c 1 = true.

(** [l.length === 0] *)
Definition is_nil {A : Type} (l : list A) : bool :=
  match l with [] => true | _ :: _ => false end.

Section RegexVocabulary.
Import JS Regex.

(** Two continuations agree on the positions at or after the rest [s]. *)
Definition agree_from (s : string) (k1 k2 : cont) : Prop :=
  forall p s' c,
    (String.length s' <= String.length s)%nat -> k1 p s' c = k2 p s' c.

(** A matcher calls its continuation at or after its own position only. *)
Definition local_matcher (body : matcher) : Prop :=
  forall prev s cs k1 k2,
    agree_from s k1 k2 -> body prev s cs k1 = body prev s cs k2.

(** The continuation that always fails. *)
Definition failing : cont := fun _ _ _ => None.

End RegexVocabulary.

Section ExtractorVocabulary.
Import JS Regex Extractor.

Fixpoint all_digits (s : string) : bool :=
  match s with
  | EmptyString => true
  | String c r => is_digit c && all_digits r
  end.

(** A non-empty string of decimal digits. *)
Definition consists_of_digits (s : string) : bool :=
  negb (is_empty s) && all_digits s.

(** A token that pattern 2 takes for a drug name: three code units or
    more, not a string of digits, not a denylisted word. *)
Definition plausible_name (w : string) : bool :=
  (3 <=? String.length w)%nat
  && negb (consists_of_digits w)
  && negb (array_includes NON_MEDICATION_KEYWORDS (toLowerCase w)).

Definition is_letter (c : ascii) : bool := is_upper c || is_lower c.

Fixpoint all_letters (s : string) : bool :=
  match s with
  | EmptyString => true
  | String c r => is_letter c && all_letters r
  end.

(** The specification's words: an alphabetic token of length at least 3
    that is not in the denylist. *)
Definition alphabetic_candidate (w : string) : bool :=
  (3 <=? String.length w)%nat
  && all_letters w
  && negb (array_includes NON_MEDICATION_KEYWORDS (toLowerCase w)).

Definition first_alphabetic_token (line : string) : option string :=
  find alphabetic_candidate (split_ws (trim line)).

(** A line that [extractMedications] hands to [extractMedicationFromLine]. *)
Definition accepted_for_extraction (line : string) : bool :=
  negb (isNonMedicationLine line) && hasMedicationIndicators line.

(** Abbreviation tables without entries. *)
Definition no_frequency_table (key : string) : option FrequencyInfo := None.
Definition no_form_table (key : string) : option string := None.

Definition SAMPLE_LINE : string :=
  "Tab Amlodipine 5mg 1-0-0 x 30 days Before breakfast".

(** What the extractor returns for [SAMPLE_LINE] with empty tables. *)
Definition SAMPLE_RECORD : Medication :=
  mkMedication "Amlodipine" "5mg" "Tab" "1-0-0"
               (mkBuckets (Some 1%Z) (Some 0%Z) (Some 0%Z) None)
               "30 days" None None 1%float.

Definition STRENGTH_FIRST_LINE : string := "500mg Paracetamol OD".

Definition NO_FREQUENCY_LINE : string := "Tab Aspirin 500mg".

(** What the extractor returns for [NO_FREQUENCY_LINE] with empty tables. *)
Definition NO_FREQUENCY_RECORD : Medication :=
  mkMedication "Aspirin" "500mg" "Tab" "OD" only_morning
               "As directed" None None 0.8%float.

End ExtractorVocabulary.

Section SchemaVocabulary.
Import JS Schemas.

Definition no_evidence (value : string) : FieldEvidence :=
  mkFieldEvidence value 1%float [] None.

(** A medication item with the given name and timing buckets. *)
Definition plain_medication (drugName : string) (buckets : TimingBuckets)
  : MedicationItem :=
  {| name := drugName; name_confidence := 1%float;
     name_evidence := no_evidence drugName; generic_name := None;
     strength := "75mg"; strength_confidence := 1%float;
     strength_evidence := no_evidence "75mg";
     form := "Tablet"; form_confidence := 1%float; route := None;
     frequency := "BD"; frequency_normalized := "Twice daily";
     frequency_confidence := 1%float; frequency_evidence := no_evidence "BD";
     timing_buckets := buckets;
     duration := "As directed"; duration_confidence := 1%float;
     duration_evidence := None; food_instruction := None;
     food_instruction_confidence := None; special_instructions := None;
     notes := None; needs_confirmation := false; uncertain_fields := [] |}.

Definition MORNING_ONLY : TimingBuckets :=
  mkTimingBuckets (Some 1%float) None None None.

Definition MORNING_AND_NIGHT : TimingBuckets :=
  mkTimingBuckets (Some 1%float) None None (Some 1%float).

Definition LOW_QUALITY_SCAN : OCRResult :=
  mkOCRResult "Tab Amlodipine 5mg" 0.40%float [] [] None 120%float.

(** A [toFixed] that serves the sample scan. *)
Definition SAMPLE_TO_FIXED (x : float) (digits : nat) : string := "40.0".

End SchemaVocabulary.

Section InteractionVocabulary.
Import JS Schemas Interactions.

(** The table records [a] and [b] as an interacting pair. *)
Definition interacting_pair (table : list DrugInteractionEntry)
           (a b : string) : Prop :=
  exists item,
    In item table
    /\ ((drug item = a /\ In b (interactions item))
        \/ (drug item = b /\ In a (interactions item))).

(** The result names the pair [a], [b]. *)
Definition names_pair (a b : string) (r : InteractionResult) : bool :=
  (String.eqb (drug1 r) a && String.eqb (drug2 r) b)
  || (String.eqb (drug1 r) b && String.eqb (drug2 r) a).

Definition named_aspirin_and_warfarin (a b : string) : Prop :=
  (a = "Aspirin" /\ b = "Warfarin") \/ (a = "Warfarin" /\ b = "Aspirin").

(** [drugName.toLowerCase().trim()] *)
Definition normalize (drugName : string) : string :=
  trim (toLowerCase drugName).

Definition moderate_consult (r : InteractionResult) : Prop :=
  severity r = moderate /\ recommendation r = CONSULT_RECOMMENDATION.

Definition ASPIRIN_WARFARIN_TABLE : list DrugInteractionEntry :=
  [mkEntry "Aspirin" ["Warfarin"] "Increased risk of bleeding"].

(** The pairs of list positions [(i, j)] with [i < j < n], in the order
    in which the two nested loops visit them. *)
Definition position_pairs (n : nat) : list (nat * nat) :=
  flat_map (fun i => map (pair i) (seq (S i) (n - S i))) (seq 0 n).

(** The name at a position of the plan. *)
Definition name_at (names : list string) (i : nat) : string :=
  nth i names EmptyString.

(** The decidable form of [named_aspirin_and_warfarin]. *)
Definition aspirin_and_warfarin (a b : string) : bool :=
  (String.eqb a "Aspirin" && String.eqb b "Warfarin")
  || (String.eqb a "Warfarin" && String.eqb b "Aspirin").

End InteractionVocabulary.

Section NudgeVocabulary.
Import JS Schemas Nudges.

Definition is_implementation_intention (n : Nudge) : bool :=
  match category n with implementation_intention => true | _ => false end.

Definition count_implementation_intention (nudges : list Nudge) : nat :=
  List.length (filter is_implementation_intention nudges).

Definition top_priority (n : Nudge) : bool := (priority n =? 9)%Z.

(** No nudge ranks above 9, and the nudges of priority 9 are the
    implementation intentions. *)
Definition ranked (n : Nudge) : Prop :=
  (priority n <= 9)%Z
  /\ (priority n = 9%Z -> is_implementation_intention n = true).

(** Both the morning and the night bucket are populated. *)
Definition morning_and_night (m : MedicationItem) : Prop :=
  truthy_num_opt (morning (timing_buckets m)) = true
  /\ truthy_num_opt (night (timing_buckets m)) = true.

(** [a] may stand before [b] in the sorted list. *)
Definition before (a b : Nudge) : Prop := (priority b <= priority a)%Z.

Definition SAMPLE_CLOCK (t : nat) : string := "2024-01-01T00:00:00.000Z".

End NudgeVocabulary.

Section LineVocabulary.
Import JS Regex Extractor.

(** The separator of [text.split('\n')]. *)
Definition newline : string := String "010"%char EmptyString.

(** A bucket count, where there is one, is not negative. *)
Definition count_nonnegative (o : option Z) : Prop :=
  match o with Some z => (0 <= z)%Z | None => True end.

Definition buckets_nonnegative (b : TimingBuckets) : Prop :=
  count_nonnegative (morning b) /\ count_nonnegative (afternoon b)
  /\ count_nonnegative (evening b) /\ count_nonnegative (night b).

(** Every code unit of [s] satisfies [p]. *)
Fixpoint string_forall (p : ascii -> bool) (s : string) : bool :=
  match s with
  | EmptyString => true
  | String c r => p c && string_forall p r
  end.

(** Two lines of digits, blanks and colons. *)
Definition NUMERIC_TEXT : string := ("12 30" ++ newline ++ "10:45")%string.

(** The groups of the dose pattern in [SAMPLE_LINE]. *)
Definition SAMPLE_DOSE_GROUPS : captures :=
  [(0, "1-0-0"); (3, "0"); (2, "0"); (1, "1")]%nat.

End LineVocabulary.

Section GateVocabulary.
Import JS Schemas Thresholds ConfidenceGate.

(** The fields the gate asks about. *)
Definition GATE_FIELDS : list string :=
  ["image_quality"; "drug_name"; "strength"; "frequency"].

(** A question that offers suggestions offers one to four of them. *)
Definition suggestions_in_range (q : ClarificationQuestion) : Prop :=
  match suggestions q with
  | Some l => (1 <= List.length l <= 4)%nat
  | None => True
  end.

Definition well_formed_question (q : ClarificationQuestion) : Prop :=
  In (field q) GATE_FIELDS /\ suggestions_in_range q.

(** The field is present, its value is not empty and its confidence is
    not below the threshold. *)
Definition confident (threshold : float) (f : option ExtractedField) : Prop :=
  exists value confidence,
    f = Some (mkField value confidence)
    /\ truthy value = true
    /\ PrimFloat.ltb confidence threshold = false.

(** The field names [generateClarificationQuestionsForMedication] knows. *)
Definition KNOWN_UNCERTAIN_FIELDS : list string :=
  ["name"; "strength"; "frequency"; "duration"].

Definition CLEAR_SCAN : OCRResult :=
  mkOCRResult "Tab Amlodipine 5mg OD" 0.92%float [] [] None 120%float.

Definition CONFIDENT_FIELDS : ExtractedFields :=
  mkFields (Some (mkField "Amlodipine" 0.9%float))
           (Some (mkField "5mg" 0.9%float))
           (Some (mkField "OD" 0.85%float))
           None None.

End GateVocabulary.

Section ConditionVocabulary.
Import JS Schemas Interactions.

(** The severity that the lists of an entry give a drug: [avoid] before
    [monitor] before [caution]. *)
Definition graded (item : ConditionEntry) (d : string) : ConditionSeverity :=
  if opt_array_includes (avoid_drugs item) d then avoid
  else if opt_array_includes (monitor_drugs item) d then monitor
  else caution.

(** The drugs an entry lists, in the order the finder searches them. *)
Definition listed_drugs (item : ConditionEntry) : list string :=
  or_empty (high_risk_drugs item) ++ or_empty (caution_drugs item)
  ++ or_empty (avoid_drugs item) ++ or_empty (monitor_drugs item).

End ConditionVocabulary.

Section CardVocabulary.
Import JS Schemas Explainability.

Definition BEFORE_MEALS_REASONING : string :=
  "Taking before meals (usually 30-60 minutes) helps with absorption or prevents stomach upset.".

Definition BEFORE_MEALS_RATIONALE : string :=
  ("The prescription indicates to take this medication before meals. "
     ++ "This helps with better absorption or reduces stomach upset.")%string.

(** A medication item with the given name and food instruction, taken in
    the morning. *)
Definition medication_with_food (drugName instruction : string)
  : MedicationItem :=
  {| name := drugName; name_confidence := 1%float;
     name_evidence := no_evidence drugName; generic_name := None;
     strength := "75mg"; strength_confidence := 1%float;
     strength_evidence := no_evidence "75mg";
     form := "Tablet"; form_confidence := 1%float; route := None;
     frequency := "OD"; frequency_normalized := "Once daily";
     frequency_confidence := 1%float; frequency_evidence := no_evidence "OD";
     timing_buckets := MORNING_ONLY;
     duration := "As directed"; duration_confidence := 1%float;
     duration_evidence := None; food_instruction := Some instruction;
     food_instruction_confidence := Some 1%float;
     special_instructions := None;
     notes := None; needs_confirmation := false; uncertain_fields := [] |}.

Definition EMPTY_STOMACH_INSTRUCTION : string := "On an empty stomach".

End CardVocabulary.

Section PriorityVocabulary.
Import JS Schemas Nudges.

(** The nudge ranks with the friction-reduction nudges or above. *)
Definition at_least_friction (n : Nudge) : bool := (7 <=? priority n)%Z.

Definition FIVE_MEDICATIONS : list MedicationItem :=
  map (fun drugName => plain_medication drugName MORNING_ONLY)
      ["Amlodipine"; "Metformin"; "Atorvastatin"; "Losartan"; "Paracetamol"].

End PriorityVocabulary.

Section AdherenceVocabulary.
Import JS Extractor Adherence.

(** The explanation of a plan that no factor weighs on. *)
Definition SIMPLE_REGIMEN : string :=
  "Simple medication regimen with high expected adherence.".

(** A nudge library whose [i]-th entry carries the id [i + 1]. *)
Definition SAMPLE_LIBRARY (i : nat) : option AdherenceNudge :=
  Some (mkAdherenceNudge (Z.of_nat i + 1) "timing" "Set a daily alarm"
                         "Reminders help").

End AdherenceVocabulary.

Section SafetyVocabulary.
Import JS Extractor Safety.


(** The hints whose message no earlier hint carries, in order; [seen]
    holds the messages met so far. *)
Fixpoint first_occurrences (seen : list string) (hints : list SafetyHint)
  : list SafetyHint :=
  match hints with
  | [] => []
  | h :: rest =>
      if array_includes seen (message h) then first_occurrences seen rest
      else h :: first_occurrences (message h :: seen) rest
  end.

(** [h] stands in [hints] at a place before which no hint carries its
    message. *)
Definition first_with_its_message (hints : list SafetyHint) (h : SafetyHint)
  : Prop :=
  exists before after,
    hints = before ++ h :: after
    /\ ~ In (message h) (map message before).

End SafetyVocabulary.

Section SearchVocabulary.
Import JS Schemas DrugInfoService.

(** The query occurs in the lower-cased name, in a lower-cased brand name
    or in the lower-cased generic name of the entry. *)
Definition fuzzy_match (normalizedQuery : string) (drug : KnowledgeBaseDrug)
  : bool :=
  includes (toLowerCase (kb_name drug)) normalizedQuery
  || match kb_brand_names drug with
     | Some bs =>
         existsb (fun b => includes (toLowerCase b) normalizedQuery) bs
     | None => false
     end
  || match kb_generic_name drug with
     | Some g => includes (toLowerCase g) normalizedQuery
     | None => false
     end.

(** The lower-cased name of the entry is the query. *)
Definition name_is (normalizedQuery : string) (drug : KnowledgeBaseDrug)
  : bool :=
  String.eqb (toLowerCase (kb_name drug)) normalizedQuery.

End SearchVocabulary.

End Vocabulary.

(* ================================================================== *)
(** * Properties of the matcher                                        *)
(* ================================================================== *)

Section MatcherFacts.
Import JS Regex Vocabulary.

Lemma repeat_loop_local (greedy : bool) (body : matcher) :
  local_matcher body ->
  forall fuel prev s cs k1 k2,
    agree_from s k1 k2 ->
    repeat_loop greedy body k1 fuel prev s cs
    = repeat_loop greedy body k2 fuel prev s cs.
Proof.
  intros Hbody. induction fuel as [|fuel IH]; intros prev s cs k1 k2 Hk;
    cbn [repeat_loop].
  - apply Hk. lia.
  - rewrite (Hk prev s cs (le_n _)).
    rewrite (Hbody prev s cs _
               (fun prev' s' cs' =>
                  if (String.length s' <? String.length s)%nat
                  then repeat_loop greedy body k2 fuel prev' s' cs'
                  else None)); [reflexivity|].
    intros p s' c Hle.
    destruct (String.length s' <? String.length s)%nat; [|reflexivity].
    apply IH. intros p2 s2 c2 H2. apply Hk. lia.
Qed.

Lemma run_local (i : bool) (r : regex) : local_matcher (run i r).
Proof.
  induction r as [|c|p|r1 IH1 r2 IH2|r1 IH1 r2 IH2|g r1 IH1|n r1 IH1| | |];
    intros prev s cs k1 k2 Hk; cbn [run].
  - apply Hk. lia.
  - destruct s as [|x s']; [reflexivity|].
    destruct (chr_matches i c x); [|reflexivity]. apply Hk. simpl. lia.
  - destruct s as [|x s']; [reflexivity|].
    destruct (cls_matches i p x); [|reflexivity]. apply Hk. simpl. lia.
  - apply IH1. intros p s' c Hle. apply IH2.
    intros p2 s2 c2 H2. apply Hk. lia.
  - rewrite (IH1 prev s cs k1 k2 Hk), (IH2 prev s cs k1 k2 Hk). reflexivity.
  - apply repeat_loop_local; assumption.
  - apply IH1. intros p s' c Hle. apply Hk. exact Hle.
  - destruct prev; [reflexivity|]. apply Hk. lia.
  - destruct s; [|reflexivity]. apply Hk. lia.
  - destruct (xorb _ _); [|reflexivity]. apply Hk. lia.
Qed.

Lemma repeat_loop_fails (greedy : bool) (body : matcher) :
  local_matcher body ->
  (forall prev s cs, body prev s cs failing = None) ->
  forall fuel prev s cs, repeat_loop greedy body failing fuel prev s cs = None.
Proof.
  intros Hlocal Hfail. induction fuel as [|fuel IH]; intros prev s cs;
    cbn [repeat_loop]; [reflexivity|].
  rewrite (Hlocal prev s cs _ failing), Hfail.
  - destruct greedy; reflexivity.
  - intros p s' c _. destruct (String.length s' <? String.length s)%nat;
      [apply IH | reflexivity].
Qed.

(** Every success of a matcher goes through its continuation. *)
Lemma run_fails (i : bool) (r : regex) :
  forall prev s cs, run i r prev s cs failing = None.
Proof.
  induction r as [|c|p|r1 IH1 r2 IH2|r1 IH1 r2 IH2|g r1 IH1|n r1 IH1| | |];
    intros prev s cs; cbn [run].
  - reflexivity.
  - destruct s as [|x s']; [reflexivity|].
    destruct (chr_matches i c x); reflexivity.
  - destruct s as [|x s']; [reflexivity|].
    destruct (cls_matches i p x); reflexivity.
  - rewrite (@run_local i r1 prev s cs _ failing); [apply IH1|].
    intros p s' c _. apply IH2.
  - rewrite IH1. apply IH2.
  - apply repeat_loop_fails; [apply run_local | exact IH1].
  - apply IH1.
  - destruct prev; reflexivity.
  - destruct s; reflexivity.
  - destruct (xorb _ _); reflexivity.
Qed.

Lemma repeat_loop_one_more (greedy : bool) (i : bool) (r : regex) (k : cont) :
  forall fuel prev s cs,
    (String.length s <= fuel)%nat ->
    repeat_loop greedy (run i r) k (S fuel) prev s cs
    = repeat_loop greedy (run i r) k fuel prev s cs.
Proof.
  induction fuel as [|fuel IH]; intros prev s cs Hlen.
  - destruct s; [|simpl in Hlen; lia].
    cbn [repeat_loop].
    rewrite (@run_local i r prev EmptyString cs _ failing), run_fails.
    + destruct greedy; [reflexivity|].
      destruct (k prev EmptyString cs); reflexivity.
    + intros p s' c _. reflexivity.
  - cbn [repeat_loop].
    rewrite (@run_local i r prev s cs _
               (fun prev' s' cs' =>
                  if (String.length s' <? String.length s)%nat
                  then repeat_loop greedy (run i r) k fuel prev' s' cs'
                  else None)); [reflexivity|].
    intros p s' c _.
    destruct (String.length s' <? String.length s)%nat eqn:Hlt; [|reflexivity].
    apply Nat.ltb_lt in Hlt.
    change (repeat_loop greedy (run i r) k (S fuel) p s' c
            = repeat_loop greedy (run i r) k fuel p s' c).
    apply IH. lia.
Qed.

(** The fuel of a repetition is adequate: the length of the rest is
    enough, and any larger amount gives the same result. *)
Lemma repetition_fuel_adequate
      (greedy : bool) (i : bool) (r : regex) (k : cont)
      (prev : option ascii) (s : string) (cs : captures) (extra : nat) :
  repeat_loop greedy (run i r) k (String.length s + extra) prev s cs
  = run i (Star greedy r) prev s cs k.
Proof.
  cbn [run]. induction extra as [|extra IH].
  - now rewrite Nat.add_0_r.
  - rewrite Nat.add_succ_r, repeat_loop_one_more by lia. exact IH.
Qed.

Lemma bol_fails_inside (r : regex) :
  forall s x, search false (Cat Bol r) (Some x) s = None.
Proof.
  induction s as [|y s IH]; intros x; simpl; [reflexivity | apply IH].
Qed.

Lemma digit_class (prev : option ascii) (s : string) (cs : captures) (k : cont) :
  run false (Cls is_digit) prev s cs k =
  match s with
  | String x s' => if is_digit x then k (Some x) s' cs else None
  | EmptyString => None
  end.
Proof.
  destruct s as [|x s']; [reflexivity|].
  cbn [run]. unfold cls_matches. cbn [andb]. rewrite orb_false_r. reflexivity.
Qed.

End MatcherFacts.

Section DigitRuns.
Import JS Regex Vocabulary.

Variable body : matcher.
Hypothesis body_digit : forall prev s cs k,
  body prev s cs k =
  match s with
  | String x s' => if is_digit x then k (Some x) s' cs else None
  | EmptyString => None
  end.
Variable at_end : cont.
Hypothesis at_end_empty : forall p c, is_some (at_end p EmptyString c) = true.
Hypothesis at_end_more : forall p x s c, at_end p (String x s) c = None.

(** [\d*$] succeeds exactly on a rest made of digits. *)
Lemma digits_then_end (fuel : nat) :
  forall s prev cs,
    (String.length s <= fuel)%nat ->
    is_some (repeat_loop true body at_end fuel prev s cs) = all_digits s.
Proof.
  induction fuel as [|fuel IH]; intros s prev cs Hlen.
  - destruct s; [apply at_end_empty | simpl in Hlen; lia].
  - cbn [repeat_loop]. rewrite body_digit.
    destruct s as [|x s'].
    + apply at_end_empty.
    + cbn [all_digits].
      destruct (is_digit x); cbn [andb].
      * assert (Hlt : (String.length s' <? String.length (String x s'))%nat
                      = true)
          by (apply Nat.ltb_lt; simpl; lia).
        rewrite Hlt.
        specialize (IH s' (Some x) cs ltac:(simpl in Hlen; lia)).
        destruct (repeat_loop true body at_end fuel (Some x) s' cs);
          cbn [is_some] in *; [exact IH|].
        rewrite at_end_more. exact IH.
      * rewrite at_end_more. reflexivity.
Qed.

End DigitRuns.

Section AllDigitsPattern.
Import JS Regex Extractor Vocabulary.

(** [/^\d+$/.test(w)] holds exactly of the non-empty strings of digits. *)
Lemma allDigits_test (w : string) :
  test allDigitsRe w = consists_of_digits w.
Proof.
  unfold test, exec, allDigitsRe, consists_of_digits.
  cbn [source ignoreCase seq].
  destruct w as [|x s]; [reflexivity|].
  cbn [search]. rewrite bol_fails_inside. unfold plus, digit.
  change (run false
              (Group 0 (Cat Bol (Cat (Cat (Cls is_digit)
                                          (Star true (Cls is_digit))) Eol)))
              None (String x s) [] (fun _ _ cs => Some cs))
    with (run false (Cls is_digit) None (String x s) []
            (fun p1 s1 c1 =>
               repeat_loop true (run false (Cls is_digit))
                 (fun p2 s2 c2 =>
                    match s2 with
                    | EmptyString =>
                        Some ((0%nat,
                               take (String.length (String x s)
                                     - String.length s2) (String x s)) :: c2)
                    | String _ _ => None
                    end)
                 (String.length s1) p1 s1 c1)).
  rewrite digit_class. cbn [is_empty negb andb all_digits].
  destruct (is_digit x); [|reflexivity].
  cbn [andb].
  match goal with |- context [repeat_loop true ?b ?k ?f ?p ?s0 ?c] =>
    pose proof (@digits_then_end b digit_class k
                  ltac:(intros; reflexivity) ltac:(intros; reflexivity)
                  f s0 p c (le_n _)) as H;
    destruct (repeat_loop true b k f p s0 c)
  end; cbn [is_some] in H; rewrite <- H; reflexivity.
Qed.

End AllDigitsPattern.

Section MatcherExamples.
Import JS Regex Extractor Vocabulary.

(** [\b] keeps "od" inside "method" from matching. *)
Example freq_needs_word_boundary :
  exec freqRe "method" = None
  /\ exec freqRe "Take od" = Some [(0%nat, "od"); (1%nat, "od")].
Proof. split; vm_compute; reflexivity. Qed.

(** A greedy [\d+] followed by optional groups. *)
Example strength_with_ratio :
  exec strengthRe "Syp 250/5ml"
  = Some [(0%nat, "250/5ml"); (2%nat, "ml"); (1%nat, "250/5")].
Proof. vm_compute. reflexivity. Qed.

(** The alternatives are tried in order: "d" wins over "days". *)
Example duration_unit_first_alternative :
  exec durationRe1 "x 30 days" = Some [(0%nat, "x 30 d"); (2%nat, "d");
                                        (1%nat, "30")].
Proof. vm_compute. reflexivity. Qed.

(** A lazy [.*?] stops at once; the optional group needs its "(" next. *)
Example prn_note_lazy :
  exec prnRe "take SOS(if pain) now"
  = Some [(0%nat, "SOS(if pain)"); (2%nat, "(if pain)"); (1%nat, "SOS")]
  /\ exec prnRe "take SOS (if pain) now"
     = Some [(0%nat, "SOS"); (1%nat, "SOS")].
Proof. split; vm_compute; reflexivity. Qed.

(** The [i] flag reaches the class [[a-z]]. *)
Example form_and_upper_case_name :
  exec formDrugRe "Syp CALPOL 250mg"
  = Some [(0%nat, "Syp CALPOL"); (2%nat, "CALPOL"); (1%nat, "Syp")].
Proof. vm_compute. reflexivity. Qed.

End MatcherExamples.

(* ================================================================== *)
(** * Properties of the extractor                                      *)
(* ================================================================== *)

Section ListFacts.

Lemma find_first {A : Type} (p : A -> bool) (pre : list A) (w : A)
      (post : list A) :
  Forall (fun x => p x = false) pre -> p w = true ->
  find p (pre ++ w :: post) = Some w.
Proof.
  induction 1 as [|x pre Hx _ IH]; intros Hw; simpl.
  - now rewrite Hw.
  - rewrite Hx. now apply IH.
Qed.

Lemma find_nothing {A : Type} (p : A -> bool) (l : list A) :
  Forall (fun x => p x = false) l -> find p l = None.
Proof.
  induction 1 as [|x l Hx _ IH]; simpl; [reflexivity | now rewrite Hx].
Qed.

End ListFacts.

Section ExtractorFacts.
Import JS Regex Extractor Vocabulary.

Variable abbreviations_frequency : string -> option FrequencyInfo.
Variable abbreviations_form : string -> option string.

Lemma candidate_word_plausible (w : string) :
  is_candidate_word w = plausible_name w.
Proof.
  unfold is_candidate_word, plausible_name. rewrite allDigits_test.
  reflexivity.
Qed.

Lemma candidate_word_truthy (w : string) :
  is_candidate_word w = true -> truthy w = true.
Proof.
  unfold is_candidate_word. destruct w; [discriminate | reflexivity].
Qed.

Lemma name_from_words (line : string) :
  exec formDrugRe line = None ->
  match find is_candidate_word (split_ws (trim line)) with
  | Some w =>
      exists m,
        medication (extractMedicationFromLine abbreviations_frequency
                      abbreviations_form line) = Some m
        /\ drug_name m = w
  | None =>
      medication (extractMedicationFromLine abbreviations_frequency
                    abbreviations_form line) = None
  end.
Proof.
  intros Hform. unfold extractMedicationFromLine. cbv zeta. rewrite Hform.
  destruct (find is_candidate_word (split_ws (trim line))) as [w|] eqn:Hfind.
  - apply find_some in Hfind. destruct Hfind as [_ Hw].
    rewrite (candidate_word_truthy _ Hw). cbn [negb].
    eexists. split; reflexivity.
  - reflexivity.
Qed.

(** C1, as the code has it: on the sample line [extractMedications] yields
    one record, with drug_name "Amlodipine", strength "5mg", dose_pattern
    "1-0-0", timing buckets [{morning: 1, afternoon: 0, evening: 0}],
    duration "30 days", no food_instruction (the food pattern knows
    "before meals", not "Before breakfast"), and a confidence above the
    base value; whatever the abbreviation tables hold. *)
Theorem sample_line_extraction :
  exists m,
    medications (extractMedications abbreviations_frequency abbreviations_form
                   SAMPLE_LINE) = [m]
    /\ drug_name m = "Amlodipine"
    /\ strength m = "5mg"
    /\ dose_pattern m = "1-0-0"
    /\ timing_buckets m = mkBuckets (Some 1%Z) (Some 0%Z) (Some 0%Z) None
    /\ duration m = "30 days"
    /\ food_instruction m = None
    /\ exec foodRe SAMPLE_LINE = None
    /\ PrimFloat.ltb BASE_CONFIDENCE (confidence m) = true.
Proof.
  eexists. split; [vm_compute; reflexivity|].
  cbn [drug_name strength dose_pattern timing_buckets duration
       food_instruction confidence].
  repeat split.
Qed.

(** C6, as the code has it: when the form-keyword pattern fails, the drug
    name is the first white-space separated token of the trimmed line that
    has length at least 3, is not a string of digits and is not in the
    denylist; and without such a token the line gives no record.  The
    statement holds of every line, accepted or not. *)
Theorem drug_name_is_first_plausible_token (line : string) :
  exec formDrugRe line = None ->
  (forall pre w post,
      split_ws (trim line) = pre ++ w :: post ->
      Forall (fun x => plausible_name x = false) pre ->
      plausible_name w = true ->
      exists m,
        medication (extractMedicationFromLine abbreviations_frequency
                      abbreviations_form line) = Some m
        /\ drug_name m = w)
  /\ (Forall (fun x => plausible_name x = false) (split_ws (trim line)) ->
      medication (extractMedicationFromLine abbreviations_frequency
                    abbreviations_form line) = None).
Proof.
  intros Hform. pose proof (name_from_words line Hform) as H.
  split.
  - intros pre w post Hsplit Hpre Hw.
    rewrite Hsplit, find_first in H;
      [exact H | | now rewrite candidate_word_plausible].
    eapply Forall_impl; [|exact Hpre].
    intros a Ha. now rewrite candidate_word_plausible.
  - intros Hall. rewrite find_nothing in H; [exact H|].
    eapply Forall_impl; [|exact Hall].
    intros a Ha. now rewrite candidate_word_plausible.
Qed.

(** The confidence of the record of one line is the clamped sum of the
    increments of the fields that matched. *)
Lemma line_confidence_clamped (line : string) (m : Medication) :
  medication (extractMedicationFromLine abbreviations_frequency
                abbreviations_form line) = Some m ->
  unit_interval (confidence m).
Proof.
  unfold extractMedicationFromLine. cbv zeta.
  destruct (exec formDrugRe line);
    [|destruct (find is_candidate_word (split_ws (trim line)));
      [|cbn [truthy is_empty negb medication]; discriminate]];
  (destruct (exec strengthRe line);
   (destruct (exec dosePatternRe line);
    [|destruct (exec freqRe line); [|destruct (exec timesRe line)]]);
   (destruct (exec durationRe1 line); [|destruct (exec durationRe2 line)]);
   destruct (exec foodRe line);
   try match goal with |- context [if ?b then _ else _] => destruct b end;
   cbn [medication]; intros H; try discriminate H;
   injection H as <-; cbn [confidence]; split; vm_compute; reflexivity).
Qed.

Lemma process_line_clamped (acc : ExtractionResult) (line : string) :
  Forall (fun x => unit_interval (confidence x)) (medications acc) ->
  Forall (fun x => unit_interval (confidence x))
         (medications (process_line abbreviations_frequency abbreviations_form
                         acc line)).
Proof.
  intros Hacc. unfold process_line.
  destruct (isNonMedicationLine line); [exact Hacc|].
  destruct (negb (hasMedicationIndicators line)); [exact Hacc|].
  cbv zeta.
  destruct (medication (extractMedicationFromLine abbreviations_frequency
                          abbreviations_form line)) as [m0|] eqn:Hm;
    [|exact Hacc].
  cbn [medications]. apply Forall_app. split; [exact Hacc|].
  constructor; [|constructor]. eapply line_confidence_clamped. exact Hm.
Qed.

Lemma fold_lines_clamped (lines : list string) :
  forall acc : ExtractionResult,
    Forall (fun x => unit_interval (confidence x)) (medications acc) ->
    Forall (fun x => unit_interval (confidence x))
           (medications
              (fold_left (process_line abbreviations_frequency
                                       abbreviations_form)
                         lines acc)).
Proof.
  induction lines as [|line lines IH]; intros acc Hacc; cbn [fold_left].
  - exact Hacc.
  - apply IH. now apply process_line_clamped.
Qed.

(** C7: for every input text, the confidence of every record that
    [extractMedications] returns lies in the closed interval [0, 1]. *)
Theorem confidence_in_unit_interval (text : string) (m : Medication) :
  In m (medications (extractMedications abbreviations_frequency
                       abbreviations_form text)) ->
  unit_interval (confidence m).
Proof.
  unfold extractMedications. cbv zeta. intros Hin.
  match type of Hin with In _ (medications (fold_left _ ?lines ?acc)) =>
    pose proof (fold_lines_clamped lines acc (Forall_nil _)) as H
  end.
  rewrite Forall_forall in H. exact (H m Hin).
Qed.

(** C10: a line accepted for extraction that has no numeric dose pattern,
    no frequency abbreviation, no "N times daily" phrase and no bare
    timing word gives a record with dose_pattern "OD" and timing buckets
    [{morning: 1}]. *)
Theorem default_frequency_is_once_daily (line : string) (m : Medication) :
  accepted_for_extraction line = true ->
  exec dosePatternRe line = None ->
  exec freqRe line = None ->
  exec timesRe line = None ->
  exec timingRe line = None ->
  medication (extractMedicationFromLine abbreviations_frequency
                abbreviations_form line) = Some m ->
  dose_pattern m = "OD"
  /\ timing_buckets m = mkBuckets (Some 1%Z) None None None.
Proof.
  intros _ Hdose Hfreq Htimes Htiming.
  unfold extractMedicationFromLine. cbv zeta.
  rewrite Hdose, Hfreq, Htimes, Htiming.
  match goal with |- medication (if ?b then _ else _) = _ -> _ =>
    destruct b
  end; cbn [medication]; intros H; [discriminate H|].
  injection H as <-. split; reflexivity.
Qed.

End ExtractorFacts.

Section ExtractorSamples.
Import JS Regex Extractor Vocabulary.

(** C1 does not hold as the specification words it: the record of the
    sample line has no food_instruction, and its timing buckets carry the
    two zero counts of the dose pattern. *)
Lemma sample_line_has_no_food_instruction :
  map food_instruction
      (medications (extractMedications no_frequency_table no_form_table
                      SAMPLE_LINE)) = [None]
  /\ map timing_buckets
         (medications (extractMedications no_frequency_table no_form_table
                         SAMPLE_LINE))
     = [mkBuckets (Some 1%Z) (Some 0%Z) (Some 0%Z) None].
Proof. split; vm_compute; reflexivity. Qed.

(** C6 does not hold as the specification words it: on
    "500mg Paracetamol OD" the first alphabetic token is "Paracetamol",
    and the extracted name is "500mg". *)
Lemma strength_token_taken_for_name :
  accepted_for_extraction STRENGTH_FIRST_LINE = true
  /\ exec formDrugRe STRENGTH_FIRST_LINE = None
  /\ first_alphabetic_token STRENGTH_FIRST_LINE = Some "Paracetamol"
  /\ map drug_name
         (medications (extractMedications no_frequency_table no_form_table
                         STRENGTH_FIRST_LINE)) = ["500mg"].
Proof. repeat split; vm_compute; reflexivity. Qed.

(** C6 at "500mg Paracetamol OD": the first plausible token is "500mg". *)
Lemma strength_first_line_name :
  exec formDrugRe STRENGTH_FIRST_LINE = None
  /\ exists m,
       medication (extractMedicationFromLine no_frequency_table no_form_table
                     STRENGTH_FIRST_LINE) = Some m
       /\ drug_name m = "500mg".
Proof.
  assert (H : exec formDrugRe STRENGTH_FIRST_LINE = None)
    by (vm_compute; reflexivity).
  split; [exact H|].
  apply (proj1 (@drug_name_is_first_plausible_token
                  no_frequency_table no_form_table STRENGTH_FIRST_LINE H)
               [] "500mg" ["Paracetamol"; "OD"]).
  - vm_compute; reflexivity.
  - constructor.
  - vm_compute; reflexivity.
Defined.

(** C7 at the sample line. *)
Lemma sample_record_confidence :
  In SAMPLE_RECORD
     (medications (extractMedications no_frequency_table no_form_table
                     SAMPLE_LINE))
  /\ unit_interval (confidence SAMPLE_RECORD).
Proof.
  assert (H : In SAMPLE_RECORD
                 (medications (extractMedications no_frequency_table
                                 no_form_table SAMPLE_LINE)))
    by (vm_compute; left; reflexivity).
  split; [exact H|].
  exact (@confidence_in_unit_interval no_frequency_table no_form_table
           SAMPLE_LINE SAMPLE_RECORD H).
Defined.

(** C10 at "Tab Aspirin 500mg". *)
Lemma no_frequency_line_defaults :
  medication (extractMedicationFromLine no_frequency_table no_form_table
                NO_FREQUENCY_LINE) = Some NO_FREQUENCY_RECORD
  /\ dose_pattern NO_FREQUENCY_RECORD = "OD"
  /\ timing_buckets NO_FREQUENCY_RECORD = mkBuckets (Some 1%Z) None None None.
Proof.
  assert (H : medication (extractMedicationFromLine no_frequency_table
                            no_form_table NO_FREQUENCY_LINE)
              = Some NO_FREQUENCY_RECORD)
    by (vm_compute; reflexivity).
  split; [exact H|].
  apply (@default_frequency_is_once_daily
           no_frequency_table no_form_table NO_FREQUENCY_LINE
           NO_FREQUENCY_RECORD);
    try exact H; vm_compute; reflexivity.
Defined.

End ExtractorSamples.

(* ================================================================== *)
(** * Properties of the interaction checker                            *)
(* ================================================================== *)

Section InteractionFacts.
Import JS Schemas Interactions Vocabulary.

Lemma flat_map_of_map (A B C : Type) (g : A -> B) (f : B -> list C)
      (l : list A) :
  flat_map f (map g l) = flat_map (fun a => f (g a)) l.
Proof.
  induction l as [|a l IH]; cbn [map flat_map]; [reflexivity|].
  now rewrite IH.
Qed.

Lemma map_of_flat_map (A B C : Type) (f : A -> list B) (g : B -> C)
      (l : list A) :
  map g (flat_map f l) = flat_map (fun a => map g (f a)) l.
Proof.
  induction l as [|a l IH]; cbn [map flat_map]; [reflexivity|].
  now rewrite map_app, IH.
Qed.

Lemma position_pairs_step (n : nat) :
  position_pairs (S n)
  = map (pair 0%nat) (seq 1 n)
    ++ map (fun p => (S (fst p), S (snd p))) (position_pairs n).
Proof.
  unfold position_pairs. cbn [seq flat_map].
  replace (S n - 1)%nat with n by lia.
  f_equal. rewrite <- seq_shift, flat_map_of_map, map_of_flat_map.
  apply flat_map_ext. intros i.
  replace (S n - S (S i))%nat with (n - S i)%nat by lia.
  rewrite map_map. cbn [fst snd]. rewrite <- seq_shift, map_map.
  reflexivity.
Qed.

Lemma position_pairs_spec (n i j : nat) :
  In (i, j) (position_pairs n) <-> (i < j < n)%nat.
Proof.
  unfold position_pairs. rewrite in_flat_map. split.
  - intros [k [Hk Hin]]. apply in_seq in Hk. apply in_map_iff in Hin.
    destruct Hin as [m [He Hm]]. injection He as <- <-.
    apply in_seq in Hm. lia.
  - intros H. exists i. split; [apply in_seq; lia|].
    apply in_map_iff. exists j. split; [reflexivity | apply in_seq; lia].
Qed.

Lemma names_after_head (a : string) (rest : list string) :
  map (name_at (a :: rest)) (seq 1 (List.length rest)) = rest.
Proof.
  rewrite <- seq_shift, map_map. unfold name_at. cbn [nth].
  induction rest as [|b rest IH]; [reflexivity|].
  cbn [List.length seq map nth]. f_equal.
  rewrite <- seq_shift, map_map. cbn [nth]. exact IH.
Qed.

Lemma startsWith_refl (s : string) : startsWith s s = true.
Proof.
  induction s as [|c s IH]; simpl; [reflexivity|].
  now rewrite Ascii.eqb_refl.
Qed.

Lemma includes_refl (s : string) : includes s s = true.
Proof.
  destruct s; simpl; [reflexivity|].
  rewrite Ascii.eqb_refl, startsWith_refl. reflexivity.
Qed.

(** The test [t === n || t.includes(n)] is the containment of [n] in [t]. *)
Lemma matches_name_includes (t n : string) :
  matches_name t n = includes t n.
Proof.
  unfold matches_name. destruct (String.eqb_spec t n) as [->|_];
    [|reflexivity].
  now rewrite includes_refl.
Qed.

Lemma includes_nonempty (t n : string) :
  includes t n = true -> truthy n = true -> truthy t = true.
Proof. destruct t, n; simpl; intros; try discriminate; reflexivity. Qed.

Lemma toLowerCase_truthy (s : string) : truthy (toLowerCase s) = truthy s.
Proof. destruct s; reflexivity. Qed.

Lemma entry_interaction_sound item a b r :
  entry_interaction item a b = Some r ->
  moderate_consult r /\ drug1 r = drug item
  /\ In (drug2 r) (interactions item)
  /\ includes (toLowerCase (drug item)) a = true
  /\ includes (toLowerCase (drug2 r)) b = true.
Proof.
  unfold entry_interaction. cbv zeta.
  destruct (matches_name (toLowerCase (drug item)) a) eqn:Ha; [|discriminate].
  destruct (find _ (interactions item)) as [w|] eqn:Hfind; [|discriminate].
  destruct (truthy w); [|discriminate].
  intros H. injection H as <-. apply find_some in Hfind.
  destruct Hfind as [Hin Hw].
  rewrite matches_name_includes in Ha, Hw.
  cbn. repeat split; assumption.
Qed.

Lemma entry_interaction_complete item a b w :
  In w (interactions item) ->
  includes (toLowerCase (drug item)) a = true ->
  includes (toLowerCase w) b = true ->
  truthy b = true ->
  is_some (entry_interaction item a b) = true.
Proof.
  intros Hin Ha Hw Hb. unfold entry_interaction. cbv zeta.
  rewrite matches_name_includes, Ha.
  destruct (find _ (interactions item)) as [x|] eqn:Hfind.
  - apply find_some in Hfind. destruct Hfind as [_ Hx].
    rewrite matches_name_includes in Hx.
    pose proof (includes_nonempty _ _ Hx Hb) as Ht.
    rewrite toLowerCase_truthy in Ht. now rewrite Ht.
  - pose proof (find_none _ _ Hfind w Hin) as Hnone. cbv beta in Hnone.
    rewrite matches_name_includes in Hnone. congruence.
Qed.

Variable drug_interactions : list DrugInteractionEntry.

Lemma search_entries_sound items a b r :
  search_entries items a b = Some r ->
  exists item,
    In item items /\ moderate_consult r /\ drug1 r = drug item
    /\ In (drug2 r) (interactions item)
    /\ ((includes (toLowerCase (drug item)) a = true
         /\ includes (toLowerCase (drug2 r)) b = true)
        \/ (includes (toLowerCase (drug item)) b = true
            /\ includes (toLowerCase (drug2 r)) a = true)).
Proof.
  induction items as [|item items IH]; cbn [search_entries]; [discriminate|].
  destruct (entry_interaction item a b) as [r1|] eqn:H1.
  - intros H. injection H as ->. apply entry_interaction_sound in H1.
    exists item. cbn [In]. intuition.
  - destruct (entry_interaction item b a) as [r2|] eqn:H2.
    + intros H. injection H as ->. apply entry_interaction_sound in H2.
      exists item. cbn [In]. intuition.
    + intros H. destruct (IH H) as [it Hit]. exists it. cbn [In]. intuition.
Qed.

Lemma search_entries_complete items a b item :
  In item items ->
  is_some (entry_interaction item a b) = true
  \/ is_some (entry_interaction item b a) = true ->
  is_some (search_entries items a b) = true.
Proof.
  induction items as [|it items IH]; cbn [In search_entries]; [contradiction|].
  intros [->|Hin] Hsome.
  - destruct (entry_interaction item a b); [reflexivity|].
    destruct (entry_interaction item b a); [reflexivity|].
    destruct Hsome; discriminate.
  - destruct (entry_interaction it a b); [reflexivity|].
    destruct (entry_interaction it b a); [reflexivity|].
    now apply IH.
Qed.

Lemma check_pairs_moderate names r :
  In r (check_pairs drug_interactions names) -> moderate_consult r.
Proof.
  induction names as [|d1 rest IH]; cbn [check_pairs]; [contradiction|].
  intros Hin. apply in_app_or in Hin.
  destruct Hin as [Hin|Hin]; [|now apply IH].
  apply in_flat_map in Hin. destruct Hin as [d2 [_ Hin]].
  unfold pair_results, findInteraction in Hin. cbv zeta in Hin.
  destruct (search_entries _ _ _) as [r'|] eqn:Hs; [|contradiction].
  destruct Hin as [<-|[]].
  apply search_entries_sound in Hs. destruct Hs as [it Hit]. intuition.
Qed.

Lemma check_pairs_contains pre a mid b post r :
  In r (pair_results drug_interactions a b) ->
  In r (check_pairs drug_interactions (pre ++ a :: mid ++ b :: post)).
Proof.
  intros Hr.
  induction pre as [|x pre IH]; cbn [app check_pairs]; apply in_or_app.
  - left. apply in_flat_map. exists b. split; [|exact Hr].
    apply in_or_app. right. now left.
  - right. exact IH.
Qed.

Lemma aspirin_warfarin_found :
  interacting_pair drug_interactions "Aspirin" "Warfarin" ->
  is_some (findInteraction drug_interactions "Aspirin" "Warfarin") = true
  /\ is_some (findInteraction drug_interactions "Warfarin" "Aspirin") = true.
Proof.
  intros [item [Hin Hpair]]. unfold findInteraction. cbv zeta.
  change (trim (toLowerCase "Aspirin")) with "aspirin".
  change (trim (toLowerCase "Warfarin")) with "warfarin".
  destruct Hpair as [[Hd Hi]|[Hd Hi]].
  - assert (H : is_some (entry_interaction item "aspirin" "warfarin") = true).
    { apply entry_interaction_complete with (w := "Warfarin");
        [exact Hi | rewrite Hd; reflexivity | reflexivity | reflexivity]. }
    split; apply search_entries_complete with (item := item); auto.
  - assert (H : is_some (entry_interaction item "warfarin" "aspirin") = true).
    { apply entry_interaction_complete with (w := "Aspirin");
        [exact Hi | rewrite Hd; reflexivity | reflexivity | reflexivity]. }
    split; apply search_entries_complete with (item := item); auto.
Qed.

Lemma pair_results_single a b :
  interacting_pair drug_interactions "Aspirin" "Warfarin" ->
  named_aspirin_and_warfarin a b ->
  exists r, pair_results drug_interactions a b = [r].
Proof.
  intros Htable Hnames. destruct (aspirin_warfarin_found Htable) as [H1 H2].
  unfold pair_results.
  destruct Hnames as [[-> ->]|[-> ->]].
  - destruct (findInteraction drug_interactions "Aspirin" "Warfarin") as [r|];
      [now exists r | discriminate].
  - destruct (findInteraction drug_interactions "Warfarin" "Aspirin") as [r|];
      [now exists r | discriminate].
Qed.

Lemma check_pairs_by_position (names : list string) :
  check_pairs drug_interactions names
  = flat_map (fun p =>
                pair_results drug_interactions
                  (name_at names (fst p)) (name_at names (snd p)))
             (position_pairs (List.length names)).
Proof.
  induction names as [|a rest IH]; [reflexivity|].
  cbn [check_pairs List.length]. rewrite position_pairs_step, flat_map_app.
  f_equal.
  - rewrite flat_map_of_map. cbn [fst snd].
    rewrite <- (names_after_head a rest) at 1.
    rewrite flat_map_of_map. reflexivity.
  - rewrite IH, flat_map_of_map. reflexivity.
Qed.

Lemma aspirin_and_warfarin_named (a b : string) :
  aspirin_and_warfarin a b = true <-> named_aspirin_and_warfarin a b.
Proof.
  unfold aspirin_and_warfarin, named_aspirin_and_warfarin.
  rewrite orb_true_iff, !andb_true_iff, !String.eqb_eq. reflexivity.
Qed.

Lemma contributions_counted (A B : Type) (g : A -> bool) (f : A -> list B)
      (l : list A) :
  (forall a, g a = true -> 1 <= List.length (f a))%nat ->
  (List.length (filter g l) <= List.length (flat_map f l))%nat.
Proof.
  intros Hf. induction l as [|a l IH]; cbn [filter flat_map];
    [apply le_n|].
  rewrite length_app. specialize (Hf a).
  destruct (g a); cbn [List.length]; [specialize (Hf eq_refl)|]; lia.
Qed.

(** C2, as the code has it: when the table records Aspirin and Warfarin as
    an interacting pair, a plan of exactly these two medications, in
    either order, gets exactly one result; in any plan, every pair of list
    positions that holds the two names contributes exactly one result to
    the list returned: that list is the concatenation, over the pairs of
    positions i < j in the order of the loops, of what the pair at these
    positions contributes, a pair that holds the two names contributes
    one result, and so the list has at least as many results as there are
    such pairs of positions; and every result ever returned has severity
    "moderate" and the consult-your-doctor recommendation. *)
Theorem aspirin_warfarin_one_result_per_pair :
  interacting_pair drug_interactions "Aspirin" "Warfarin" ->
  (forall m1 m2,
      named_aspirin_and_warfarin (name m1) (name m2) ->
      exists r, checkDrugInteractions drug_interactions [m1; m2] = [r])
  /\ (forall medications pre a mid b post,
         map name medications = pre ++ a :: mid ++ b :: post ->
         named_aspirin_and_warfarin a b ->
         exists r,
           pair_results drug_interactions a b = [r]
           /\ In r (checkDrugInteractions drug_interactions medications))
  /\ (forall medications,
         let names := map name medications in
         let contribution := fun p : nat * nat =>
           pair_results drug_interactions
             (name_at names (fst p)) (name_at names (snd p)) in
         checkDrugInteractions drug_interactions medications
         = flat_map contribution (position_pairs (List.length medications))
         /\ Forall (fun p =>
                      named_aspirin_and_warfarin
                        (name_at names (fst p)) (name_at names (snd p)) ->
                      exists r, contribution p = [r])
                   (position_pairs (List.length medications))
         /\ (List.length
               (filter (fun p =>
                          aspirin_and_warfarin
                            (name_at names (fst p)) (name_at names (snd p)))
                       (position_pairs (List.length medications)))
             <= List.length
                  (checkDrugInteractions drug_interactions medications))%nat)
  /\ (forall medications r,
         In r (checkDrugInteractions drug_interactions medications) ->
         severity r = moderate /\ recommendation r = CONSULT_RECOMMENDATION).
Proof.
  intros Htable. split; [|split; [|split]].
  - intros m1 m2 Hnames.
    destruct (pair_results_single Htable Hnames) as [r Hr].
    exists r. unfold checkDrugInteractions. cbn [map check_pairs flat_map].
    rewrite Hr. reflexivity.
  - intros medications pre a mid b post Hmap Hnames.
    destruct (pair_results_single Htable Hnames) as [r Hr].
    exists r. split; [exact Hr|].
    unfold checkDrugInteractions. cbv zeta. rewrite Hmap.
    apply check_pairs_contains. rewrite Hr. now left.
  - intros medications. cbv zeta.
    assert (Heq :
      checkDrugInteractions drug_interactions medications
      = flat_map (fun p : nat * nat =>
                    pair_results drug_interactions
                      (name_at (map name medications) (fst p))
                      (name_at (map name medications) (snd p)))
                 (position_pairs (List.length medications))).
    { unfold checkDrugInteractions. cbv zeta.
      rewrite check_pairs_by_position, length_map. reflexivity. }
    split; [exact Heq|]. split.
    + apply Forall_forall. intros p _ Hnames.
      exact (pair_results_single Htable Hnames).
    + rewrite Heq. apply contributions_counted. intros p Hp.
      apply aspirin_and_warfarin_named in Hp.
      destruct (pair_results_single Htable Hp) as [r Hr]. rewrite Hr.
      apply le_n.
  - intros medications r Hin. exact (@check_pairs_moderate _ _ Hin).
Qed.

(** C3, as the code has it: a medication name matches a table string
    exactly when the lower-cased table string contains the lower-cased,
    trimmed name (one direction only).  A pair of names is found, in
    either order of the two medications, as soon as an entry's drug
    contains one and one of its interactions contains the other; and every
    result comes from such an entry. *)
Theorem name_matching_is_containment_in_table_string :
  (forall t n, matches_name t n = includes t n)
  /\ (forall d1 d2 item w,
         In item drug_interactions ->
         In w (interactions item) ->
         includes (toLowerCase (drug item)) (normalize d1) = true ->
         includes (toLowerCase w) (normalize d2) = true ->
         truthy (normalize d2) = true ->
         is_some (findInteraction drug_interactions d1 d2) = true
         /\ is_some (findInteraction drug_interactions d2 d1) = true)
  /\ (forall d1 d2 r,
         findInteraction drug_interactions d1 d2 = Some r ->
         exists item,
           In item drug_interactions /\ drug1 r = drug item
           /\ In (drug2 r) (interactions item)
           /\ ((includes (toLowerCase (drug item)) (normalize d1) = true
                /\ includes (toLowerCase (drug2 r)) (normalize d2) = true)
               \/ (includes (toLowerCase (drug item)) (normalize d2) = true
                   /\ includes (toLowerCase (drug2 r)) (normalize d1) = true))).
Proof.
  split; [exact matches_name_includes|split].
  - intros d1 d2 item w Hitem Hw H1 H2 Hne.
    assert (H : is_some (entry_interaction item (normalize d1) (normalize d2))
                = true)
      by (eapply entry_interaction_complete; eassumption).
    unfold findInteraction. cbv zeta. fold (normalize d1). fold (normalize d2).
    split; apply search_entries_complete with (item := item); auto.
  - intros d1 d2 r Hfind. unfold findInteraction in Hfind. cbv zeta in Hfind.
    apply search_entries_sound in Hfind. destruct Hfind as [item Hitem].
    exists item. unfold normalize. intuition.
Qed.

End InteractionFacts.

Section InteractionSamples.
Import JS Schemas Interactions Vocabulary.

(** C2 does not hold for every plan: a plan that lists Aspirin twice gets
    two results for the pair, one per pair of list positions. *)
Lemma repeated_name_two_results :
  List.length
    (filter (names_pair "Aspirin" "Warfarin")
       (checkDrugInteractions ASPIRIN_WARFARIN_TABLE
          [plain_medication "Aspirin" MORNING_ONLY;
           plain_medication "Warfarin" MORNING_ONLY;
           plain_medication "Aspirin" MORNING_ONLY])) = 2%nat.
Proof. vm_compute. reflexivity. Qed.

(** C2 at the plan of Warfarin and Aspirin. *)
Lemma warfarin_aspirin_plan_one_result :
  interacting_pair ASPIRIN_WARFARIN_TABLE "Aspirin" "Warfarin"
  /\ exists r,
       checkDrugInteractions ASPIRIN_WARFARIN_TABLE
         [plain_medication "Warfarin" MORNING_ONLY;
          plain_medication "Aspirin" MORNING_ONLY] = [r].
Proof.
  assert (H : interacting_pair ASPIRIN_WARFARIN_TABLE "Aspirin" "Warfarin").
  { eexists. split; [left; reflexivity|].
    left. split; [reflexivity | left; reflexivity]. }
  split; [exact H|].
  apply (proj1 (@aspirin_warfarin_one_result_per_pair
                  ASPIRIN_WARFARIN_TABLE H)).
  right. split; reflexivity.
Defined.

(** C3 does not hold in both directions: the name "Aspirin 75mg" contains the
    table string "Aspirin", and it is not matched. *)
Lemma longer_name_not_matched :
  includes (normalize "Aspirin 75mg") (toLowerCase "Aspirin") = true
  /\ matches_name (toLowerCase "Aspirin") (normalize "Aspirin 75mg") = false
  /\ findInteraction ASPIRIN_WARFARIN_TABLE "Aspirin 75mg" "Warfarin" = None
  /\ findInteraction ASPIRIN_WARFARIN_TABLE "Warfarin" "Aspirin 75mg" = None.
Proof. vm_compute. repeat split. Qed.

(** C3 at an upper-case name and a fragment of a name. *)
Lemma fragment_of_name_matched :
  is_some (findInteraction ASPIRIN_WARFARIN_TABLE " ASPIRIN " "warf") = true
  /\ is_some (findInteraction ASPIRIN_WARFARIN_TABLE "warf" " ASPIRIN ") = true.
Proof.
  apply (proj1 (proj2 (@name_matching_is_containment_in_table_string
                         ASPIRIN_WARFARIN_TABLE))
               " ASPIRIN " "warf"
               (mkEntry "Aspirin" ["Warfarin"] "Increased risk of bleeding")
               "Warfarin").
  - left. reflexivity.
  - left. reflexivity.
  - vm_compute. reflexivity.
  - vm_compute. reflexivity.
  - vm_compute. reflexivity.
Defined.

End InteractionSamples.

(* ================================================================== *)
(** * Properties of the thresholds and of the confidence gate          *)
(* ================================================================== *)

Section GateFacts.
Import JS Schemas Thresholds ConfidenceGate Vocabulary.

Variable toFixed : float -> nat -> string.

(** C4: an OCR result whose overall confidence is below 0.50 does not
    pass, and gets exactly one clarification question, on the field
    "image_quality", whatever extracted fields come with it. *)
Theorem low_ocr_confidence_rejected
        (ocrResult : OCRResult) (extractedFields : option ExtractedFields) :
  PrimFloat.ltb (ocr_confidence ocrResult) 0.50%float = true ->
  passed (evaluateConfidence toFixed ocrResult extractedFields) = false
  /\ low_confidence_fields
       (evaluateConfidence toFixed ocrResult extractedFields)
     = ["image_quality"]
  /\ exists q,
       clarification_questions
         (evaluateConfidence toFixed ocrResult extractedFields) = [q]
       /\ field q = "image_quality".
Proof.
  intros Hlow. unfold evaluateConfidence. cbv zeta.
  change (ocr_minimum CONFIDENCE_THRESHOLDS) with 0.50%float.
  rewrite Hlow. cbn [passed clarification_questions low_confidence_fields].
  split; [reflexivity|]. split; [reflexivity|]. eexists. split; reflexivity.
Qed.

(** C5: [shouldRequestClarification] asks about the frequency exactly when
    it is missing (confidence below 0.30, or no value); so it does not ask
    when the confidence is only below the 0.65 threshold of the field; and
    it never asks about the duration. *)
Theorem frequency_asked_only_when_missing (c : float) (v : option string) :
  shouldRequestClarification "frequency" c v
  = PrimFloat.ltb c 0.30%float || negb (truthy_opt v)
  /\ (PrimFloat.ltb c (Thresholds.frequency CONFIDENCE_THRESHOLDS) = true ->
      PrimFloat.ltb c 0.30%float = false ->
      truthy_opt v = true ->
      shouldRequestClarification "frequency" c v = false)
  /\ Thresholds.frequency CONFIDENCE_THRESHOLDS = 0.65%float
  /\ shouldRequestClarification "duration" c v = false.
Proof.
  unfold shouldRequestClarification. cbv zeta.
  cbn [String.eqb Ascii.eqb Bool.eqb].
  change (frequency_missing CLARIFICATION_RULES) with true.
  change (duration_missing CLARIFICATION_RULES) with false.
  change (missing_field_threshold CONFIDENCE_THRESHOLDS) with 0.30%float.
  cbn [andb].
  split; [reflexivity|split; [|split; reflexivity]].
  intros _ Hc Hv. rewrite Hc, Hv. reflexivity.
Qed.

End GateFacts.

Section GateSamples.
Import JS Schemas Thresholds ConfidenceGate Vocabulary.

(** C4 at an overall confidence of 0.40. *)
Lemma low_quality_scan_rejected :
  PrimFloat.ltb (ocr_confidence LOW_QUALITY_SCAN) 0.50%float = true
  /\ passed (evaluateConfidence SAMPLE_TO_FIXED LOW_QUALITY_SCAN None) = false
  /\ low_confidence_fields
       (evaluateConfidence SAMPLE_TO_FIXED LOW_QUALITY_SCAN None)
     = ["image_quality"]
  /\ exists q,
       clarification_questions
         (evaluateConfidence SAMPLE_TO_FIXED LOW_QUALITY_SCAN None) = [q]
       /\ field q = "image_quality".
Proof.
  split; [reflexivity|].
  apply (@low_ocr_confidence_rejected SAMPLE_TO_FIXED LOW_QUALITY_SCAN None).
  reflexivity.
Defined.

(** C5 at a frequency "BD" of confidence 0.5: below 0.65, not asked. *)
Lemma low_confidence_frequency_not_asked :
  PrimFloat.ltb 0.5%float (Thresholds.frequency CONFIDENCE_THRESHOLDS) = true
  /\ shouldRequestClarification "frequency" 0.5%float (Some "BD") = false.
Proof.
  split; [reflexivity|].
  apply (proj1 (proj2 (frequency_asked_only_when_missing 0.5%float (Some "BD"))));
    reflexivity.
Defined.

End GateSamples.

(* ================================================================== *)
(** * Properties of the explainability composer                        *)
(* ================================================================== *)

Section ComposerFacts.
Import JS Schemas Explainability Vocabulary.

Variable Number_toString : float -> string.

(** C9: with no drug info, [generateExplainabilityCard] returns a card for
    every medication, and the drug_details of the card are the fixed
    placeholder: "Information not available", no mechanism, no side
    effects, no precautions, source "Not found". *)
Theorem lookup_miss_placeholder (medication : MedicationItem) :
  exists card,
    generateExplainabilityCard Number_toString medication None = card
    /\ drug_details card = NOT_AVAILABLE
    /\ what_it_treats (drug_details card) = "Information not available"
    /\ includes (what_it_treats (drug_details card)) "not available" = true
    /\ how_it_works (drug_details card) = None
    /\ details_side_effects (drug_details card) = []
    /\ details_precautions (drug_details card) = []
    /\ details_source (drug_details card) = "Not found"
    /\ details_source_url (drug_details card) = None.
Proof.
  eexists. split; [reflexivity|].
  cbn [generateExplainabilityCard drug_details].
  repeat split.
Qed.

End ComposerFacts.

(* ================================================================== *)
(** * Properties of the nudge generator                                *)
(* ================================================================== *)

Section SortFacts.
Import JS Schemas Nudges Vocabulary.

Lemma insert_nudge_Forall (P : Nudge -> Prop) (n : Nudge) (l : list Nudge) :
  P n -> Forall P l -> Forall P (insert_nudge n l).
Proof.
  intros Hn Hl. induction Hl as [|m l Hm Hl IH]; cbn [insert_nudge].
  - constructor; [exact Hn | constructor].
  - destruct (priority m <=? priority n)%Z.
    + constructor; [exact Hn|]. constructor; assumption.
    + constructor; assumption.
Qed.

Lemma sort_by_priority_Forall (P : Nudge -> Prop) (l : list Nudge) :
  Forall P l -> Forall P (sort_by_priority l).
Proof.
  induction 1 as [|n l Hn Hl IH]; cbn [sort_by_priority fold_right].
  - constructor.
  - apply insert_nudge_Forall; assumption.
Qed.

Lemma insert_top (n : Nudge) (l : list Nudge) :
  top_priority n = true -> Forall (fun m => (priority m <= 9)%Z) l ->
  insert_nudge n l = n :: l.
Proof.
  unfold top_priority. intros Hn Hl. apply Z.eqb_eq in Hn.
  destruct Hl as [|m l Hm Hl]; cbn [insert_nudge]; [reflexivity|].
  rewrite Hn. apply Z.leb_le in Hm. now rewrite Hm.
Qed.

Lemma insert_below_top (n : Nudge) (tops rest : list Nudge) :
  (priority n < 9)%Z -> Forall (fun m => top_priority m = true) tops ->
  insert_nudge n (tops ++ rest) = tops ++ insert_nudge n rest.
Proof.
  intros Hn Htops. induction Htops as [|m tops Hm _ IH]; cbn [app insert_nudge].
  - reflexivity.
  - unfold top_priority in Hm. apply Z.eqb_eq in Hm. rewrite Hm.
    assert (Hle : (9 <=? priority n)%Z = false) by (apply Z.leb_gt; lia).
    rewrite Hle, IH. reflexivity.
Qed.

Lemma sort_tops_first (l : list Nudge) :
  Forall (fun m => (priority m <= 9)%Z) l ->
  sort_by_priority l
  = filter top_priority l
    ++ sort_by_priority (filter (fun m => negb (top_priority m)) l).
Proof.
  induction 1 as [|n l Hn Hl IH]; [reflexivity|].
  change (sort_by_priority (n :: l)) with (insert_nudge n (sort_by_priority l)).
  rewrite IH. cbn [filter].
  destruct (top_priority n) eqn:Htop; cbn [negb app].
  - apply insert_top; [exact Htop|].
    apply Forall_app. split.
    + apply Forall_forall. intros m Hm. apply filter_In in Hm.
      rewrite Forall_forall in Hl. now apply Hl.
    + apply sort_by_priority_Forall. apply Forall_forall. intros m Hm.
      apply filter_In in Hm. rewrite Forall_forall in Hl. now apply Hl.
  - change (sort_by_priority (n :: ?x)) with (insert_nudge n (sort_by_priority x)).
    apply insert_below_top.
    + unfold top_priority in Htop. apply Z.eqb_neq in Htop. lia.
    + apply Forall_forall. intros m Hm. apply filter_In in Hm. tauto.
Qed.

(** The model of [sort] is the stable sort by descending priority: its
    result is a permutation of the input, is in order, and keeps the
    nudges of each priority in their order ([sort_by_priority_perm],
    [sort_by_priority_sorted], [sort_by_priority_stable]). *)
Lemma insert_nudge_perm (n : Nudge) (l : list Nudge) :
  Permutation (insert_nudge n l) (n :: l).
Proof.
  induction l as [|m l IH]; cbn [insert_nudge]; [reflexivity|].
  destruct (priority m <=? priority n)%Z; [reflexivity|].
  rewrite IH. apply perm_swap.
Qed.

Lemma sort_by_priority_perm (l : list Nudge) :
  Permutation (sort_by_priority l) l.
Proof.
  induction l as [|n l IH]; cbn [sort_by_priority fold_right]; [reflexivity|].
  rewrite insert_nudge_perm. now constructor.
Qed.

Lemma insert_nudge_sorted (n : Nudge) (l : list Nudge) :
  StronglySorted before l -> StronglySorted before (insert_nudge n l).
Proof.
  induction 1 as [|m l Hl IH Hm]; cbn [insert_nudge].
  - repeat constructor.
  - destruct (priority m <=? priority n)%Z eqn:Hcmp.
    + apply Z.leb_le in Hcmp. constructor; [now constructor|].
      constructor; [exact Hcmp|].
      eapply Forall_impl; [|exact Hm]. unfold before. intros a Ha. lia.
    + apply Z.leb_gt in Hcmp. constructor; [exact IH|].
      apply insert_nudge_Forall; [unfold before; lia | exact Hm].
Qed.

Lemma sort_by_priority_sorted (l : list Nudge) :
  StronglySorted before (sort_by_priority l).
Proof.
  induction l as [|n l IH]; cbn [sort_by_priority fold_right].
  - constructor.
  - now apply insert_nudge_sorted.
Qed.

Lemma insert_nudge_stable (p : Z) (n : Nudge) (l : list Nudge) :
  filter (fun m => (priority m =? p)%Z) (insert_nudge n l)
  = filter (fun m => (priority m =? p)%Z) (n :: l).
Proof.
  induction l as [|m l IH]; cbn [insert_nudge]; [reflexivity|].
  destruct (priority m <=? priority n)%Z eqn:Hcmp; [reflexivity|].
  apply Z.leb_gt in Hcmp.
  cbn [filter] in *. rewrite IH.
  destruct (priority m =? p)%Z eqn:Hm, (priority n =? p)%Z eqn:Hn; try reflexivity.
  apply Z.eqb_eq in Hm, Hn. lia.
Qed.

Lemma sort_by_priority_stable (p : Z) (l : list Nudge) :
  filter (fun m => (priority m =? p)%Z) (sort_by_priority l)
  = filter (fun m => (priority m =? p)%Z) l.
Proof.
  induction l as [|n l IH]; [reflexivity|].
  change (sort_by_priority (n :: l)) with (insert_nudge n (sort_by_priority l)).
  rewrite insert_nudge_stable. cbn [filter]. now rewrite IH.
Qed.

End SortFacts.

Section NudgeFacts.
Import JS Schemas Nudges Vocabulary.
Variable clock : nat -> string.

Lemma implementation_ranked medication prefs t :
  Forall ranked (fst (generateImplementationIntentionNudges clock medication prefs t)).
Proof.
  unfold generateImplementationIntentionNudges. cbv zeta.
  destruct (truthy_num_opt (morning (timing_buckets medication)));
    destruct (truthy_num_opt (evening (timing_buckets medication))
              || truthy_num_opt (night (timing_buckets medication)));
    cbn [fst app]; repeat constructor; cbn; auto; lia.
Qed.

Lemma friction_ranked medication t :
  Forall ranked (fst (generateFrictionReductionNudges clock medication t)).
Proof. cbn [generateFrictionReductionNudges fst]. repeat constructor; cbn; lia. Qed.

Lemma why_ranked medication t :
  Forall ranked (fst (generateWhyItMattersNudges clock medication t)).
Proof.
  unfold generateWhyItMattersNudges. cbv zeta.
  destruct (truthy (duration medication)
            && negb (includes (duration medication) "directed"));
    cbn [fst app]; repeat constructor; cbn; lia.
Qed.

Lemma reinforcement_ranked patterns t :
  Forall ranked (fst (generatePositiveReinforcementNudges clock patterns t)).
Proof. cbn [generatePositiveReinforcementNudges fst]. repeat constructor; cbn; lia. Qed.

Lemma medications_ranked medications prefs :
  forall t, Forall ranked (fst (nudges_of_medications clock medications prefs t)).
Proof.
  induction medications as [|m rest IH]; intros t; cbn [nudges_of_medications].
  - constructor.
  - pose proof (implementation_ranked m prefs t) as H1.
    destruct (generateImplementationIntentionNudges clock m prefs t) as [n1 t1].
    pose proof (friction_ranked m t1) as H2.
    destruct (generateFrictionReductionNudges clock m t1) as [n2 t2].
    pose proof (why_ranked m t2) as H3.
    destruct (generateWhyItMattersNudges clock m t2) as [n3 t3].
    pose proof (IH t3) as H4.
    destruct (nudges_of_medications clock rest prefs t3) as [more t4].
    cbn [fst] in *. repeat (apply Forall_app; split); assumption.
Qed.

Lemma all_nudges_ranked medications userPreferences adherencePatterns :
  Forall ranked (all_nudges clock medications userPreferences adherencePatterns).
Proof.
  unfold all_nudges. cbv zeta.
  pose proof (medications_ranked medications
                (match userPreferences with Some p => p | None => DEFAULT_PREFERENCES end) 0) as H.
  destruct (nudges_of_medications clock medications _ 0) as [nudges t].
  cbn [fst] in H. destruct adherencePatterns as [patterns|]; [|exact H].
  apply Forall_app. split; [exact H | apply reinforcement_ranked].
Qed.

Lemma implementation_two_tops medication prefs t :
  morning_and_night medication ->
  (2 <= List.length
          (filter top_priority
             (fst (generateImplementationIntentionNudges clock medication prefs t))))%nat.
Proof.
  intros [Hm Hn]. unfold generateImplementationIntentionNudges. cbv zeta.
  rewrite Hm, Hn, orb_true_r. cbn. lia.
Qed.

Lemma medications_two_tops medications prefs medication :
  In medication medications -> morning_and_night medication ->
  forall t,
    (2 <= List.length
            (filter top_priority
               (fst (nudges_of_medications clock medications prefs t))))%nat.
Proof.
  intros Hin Hmn.
  induction medications as [|m rest IH]; [contradiction|].
  intros t. cbn [nudges_of_medications].
  pose proof (implementation_two_tops prefs t Hmn) as H1.
  destruct Hin as [->|Hin].
  - destruct (generateImplementationIntentionNudges clock medication prefs t) as [n1 t1].
    destruct (generateFrictionReductionNudges clock medication t1) as [n2 t2].
    destruct (generateWhyItMattersNudges clock medication t2) as [n3 t3].
    destruct (nudges_of_medications clock rest prefs t3) as [more t4].
    cbn [fst] in *. rewrite filter_app, length_app. lia.
  - destruct (generateImplementationIntentionNudges clock m prefs t) as [n1 t1].
    destruct (generateFrictionReductionNudges clock m t1) as [n2 t2].
    destruct (generateWhyItMattersNudges clock m t2) as [n3 t3].
    specialize (IH Hin t3).
    destruct (nudges_of_medications clock rest prefs t3) as [more t4].
    cbn [fst] in *. rewrite !filter_app, !length_app. lia.
Qed.

Lemma all_nudges_two_tops medications userPreferences adherencePatterns medication :
  In medication medications -> morning_and_night medication ->
  (2 <= List.length
          (filter top_priority
             (all_nudges clock medications userPreferences adherencePatterns)))%nat.
Proof.
  intros Hin Hmn. unfold all_nudges. cbv zeta.
  pose proof (@medications_two_tops medications
                (match userPreferences with Some p => p | None => DEFAULT_PREFERENCES end)
                medication Hin Hmn 0) as H.
  destruct (nudges_of_medications clock medications _ 0) as [nudges t].
  cbn [fst] in H. destruct adherencePatterns as [patterns|]; [|exact H].
  rewrite filter_app, length_app. lia.
Qed.

Lemma tops_counted (tops rest : list Nudge) :
  Forall (fun n => is_implementation_intention n = true) tops ->
  (2 <= List.length tops)%nat ->
  (2 <= count_implementation_intention (firstn 5 (tops ++ rest)))%nat.
Proof.
  intros Htops Hlen.
  destruct tops as [|a [|b tops]]; cbn [List.length] in Hlen; try lia.
  inversion Htops as [|? ? Ha Htops']; subst.
  inversion Htops' as [|? ? Hb _]; subst.
  unfold count_implementation_intention. cbn [app firstn filter].
  rewrite Ha, Hb. cbn [List.length]. lia.
Qed.

(** C8: when a medication of the list has both its morning and its night
    bucket populated, the list that [generateNudges] returns holds at
    least two nudges of category implementation_intention; and for every
    medication list, preferences and adherence data the list returned has
    at most 5 nudges. *)
Theorem nudges_ranked_and_capped :
  (forall (medications : list MedicationItem)
          (userPreferences : option UserPreferences)
          (adherencePatterns : option (list AdherencePattern))
          (medication : MedicationItem),
      In medication medications ->
      morning_and_night medication ->
      (2 <= count_implementation_intention
              (generateNudges clock medications userPreferences
                              adherencePatterns))%nat)
  /\ (forall (medications : list MedicationItem)
             (userPreferences : option UserPreferences)
             (adherencePatterns : option (list AdherencePattern)),
         (List.length (generateNudges clock medications userPreferences
                                      adherencePatterns) <= 5)%nat).
Proof.
  split.
  - intros medications userPreferences adherencePatterns medication Hin Hmn.
    unfold generateNudges.
    pose proof (all_nudges_ranked medications userPreferences
                                  adherencePatterns) as Hr.
    rewrite sort_tops_first
      by (eapply Forall_impl; [|exact Hr]; intros n Hn; apply Hn).
    apply tops_counted.
    + apply Forall_forall. intros n Hn. apply filter_In in Hn.
      destruct Hn as [Hn Htop].
      rewrite Forall_forall in Hr. apply (Hr n Hn).
      unfold top_priority in Htop. now apply Z.eqb_eq.
    + eapply all_nudges_two_tops; eassumption.
  - intros medications userPreferences adherencePatterns.
    unfold generateNudges. apply firstn_le_length.
Qed.

End NudgeFacts.

Section NudgeSamples.
Import JS Schemas Nudges Vocabulary.

(** C8 at a plan of one medication taken in the morning and at night. *)
Lemma morning_and_night_plan_nudges :
  morning_and_night (plain_medication "Amlodipine" MORNING_AND_NIGHT)
  /\ (2 <= count_implementation_intention
             (generateNudges SAMPLE_CLOCK
                [plain_medication "Amlodipine" MORNING_AND_NIGHT]
                None None))%nat
  /\ (List.length
        (generateNudges SAMPLE_CLOCK
           [plain_medication "Amlodipine" MORNING_AND_NIGHT] None None)
      <= 5)%nat.
Proof.
  assert (H : morning_and_night
                (plain_medication "Amlodipine" MORNING_AND_NIGHT))
    by (split; reflexivity).
  split; [exact H|]. split.
  - apply (proj1 (nudges_ranked_and_capped SAMPLE_CLOCK)
                 [plain_medication "Amlodipine" MORNING_AND_NIGHT] None None
                 (plain_medication "Amlodipine" MORNING_AND_NIGHT)
                 (or_introl eq_refl) H).
  - apply (proj2 (nudges_ranked_and_capped SAMPLE_CLOCK)).
Defined.

End NudgeSamples.

(* ================================================================== *)
(** * More properties of the extractor                                  *)
(* ================================================================== *)

Section LineFacts.
Import JS Regex Extractor Vocabulary.
Variable abbreviations_frequency : string -> option FrequencyInfo.
Variable abbreviations_form : string -> option string.

Lemma split_char_nonempty (sep : ascii) (s : string) : split_char sep s <> [].
Proof.
  destruct s as [|c r]; cbn [split_char]; [discriminate|].
  destruct (Ascii.eqb c sep); [discriminate|].
  destruct (split_char sep r); discriminate.
Qed.

Lemma split_char_app (sep : ascii) (a b : string) :
  split_char sep (a ++ String sep b)%string
  = split_char sep a ++ split_char sep b.
Proof.
  induction a as [|c r IH]; cbn [String.append split_char app].
  - rewrite Ascii.eqb_refl. reflexivity.
  - destruct (Ascii.eqb c sep); [now rewrite IH|].
    rewrite IH. pose proof (split_char_nonempty sep r) as Hne.
    destruct (split_char sep r) as [|w ws]; [contradiction|reflexivity].
Qed.

Lemma process_line_appends (acc : ExtractionResult) (line : string) :
  process_line abbreviations_frequency abbreviations_form acc line
  = mkResult
      (medications acc ++
       medications (process_line abbreviations_frequency abbreviations_form
                      (mkResult [] []) line))
      (explanations acc ++
       explanations (process_line abbreviations_frequency abbreviations_form
                       (mkResult [] []) line)).
Proof.
  unfold process_line. cbv zeta.
  destruct (isNonMedicationLine line);
    [cbn; rewrite !app_nil_r; now destruct acc|].
  destruct (negb (hasMedicationIndicators line));
    [cbn; rewrite !app_nil_r; now destruct acc|].
  destruct (medication _); cbn; [reflexivity|].
  rewrite !app_nil_r; now destruct acc.
Qed.

Lemma fold_lines_appends (lines : list string) :
  forall acc,
    fold_left (process_line abbreviations_frequency abbreviations_form) lines acc
    = mkResult
        (medications acc ++
         medications (fold_left (process_line abbreviations_frequency
                                              abbreviations_form)
                                lines (mkResult [] [])))
        (explanations acc ++
         explanations (fold_left (process_line abbreviations_frequency
                                               abbreviations_form)
                                 lines (mkResult [] []))).
Proof.
  induction lines as [|line lines IH]; intros acc; cbn [fold_left].
  - cbn. rewrite !app_nil_r. now destruct acc.
  - rewrite IH.
    rewrite (IH (process_line abbreviations_frequency abbreviations_form
                   (mkResult [] []) line)).
    rewrite (process_line_appends acc line). cbn [medications explanations].
    rewrite !app_assoc. reflexivity.
Qed.

(** X1: [extractMedications] works line by line: the records and the
    explanations of a text are those of its part before a line break
    followed by those of its part after it. *)
Theorem extraction_is_line_by_line (first rest : string) :
  extractMedications abbreviations_frequency abbreviations_form
    (first ++ newline ++ rest)%string
  = mkResult
      (medications (extractMedications abbreviations_frequency
                      abbreviations_form first)
       ++ medications (extractMedications abbreviations_frequency
                         abbreviations_form rest))
      (explanations (extractMedications abbreviations_frequency
                       abbreviations_form first)
       ++ explanations (extractMedications abbreviations_frequency
                          abbreviations_form rest)).
Proof.
  unfold extractMedications. cbv zeta.
  change (first ++ newline ++ rest)%string
    with (first ++ String "010"%char rest)%string.
  rewrite split_char_app, filter_app, fold_left_app.
  apply fold_lines_appends.
Qed.
End LineFacts.

Section RecordFacts.
Import JS Regex Extractor Vocabulary.
Variable abbreviations_frequency : string -> option FrequencyInfo.
Variable abbreviations_form : string -> option string.
Variable P : Medication -> Prop.
Hypothesis line_records :
  forall line m,
    medication (extractMedicationFromLine abbreviations_frequency
                  abbreviations_form line) = Some m -> P m.

Lemma fold_lines_records (lines : list string) :
  forall acc,
    Forall P (medications acc) ->
    Forall P (medications
                (fold_left (process_line abbreviations_frequency
                                         abbreviations_form) lines acc)).
Proof.
  induction lines as [|line lines IH]; intros acc Hacc; cbn [fold_left];
    [exact Hacc|].
  apply IH. unfold process_line.
  destruct (isNonMedicationLine line); [exact Hacc|].
  destruct (negb (hasMedicationIndicators line)); [exact Hacc|].
  cbv zeta.
  destruct (medication _) as [m0|] eqn:Hm; [|exact Hacc].
  cbn [medications]. apply Forall_app. split; [exact Hacc|].
  constructor; [|constructor]. eapply line_records. exact Hm.
Qed.

Lemma every_record (text : string) :
  Forall P (medications (extractMedications abbreviations_frequency
                           abbreviations_form text)).
Proof.
  unfold extractMedications. cbv zeta. apply fold_lines_records. constructor.
Qed.
End RecordFacts.

Section BucketFacts.
Import JS Regex Extractor Vocabulary.
Variable abbreviations_frequency : string -> option FrequencyInfo.
Variable abbreviations_form : string -> option string.

Lemma parseInt_from_nonnegative (s : string) :
  forall acc, (0 <= acc)%Z -> (0 <= parseInt_from acc s)%Z.
Proof.
  induction s as [|c r IH]; intros acc Hacc; cbn [parseInt_from];
    [exact Hacc|].
  destruct (is_digit c); [|exact Hacc].
  apply IH. unfold digit_value. lia.
Qed.

Lemma parseInt_nonnegative (s : string) : (0 <= parseInt s)%Z.
Proof. apply parseInt_from_nonnegative. lia. Qed.

Lemma line_buckets_nonnegative (line : string) (m : Medication) :
  medication (extractMedicationFromLine abbreviations_frequency
                abbreviations_form line) = Some m ->
  buckets_nonnegative (timing_buckets m).
Proof.
  unfold extractMedicationFromLine. cbv zeta.
  match goal with |- medication (if ?b then _ else _) = _ -> _ =>
    destruct b
  end; cbn [medication]; intros H; [discriminate H|].
  injection H as <-. cbn [timing_buckets].
  repeat match goal with
         | |- context [match ?x with Some _ => _ | None => _ end] =>
             destruct x
         | |- context [if ?b then _ else _] => destruct b
         end;
    repeat split; cbn; try lia; apply parseInt_nonnegative.
Qed.
End BucketFacts.

Section RecordProperties.
Import JS Regex Extractor Vocabulary.
Variable abbreviations_frequency : string -> option FrequencyInfo.
Variable abbreviations_form : string -> option string.

Lemma line_confidence_at_least_half (line : string) (m : Medication) :
  medication (extractMedicationFromLine abbreviations_frequency
                abbreviations_form line) = Some m ->
  PrimFloat.leb 0.5 (confidence m) = true.
Proof.
  unfold extractMedicationFromLine. cbv zeta.
  destruct (exec formDrugRe line);
    [|destruct (find is_candidate_word (split_ws (trim line)));
      [|cbn [truthy is_empty negb medication]; discriminate]];
  (destruct (exec strengthRe line);
   (destruct (exec dosePatternRe line);
    [|destruct (exec freqRe line); [|destruct (exec timesRe line)]]);
   (destruct (exec durationRe1 line); [|destruct (exec durationRe2 line)]);
   destruct (exec foodRe line);
   try match goal with |- context [if ?b then _ else _] => destruct b end;
   cbn [medication]; intros H; try discriminate H;
   injection H as <-; cbn [confidence]; vm_compute; reflexivity).
Qed.

(** X2: every record that [extractMedications] returns has a confidence
    of 0.5 at least (a record has a name, which adds 0.2 or 0.3 to the
    base 0.3), and none of its bucket counts is negative. *)
Theorem records_are_sound (text : string) :
  Forall (fun m => PrimFloat.leb 0.5 (confidence m) = true
                   /\ buckets_nonnegative (timing_buckets m))
         (medications (extractMedications abbreviations_frequency
                         abbreviations_form text)).
Proof.
  apply every_record. intros line m Hm. split.
  - exact (line_confidence_at_least_half _ Hm).
  - exact (line_buckets_nonnegative _ _ _ Hm).
Qed.

(** X3: on a line with a numeric dose pattern the record keeps the
    pattern as written, whatever frequency abbreviation the line also
    holds; and unless the line names a time of day, the three digits are
    the morning, afternoon and evening counts and there is no night
    count. *)
Theorem dose_pattern_takes_precedence (line : string) (d : captures) (m : Medication) :
  exec dosePatternRe line = Some d ->
  medication (extractMedicationFromLine abbreviations_frequency
                abbreviations_form line) = Some m ->
  dose_pattern m = at_ d 0
  /\ (exec timingRe line = None ->
      timing_buckets m
      = mkBuckets (Some (parseInt (at_ d 1))) (Some (parseInt (at_ d 2)))
                  (Some (parseInt (at_ d 3))) None).
Proof.
  intros Hd. unfold extractMedicationFromLine. cbv zeta. rewrite Hd.
  match goal with |- medication (if ?b then _ else _) = _ -> _ =>
    destruct b
  end; cbn [medication]; intros H; [discriminate H|].
  injection H as <-. cbn [dose_pattern timing_buckets].
  split; [reflexivity|]. intros Ht. rewrite Ht. reflexivity.
Qed.

End RecordProperties.

Section ClassRuns.
Import JS Regex Vocabulary.
Variable p : ascii -> bool.
Variable body : matcher.
Hypothesis body_class : forall prev s cs k,
  body prev s cs k =
  match s with
  | String x s' => if p x then k (Some x) s' cs else None
  | EmptyString => None
  end.
Variable at_end : cont.
Hypothesis at_end_empty : forall q c, is_some (at_end q EmptyString c) = true.
Hypothesis at_end_more : forall q x s c, at_end q (String x s) c = None.

Lemma class_run_then_end (fuel : nat) :
  forall s prev cs,
    (String.length s <= fuel)%nat ->
    is_some (repeat_loop true body at_end fuel prev s cs) = string_forall p s.
Proof.
  induction fuel as [|fuel IH]; intros s prev cs Hlen.
  - destruct s; [apply at_end_empty | simpl in Hlen; lia].
  - cbn [repeat_loop]. rewrite body_class.
    destruct s as [|x s'].
    + apply at_end_empty.
    + cbn [string_forall].
      destruct (p x); cbn [andb].
      * assert (Hlt : (String.length s' <? String.length (String x s'))%nat
                      = true)
          by (apply Nat.ltb_lt; simpl; lia).
        rewrite Hlt.
        specialize (IH s' (Some x) cs ltac:(simpl in Hlen; lia)).
        destruct (repeat_loop true body at_end fuel (Some x) s' cs);
          cbn [is_some] in *; [exact IH|].
        rewrite at_end_more. exact IH.
      * rewrite at_end_more. reflexivity.
Qed.
End ClassRuns.

Section NumericLines.
Import JS Regex Extractor Vocabulary.

Lemma class_step (p : ascii -> bool) (prev : option ascii) (s : string)
      (cs : captures) (k : cont) :
  run false (Cls p) prev s cs k =
  match s with
  | String x s' => if p x then k (Some x) s' cs else None
  | EmptyString => None
  end.
Proof.
  destruct s as [|x s']; [reflexivity|].
  cbn [run]. unfold cls_matches. cbn [andb]. rewrite orb_false_r. reflexivity.
Qed.

Lemma numericOnly_test (w : string) :
  test numericOnlyRe w
  = negb (is_empty w) && string_forall is_digit_space_colon w.
Proof.
  unfold test, exec, numericOnlyRe.
  cbn [source ignoreCase seq].
  destruct w as [|x s]; [reflexivity|].
  cbn [search]. rewrite bol_fails_inside. unfold plus.
  change (run false
              (Group 0 (Cat Bol (Cat (Cat (Cls is_digit_space_colon)
                                          (Star true (Cls is_digit_space_colon))) Eol)))
              None (String x s) [] (fun _ _ cs => Some cs))
    with (run false (Cls is_digit_space_colon) None (String x s) []
            (fun p1 s1 c1 =>
               repeat_loop true (run false (Cls is_digit_space_colon))
                 (fun p2 s2 c2 =>
                    match s2 with
                    | EmptyString =>
                        Some ((0%nat,
                               take (String.length (String x s)
                                     - String.length s2) (String x s)) :: c2)
                    | String _ _ => None
                    end)
                 (String.length s1) p1 s1 c1)).
  rewrite class_step. cbn [is_empty negb andb string_forall].
  destruct (is_digit_space_colon x); [|reflexivity].
  cbn [andb].
  match goal with |- context [repeat_loop true ?b ?k ?f ?q ?s0 ?c] =>
    pose proof (@class_run_then_end is_digit_space_colon b
                  (class_step is_digit_space_colon) k
                  ltac:(intros; reflexivity) ltac:(intros; reflexivity)
                  f s0 q c (le_n _)) as H;
    destruct (repeat_loop true b k f q s0 c)
  end; cbn [is_some] in H; rewrite <- H; reflexivity.
Qed.

Lemma lower_char_numeric (c : ascii) :
  is_digit_space_colon c = true -> lower_char c = c.
Proof.
  destruct c as [[] [] [] [] [] [] [] []]; vm_compute; intros H;
    try reflexivity; discriminate H.
Qed.

Lemma toLowerCase_numeric (s : string) :
  string_forall is_digit_space_colon s = true -> toLowerCase s = s.
Proof.
  induction s as [|c r IH]; cbn [string_forall]; [reflexivity|].
  intros H. apply andb_true_iff in H. destruct H as [Hc Hr].
  unfold toLowerCase in *. cbn [map_string].
  now rewrite (lower_char_numeric _ Hc), (IH Hr).
Qed.

Lemma trimStart_forall (p : ascii -> bool) (s : string) :
  string_forall p s = true -> string_forall p (trimStart s) = true.
Proof.
  induction s as [|c r IH]; cbn [string_forall trimStart]; [reflexivity|].
  intros H. destruct (is_white_space c); [|exact H].
  apply andb_true_iff in H. now apply IH.
Qed.

Lemma trimEnd_forall (p : ascii -> bool) (s : string) :
  string_forall p s = true -> string_forall p (trimEnd s) = true.
Proof.
  induction s as [|c r IH]; cbn [string_forall trimEnd]; [reflexivity|].
  intros H. apply andb_true_iff in H. destruct H as [Hc Hr]. cbv zeta.
  destruct (is_white_space c && is_empty (trimEnd r)); [reflexivity|].
  cbn [string_forall]. now rewrite Hc, IH.
Qed.

Lemma numeric_line_rejected (line : string) :
  string_forall is_digit_space_colon line = true ->
  isNonMedicationLine line = true.
Proof.
  intros H. unfold isNonMedicationLine. cbv zeta.
  rewrite (toLowerCase_numeric _ H).
  assert (Ht : string_forall is_digit_space_colon (trim line) = true)
    by (unfold trim; now apply trimEnd_forall, trimStart_forall).
  destruct (String.length (trim line) <? 3)%nat eqn:Hlen; [reflexivity|].
  destruct (existsb _ NON_MEDICATION_KEYWORDS); [reflexivity|].
  destruct (test dateLikeRe (trim line)); [reflexivity|].
  rewrite numericOnly_test, Ht.
  destruct (trim line); [discriminate Hlen | reflexivity].
Qed.

Lemma split_char_forall (p : ascii -> bool) (sep : ascii) (s : string) :
  string_forall p s = true ->
  Forall (fun piece => string_forall p piece = true) (split_char sep s).
Proof.
  induction s as [|c r IH]; cbn [string_forall split_char].
  - intros _. repeat constructor.
  - intros H. apply andb_true_iff in H. destruct H as [Hc Hr].
    specialize (IH Hr).
    destruct (Ascii.eqb c sep); [constructor; [reflexivity|exact IH]|].
    destruct (split_char sep r) as [|w ws].
    + repeat constructor. cbn. now rewrite Hc.
    + inversion IH; subst. constructor; [|assumption].
      cbn [string_forall]. now rewrite Hc.
Qed.

Variable abbreviations_frequency : string -> option FrequencyInfo.
Variable abbreviations_form : string -> option string.

Lemma fold_rejected_lines (lines : list string) :
  Forall (fun line => isNonMedicationLine line = true) lines ->
  forall acc,
    fold_left (process_line abbreviations_frequency abbreviations_form)
              lines acc = acc.
Proof.
  induction 1 as [|line lines Hl _ IH]; intros acc; cbn [fold_left];
    [reflexivity|].
  unfold process_line at 2. rewrite Hl. apply IH.
Qed.

(** X4: a text of digits, white space and colons only (times, dates
    written with blanks, bare numbers) yields no record and no
    explanation. *)
Theorem numeric_text_gives_no_record (text : string) :
  string_forall is_digit_space_colon text = true ->
  extractMedications abbreviations_frequency abbreviations_form text
  = mkResult [] [].
Proof.
  intros H. unfold extractMedications. cbv zeta.
  apply fold_rejected_lines.
  pose proof (split_char_forall is_digit_space_colon "010"%char text H) as Hs.
  induction Hs as [|piece pieces Hp _ IH]; cbn [filter]; [constructor|].
  destruct (0 <? String.length (trim piece))%nat; [|exact IH].
  constructor; [now apply numeric_line_rejected | exact IH].
Qed.
End NumericLines.

Section ExplanationFacts.
Import JS Regex Extractor Vocabulary.
Variable abbreviations_frequency : string -> option FrequencyInfo.
Variable abbreviations_form : string -> option string.

Lemma line_explanations_count (line : string) (m : Medication) :
  medication (extractMedicationFromLine abbreviations_frequency
                abbreviations_form line) = Some m ->
  (1 <= List.length
          (line_explanations
             (extractMedicationFromLine abbreviations_frequency
                abbreviations_form line)) <= 6)%nat.
Proof.
  unfold extractMedicationFromLine. cbv zeta.
  match goal with |- medication (if ?b then _ else _) = _ -> _ =>
    destruct b
  end; cbn [medication line_explanations]; intros H; [discriminate H|].
  clear H.
  repeat match goal with
         | |- context [match ?x with Some _ => _ | None => _ end] =>
             destruct x
         end;
    rewrite ?length_app; cbn [List.length]; lia.
Qed.

Lemma line_without_record (line : string) :
  medication (extractMedicationFromLine abbreviations_frequency
                abbreviations_form line) = None ->
  line_explanations (extractMedicationFromLine abbreviations_frequency
                       abbreviations_form line) = [].
Proof.
  unfold extractMedicationFromLine. cbv zeta.
  match goal with |- medication (if ?b then _ else _) = _ -> _ =>
    destruct b
  end; cbn [medication line_explanations]; intros H;
    [reflexivity | discriminate H].
Qed.

Lemma fold_lines_explained (lines : list string) :
  forall acc,
    (List.length (medications acc) <= List.length (explanations acc)
     <= 6 * List.length (medications acc))%nat ->
    let r := fold_left (process_line abbreviations_frequency
                                     abbreviations_form) lines acc in
    (List.length (medications r) <= List.length (explanations r)
     <= 6 * List.length (medications r))%nat.
Proof.
  induction lines as [|line lines IH]; intros acc Hacc; cbn [fold_left];
    [exact Hacc|].
  apply IH. unfold process_line.
  destruct (isNonMedicationLine line); [exact Hacc|].
  destruct (negb (hasMedicationIndicators line)); [exact Hacc|].
  cbv zeta.
  destruct (medication _) as [m0|] eqn:Hm; [|exact Hacc].
  pose proof (line_explanations_count _ Hm) as Hc.
  cbn [medications explanations]. rewrite !length_app. cbn [List.length]. lia.
Qed.

(** X5: [extractMedications] returns at least as many explanations as
    records and at most six times as many: each record brings one to six
    explanations and a line without a record brings none. *)
Theorem explanations_accompany_records (text : string) :
  let r := extractMedications abbreviations_frequency abbreviations_form text in
  (List.length (medications r) <= List.length (explanations r)
   <= 6 * List.length (medications r))%nat.
Proof.
  unfold extractMedications. cbv zeta. apply fold_lines_explained. cbn. lia.
Qed.
End ExplanationFacts.

Section RecordSamples.
Import JS Regex Extractor Vocabulary.

(** X3 at the sample line: its dose pattern is 1-0-0 and it names no time
    of day. *)
Lemma sample_line_dose_pattern :
  exec dosePatternRe SAMPLE_LINE = Some SAMPLE_DOSE_GROUPS
  /\ medication (extractMedicationFromLine no_frequency_table no_form_table
                   SAMPLE_LINE) = Some SAMPLE_RECORD
  /\ exec timingRe SAMPLE_LINE = None
  /\ dose_pattern SAMPLE_RECORD = "1-0-0"
  /\ timing_buckets SAMPLE_RECORD
     = mkBuckets (Some 1%Z) (Some 0%Z) (Some 0%Z) None.
Proof.
  assert (Hd : exec dosePatternRe SAMPLE_LINE = Some SAMPLE_DOSE_GROUPS)
    by (vm_compute; reflexivity).
  assert (Hm : medication (extractMedicationFromLine no_frequency_table
                             no_form_table SAMPLE_LINE)
               = Some SAMPLE_RECORD)
    by (vm_compute; reflexivity).
  assert (Ht : exec timingRe SAMPLE_LINE = None) by (vm_compute; reflexivity).
  split; [exact Hd|]. split; [exact Hm|]. split; [exact Ht|].
  destruct (@dose_pattern_takes_precedence no_frequency_table no_form_table
              SAMPLE_LINE SAMPLE_DOSE_GROUPS SAMPLE_RECORD Hd Hm)
    as [Hp Hb].
  split; [exact Hp | exact (Hb Ht)].
Defined.

(** X4 at two lines that hold a time and two numbers. *)
Lemma numeric_text_no_record :
  string_forall is_digit_space_colon NUMERIC_TEXT = true
  /\ extractMedications no_frequency_table no_form_table NUMERIC_TEXT
     = mkResult [] [].
Proof.
  assert (H : string_forall is_digit_space_colon NUMERIC_TEXT = true)
    by (vm_compute; reflexivity).
  split; [exact H|].
  exact (@numeric_text_gives_no_record no_frequency_table no_form_table
           NUMERIC_TEXT H).
Defined.

End RecordSamples.

(* ================================================================== *)
(** * Comparisons of binary64 numbers                                   *)
(* ================================================================== *)

Section FloatOrder.

Lemma SFcompare_antisym (x y : spec_float) :
  SFcompare y x = option_map CompOpp (SFcompare x y).
Proof.
  destruct x as [sx|sx| |sx mx ex], y as [sy|sy| |sy my ey]; cbn;
    try reflexivity;
    try (destruct sx; reflexivity); try (destruct sy; reflexivity);
    try (destruct sx, sy; reflexivity).
  destruct sx, sy; cbn; try reflexivity;
    rewrite (Z.compare_antisym ex ey);
    destruct (ex ?= ey)%Z; cbn; try reflexivity;
    rewrite (Pos.compare_cont_antisym mx my Eq); cbn;
    destruct (Pos.compare_cont Eq mx my); reflexivity.
Qed.

Lemma ltb_not_leb (x y : float) :
  PrimFloat.ltb x y = true -> PrimFloat.leb y x = false.
Proof.
  rewrite ltb_spec, leb_spec. unfold SFltb, SFleb.
  rewrite (SFcompare_antisym (Prim2SF x) (Prim2SF y)).
  destruct (SFcompare (Prim2SF x) (Prim2SF y)) as [[]|]; cbn; congruence.
Qed.

Lemma SFcompare_total (x y : spec_float) :
  SFcompare x x = Some Eq -> SFcompare y y = Some Eq ->
  SFcompare x y <> None.
Proof.
  destruct x as [sx|sx| |sx mx ex], y as [sy|sy| |sy my ey]; cbn;
    try discriminate; intros _ _; try (destruct sx; discriminate);
    try (destruct sy; discriminate).
Qed.

Lemma not_nan_compare (x : float) :
  PrimFloat.is_nan x = false -> SFcompare (Prim2SF x) (Prim2SF x) = Some Eq.
Proof.
  unfold PrimFloat.is_nan. rewrite FloatAxioms.eqb_spec. unfold SFeqb.
  destruct (SFcompare (Prim2SF x) (Prim2SF x)) as [[]|]; cbn;
    intros H; try discriminate H; reflexivity.
Qed.

Lemma not_ltb_leb (x y : float) :
  PrimFloat.ltb x y = false ->
  PrimFloat.is_nan x = false -> PrimFloat.is_nan y = false ->
  PrimFloat.leb y x = true.
Proof.
  intros Hlt Hx Hy.
  pose proof (@SFcompare_total _ _ (@not_nan_compare x Hx) (@not_nan_compare y Hy)) as Ht.
  revert Hlt. rewrite ltb_spec, leb_spec. unfold SFltb, SFleb.
  rewrite (SFcompare_antisym (Prim2SF x) (Prim2SF y)).
  destruct (SFcompare (Prim2SF x) (Prim2SF y)) as [[]|]; cbn;
    congruence.
Qed.

Lemma SFleb_trans (x y z : spec_float) :
  SFleb x y = true -> SFleb y z = true -> SFleb x z = true.
Proof.
  unfold SFleb.
  destruct x as [sx|sx| |sx mx ex], y as [sy|sy| |sy my ey],
           z as [sz|sz| |sz mz ez]; cbn;
    repeat match goal with s : bool |- _ => destruct s end; cbn;
    try discriminate; try reflexivity; try (intros; discriminate).
  all: rewrite ?Pos.compare_cont_spec; cbn.
  all: destruct (Z.compare_spec ex ey), (Z.compare_spec ey ez),
         (Z.compare_spec ex ez); cbn; try discriminate; try reflexivity;
    try lia; subst.
  all: unfold CompOpp;
    destruct (Pos.compare_spec mx my), (Pos.compare_spec my mz),
      (Pos.compare_spec mx mz); cbn; try discriminate; try reflexivity;
      try lia; intros; subst; lia.
Qed.

Lemma leb_trans (x y z : float) :
  PrimFloat.leb x y = true -> PrimFloat.leb y z = true ->
  PrimFloat.leb x z = true.
Proof. rewrite !leb_spec. apply SFleb_trans. Qed.

Lemma SFltb_trans (x y z : spec_float) :
  SFltb x y = true -> SFltb y z = true -> SFltb x z = true.
Proof.
  unfold SFltb.
  destruct x as [sx|sx| |sx mx ex], y as [sy|sy| |sy my ey],
           z as [sz|sz| |sz mz ez]; cbn;
    repeat match goal with s : bool |- _ => destruct s end; cbn;
    try discriminate; try reflexivity; try (intros; discriminate).
  all: rewrite ?Pos.compare_cont_spec; cbn.
  all: destruct (Z.compare_spec ex ey), (Z.compare_spec ey ez),
         (Z.compare_spec ex ez); cbn; try discriminate; try reflexivity;
    try lia; subst.
  all: unfold CompOpp;
    destruct (Pos.compare_spec mx my), (Pos.compare_spec my mz),
      (Pos.compare_spec mx mz); cbn; try discriminate; try reflexivity;
      try lia; intros; subst; lia.
Qed.

Lemma ltb_trans (x y z : float) :
  PrimFloat.ltb x y = true -> PrimFloat.ltb y z = true ->
  PrimFloat.ltb x z = true.
Proof. rewrite !ltb_spec. apply SFltb_trans. Qed.

End FloatOrder.

(* ================================================================== *)
(** * More properties of the thresholds and of the gate                 *)
(* ================================================================== *)

Section ThresholdFacts.
Import JS Schemas Thresholds ConfidenceGate Vocabulary.
Variable toFixed : float -> nat -> string.

Lemma below_missing_below (c k : float) :
  PrimFloat.ltb 0.30 k = true ->
  PrimFloat.ltb c 0.30 = true -> PrimFloat.ltb c k = true.
Proof. intros Hk Hc. exact (@ltb_trans _ _ _ Hc Hk). Qed.

(** X6: [shouldRequestClarification] asks about the drug name exactly
    when its confidence is below 0.70 or its value is missing, and about
    the strength exactly when its confidence is below 0.75 or its value
    is missing; the missing-field threshold 0.30 adds nothing for these
    two fields. *)
Theorem name_and_strength_asked_below_threshold (c : float) (v : option string) :
  shouldRequestClarification "drug_name" c v
  = PrimFloat.ltb c 0.70 || negb (truthy_opt v)
  /\ shouldRequestClarification "strength" c v
     = PrimFloat.ltb c 0.75 || negb (truthy_opt v).
Proof.
  unfold shouldRequestClarification. cbv zeta.
  cbn [String.eqb Ascii.eqb Bool.eqb].
  change (drug_name_uncertain CLARIFICATION_RULES) with true.
  change (strength_uncertain CLARIFICATION_RULES) with true.
  change (missing_field_threshold CONFIDENCE_THRESHOLDS) with 0.30%float.
  change (Thresholds.drug_name CONFIDENCE_THRESHOLDS) with 0.70%float.
  change (Thresholds.strength CONFIDENCE_THRESHOLDS) with 0.75%float.
  cbn [andb].
  split.
  - destruct (PrimFloat.ltb c 0.30) eqn:Hm; cbn [orb].
    + rewrite (@below_missing_below c 0.70 eq_refl Hm). reflexivity.
    + reflexivity.
  - destruct (PrimFloat.ltb c 0.30) eqn:Hm; cbn [orb].
    + rewrite (@below_missing_below c 0.75 eq_refl Hm). reflexivity.
    + reflexivity.
Qed.

(** X7: the gate passes exactly when the OCR confidence is 0.50 or more,
    and it fails exactly when [getConfidenceLevel] grades that confidence
    [very_low] (a NaN confidence included). *)
Theorem passed_is_not_very_low (ocrResult : OCRResult)
        (extractedFields : option ExtractedFields) :
  passed (evaluateConfidence toFixed ocrResult extractedFields)
  = PrimFloat.leb 0.50 (ocr_confidence ocrResult)
  /\ (passed (evaluateConfidence toFixed ocrResult extractedFields) = false
      <-> getConfidenceLevel (ocr_confidence ocrResult) = very_low).
Proof.
  assert (Hp : passed (evaluateConfidence toFixed ocrResult extractedFields)
               = PrimFloat.leb 0.50 (ocr_confidence ocrResult)).
  { unfold evaluateConfidence. cbv zeta.
    change (ocr_minimum CONFIDENCE_THRESHOLDS) with 0.50%float.
    destruct (PrimFloat.ltb (ocr_confidence ocrResult) 0.50) eqn:Hlow.
    - cbn [passed]. symmetry. now apply ltb_not_leb.
    - reflexivity. }
  split; [exact Hp|]. rewrite Hp. unfold getConfidenceLevel.
  change (level_min (CONFIDENCE_LEVELS high)) with 0.80%float.
  change (level_min (CONFIDENCE_LEVELS medium)) with 0.65%float.
  change (level_min (CONFIDENCE_LEVELS low)) with 0.50%float.
  split.
  - intros Hlow.
    destruct (PrimFloat.leb 0.80 (ocr_confidence ocrResult)) eqn:H80.
    + rewrite (@leb_trans 0.50 0.80 _ eq_refl H80) in Hlow. discriminate.
    + destruct (PrimFloat.leb 0.65 (ocr_confidence ocrResult)) eqn:H65.
      * rewrite (@leb_trans 0.50 0.65 _ eq_refl H65) in Hlow. discriminate.
      * rewrite Hlow. reflexivity.
  - destruct (PrimFloat.leb 0.80 _); [discriminate|].
    destruct (PrimFloat.leb 0.65 _); [discriminate|].
    destruct (PrimFloat.leb 0.50 _); [discriminate|reflexivity].
Qed.
End ThresholdFacts.

Section GateShapeFacts.
Import JS Schemas Thresholds ConfidenceGate Vocabulary.
Variable toFixed : float -> nat -> string.

Lemma duration_never_requested (c : float) (v : option string) :
  shouldRequestClarification "duration" c v = false.
Proof. reflexivity. Qed.

Lemma check_drug_name_shape (f : option ExtractedField) :
  fst (check_drug_name f) = map field (snd (check_drug_name f))
  /\ Forall well_formed_question (snd (check_drug_name f))
  /\ (List.length (snd (check_drug_name f)) <= 1)%nat.
Proof.
  unfold check_drug_name, no_question.
  destruct f as [[value confidence]|];
    [destruct (shouldRequestClarification "drug_name" confidence (Some value));
     [destruct (truthy value)|]|];
    cbn [fst snd map field List.length];
    (split; [reflexivity|split; [|lia]]);
    try (constructor; [|constructor]; split;
         [unfold GATE_FIELDS; cbn [field In];
          repeat (first [left; reflexivity | right])
         |unfold suggestions_in_range; cbn [suggestions List.length]; lia]);
    constructor.
Qed.

Lemma check_strength_shape (f : option ExtractedField) :
  fst (check_strength f) = map field (snd (check_strength f))
  /\ Forall well_formed_question (snd (check_strength f))
  /\ (List.length (snd (check_strength f)) <= 1)%nat.
Proof.
  unfold check_strength, no_question.
  destruct f as [[value confidence]|];
    [destruct (shouldRequestClarification "strength" confidence (Some value));
     [destruct (truthy value)|]|];
    cbn [fst snd map field List.length];
    (split; [reflexivity|split; [|lia]]);
    try (constructor; [|constructor]; split;
         [unfold GATE_FIELDS; cbn [field In];
          repeat (first [left; reflexivity | right])
         |unfold suggestions_in_range; cbn [suggestions List.length]; lia]);
    constructor.
Qed.

Lemma check_frequency_shape (f : option ExtractedField) :
  fst (check_frequency f) = map field (snd (check_frequency f))
  /\ Forall well_formed_question (snd (check_frequency f))
  /\ (List.length (snd (check_frequency f)) <= 1)%nat.
Proof.
  unfold check_frequency, no_question.
  destruct f as [[value confidence]|];
    [destruct (shouldRequestClarification "frequency" confidence (Some value));
     [destruct (truthy value)|]|];
    cbn [fst snd map field List.length];
    (split; [reflexivity|split; [|lia]]);
    try (constructor; [|constructor]; split;
         [unfold GATE_FIELDS; cbn [field In];
          repeat (first [left; reflexivity | right])
         |unfold suggestions_in_range; cbn [suggestions List.length]; lia]);
    constructor.
Qed.

Lemma check_duration_silent (f : option ExtractedField) :
  check_duration f = no_question.
Proof. destruct f as [[value confidence]|]; reflexivity. Qed.

(** X8: in every result of [evaluateConfidence], confirmation is needed
    exactly when there is a question, the low-confidence fields are the
    fields of the questions in order, every question is about the image
    quality, the drug name, the strength or the frequency and offers one
    to four suggestions if any, and there are at most three questions. *)
Theorem gate_questions_well_formed
        (ocrResult : OCRResult) (extractedFields : option ExtractedFields) :
  let r := evaluateConfidence toFixed ocrResult extractedFields in
  needs_confirmation r = negb (is_nil (clarification_questions r))
  /\ low_confidence_fields r = map field (clarification_questions r)
  /\ Forall well_formed_question (clarification_questions r)
  /\ (List.length (clarification_questions r) <= 3)%nat.
Proof.
  unfold evaluateConfidence. cbv zeta.
  destruct (PrimFloat.ltb _ _).
  - cbn [needs_confirmation clarification_questions low_confidence_fields
         is_nil negb map field List.length].
    repeat split; try lia.
    constructor; [|constructor]. split; [left; reflexivity | exact I].
  - cbn [needs_confirmation clarification_questions low_confidence_fields].
    destruct extractedFields as [fields|].
    + cbn [flat_map]. rewrite check_duration_silent. unfold no_question.
      cbn [fst snd]. rewrite !app_nil_r.
      destruct (check_drug_name_shape (drug_name fields)) as [N1 [N2 N3]].
      destruct (check_strength_shape (strength fields)) as [S1 [S2 S3]].
      destruct (check_frequency_shape (frequency fields)) as [F1 [F2 F3]].
      repeat split.
      * destruct (snd (check_drug_name (drug_name fields))); [|reflexivity].
        destruct (snd (check_strength (strength fields))); [|reflexivity].
        destruct (snd (check_frequency (frequency fields))); reflexivity.
      * rewrite !map_app, N1, S1, F1. reflexivity.
      * repeat (apply Forall_app; split); assumption.
      * rewrite !length_app. lia.
    + cbn. repeat split; try constructor. lia.
Qed.

Lemma above_threshold_not_missing (c k : float) :
  PrimFloat.ltb 0.30 k = true ->
  PrimFloat.ltb c k = false -> PrimFloat.ltb c 0.30 = false.
Proof.
  intros Hk Hc. destruct (PrimFloat.ltb c 0.30) eqn:Hm; [|reflexivity].
  rewrite (@ltb_trans _ _ _ Hm Hk) in Hc. discriminate.
Qed.

(** X9: a scan at or above the OCR minimum whose name, strength and
    frequency are present with confidences not below 0.70, 0.75 and 0.30
    gets no question and needs no confirmation, whatever the duration
    and the food instruction are. *)
Theorem confident_fields_need_no_confirmation
        (ocrResult : OCRResult) (fields : ExtractedFields) :
  PrimFloat.ltb (ocr_confidence ocrResult) 0.50 = false ->
  confident 0.70 (drug_name fields) ->
  confident 0.75 (strength fields) ->
  confident 0.30 (frequency fields) ->
  clarification_questions (evaluateConfidence toFixed ocrResult (Some fields))
  = []
  /\ needs_confirmation (evaluateConfidence toFixed ocrResult (Some fields))
     = false.
Proof.
  intros Hocr [nv [nc [Hn [Hnv Hnc]]]] [sv [sc [Hs [Hsv Hsc]]]]
         [fv [fc [Hf [Hfv Hfc]]]].
  unfold evaluateConfidence. cbv zeta.
  change (ocr_minimum CONFIDENCE_THRESHOLDS) with 0.50%float.
  rewrite Hocr.
  cbn [needs_confirmation clarification_questions flat_map].
  rewrite check_duration_silent, Hn, Hs, Hf.
  unfold check_drug_name, check_strength, check_frequency,
    shouldRequestClarification.
  cbv zeta. cbn [String.eqb Ascii.eqb Bool.eqb].
  change (drug_name_uncertain CLARIFICATION_RULES) with true.
  change (strength_uncertain CLARIFICATION_RULES) with true.
  change (frequency_missing CLARIFICATION_RULES) with true.
  change (missing_field_threshold CONFIDENCE_THRESHOLDS) with 0.30%float.
  change (Thresholds.drug_name CONFIDENCE_THRESHOLDS) with 0.70%float.
  change (Thresholds.strength CONFIDENCE_THRESHOLDS) with 0.75%float.
  cbn [truthy_opt].
  rewrite Hnv, Hsv, Hfv, Hnc, Hsc, Hfc.
  rewrite (@above_threshold_not_missing nc 0.70 eq_refl Hnc).
  rewrite (@above_threshold_not_missing sc 0.75 eq_refl Hsc).
  cbn. split; reflexivity.
Qed.

(** X10: [checkOCRQuality] accepts a scan exactly when its confidence is
    not below 0.50, its trimmed text is not empty and it has five tokens
    or more; and a scan it accepts passes [evaluateConfidence], unless
    its confidence is NaN. *)
Theorem quality_check_agrees_with_gate
        (ocrResult : OCRResult) (extractedFields : option ExtractedFields) :
  acceptable (checkOCRQuality toFixed ocrResult)
  = negb (PrimFloat.ltb (ocr_confidence ocrResult) 0.50)
    && (0 <? String.length (trim (ocr_text ocrResult)))%nat
    && (5 <=? List.length (ocr_tokens_all ocrResult))%nat
  /\ acceptable (checkOCRQuality toFixed ocrResult)
     && negb (PrimFloat.is_nan (ocr_confidence ocrResult))
     && negb (passed (evaluateConfidence toFixed ocrResult extractedFields))
     = false.
Proof.
  unfold checkOCRQuality, evaluateConfidence. cbv zeta.
  change (ocr_minimum CONFIDENCE_THRESHOLDS) with 0.50%float.
  destruct (PrimFloat.ltb (ocr_confidence ocrResult) 0.50) eqn:Hlow.
  - cbn [acceptable passed negb andb]. split; reflexivity.
  - cbn [passed negb andb].
    assert (Htext : negb (truthy (ocr_text ocrResult))
                    || (String.length (trim (ocr_text ocrResult)) =? 0)%nat
                    = negb (0 <? String.length (trim (ocr_text ocrResult)))%nat).
    { destruct (ocr_text ocrResult) as [|c r] eqn:Ht; [reflexivity|].
      cbn [truthy is_empty negb orb].
      destruct (String.length (trim (String c r))); reflexivity. }
    rewrite Htext.
    destruct (0 <? String.length (trim (ocr_text ocrResult)))%nat;
      cbn [negb andb acceptable]; [|split; reflexivity].
    rewrite Nat.ltb_antisym.
    destruct (5 <=? List.length (ocr_tokens_all ocrResult))%nat;
      cbn [negb andb acceptable]; [|split; reflexivity].
    split; [reflexivity|].
    destruct (PrimFloat.is_nan (ocr_confidence ocrResult)) eqn:Hnan;
      [reflexivity|].
    cbn [negb andb].
    rewrite (@not_ltb_leb _ _ Hlow Hnan eq_refl). reflexivity.
Qed.

(** X11: [generateClarificationQuestionsForMedication] asks one question
    per uncertain field it knows (name, strength, frequency, duration), in
    the order of [uncertain_fields] and with repetitions kept; it asks
    nothing about other field names, and nothing at all when the
    medication needs no confirmation. *)
Theorem medication_questions_follow_uncertain_fields (medication : MedicationItem) :
  map field (generateClarificationQuestionsForMedication medication)
  = if Schemas.needs_confirmation medication
    then filter (fun f => array_includes KNOWN_UNCERTAIN_FIELDS f)
                (uncertain_fields medication)
    else [].
Proof.
  unfold generateClarificationQuestionsForMedication.
  destruct (Schemas.needs_confirmation medication); [|reflexivity].
  induction (uncertain_fields medication) as [|f fs IH]; [reflexivity|].
  cbn [flat_map filter]. rewrite map_app, IH.
  unfold question_for_field, array_includes, KNOWN_UNCERTAIN_FIELDS.
  cbn [existsb].
  destruct (String.eqb_spec f "name") as [->|Hn]; [reflexivity|].
  destruct (String.eqb_spec f "strength") as [->|Hs]; [reflexivity|].
  destruct (String.eqb_spec f "frequency") as [->|Hf]; [reflexivity|].
  destruct (String.eqb_spec f "duration") as [->|Hd]; [reflexivity|].
  reflexivity.
Qed.
End GateShapeFacts.

Section GateShapeSamples.
Import JS Schemas Thresholds ConfidenceGate Vocabulary.

(** X9 at a clear scan with three confident fields. *)
Lemma confident_scan_needs_no_confirmation :
  PrimFloat.ltb (ocr_confidence CLEAR_SCAN) 0.50 = false
  /\ confident 0.70 (drug_name CONFIDENT_FIELDS)
  /\ confident 0.75 (strength CONFIDENT_FIELDS)
  /\ confident 0.30 (frequency CONFIDENT_FIELDS)
  /\ clarification_questions
       (evaluateConfidence SAMPLE_TO_FIXED CLEAR_SCAN (Some CONFIDENT_FIELDS))
     = []
  /\ needs_confirmation
       (evaluateConfidence SAMPLE_TO_FIXED CLEAR_SCAN (Some CONFIDENT_FIELDS))
     = false.
Proof.
  assert (Hocr : PrimFloat.ltb (ocr_confidence CLEAR_SCAN) 0.50 = false)
    by reflexivity.
  assert (Hn : confident 0.70 (drug_name CONFIDENT_FIELDS))
    by (exists "Amlodipine", 0.9%float; repeat split; reflexivity).
  assert (Hs : confident 0.75 (strength CONFIDENT_FIELDS))
    by (exists "5mg", 0.9%float; repeat split; reflexivity).
  assert (Hf : confident 0.30 (frequency CONFIDENT_FIELDS))
    by (exists "OD", 0.85%float; repeat split; reflexivity).
  split; [exact Hocr|]. split; [exact Hn|]. split; [exact Hs|].
  split; [exact Hf|].
  exact (@confident_fields_need_no_confirmation SAMPLE_TO_FIXED CLEAR_SCAN
           CONFIDENT_FIELDS Hocr Hn Hs Hf).
Defined.

End GateShapeSamples.

(* ================================================================== *)
(** * More properties of the interaction checker                        *)
(* ================================================================== *)

Section PairFacts.
Import JS Schemas Interactions Vocabulary.
Variable drug_interactions : list DrugInteractionEntry.
Variable condition_table : list ConditionEntry.
Variable allergy_table : list AllergyEntry.

Lemma pair_results_short (a b : string) :
  (List.length (pair_results drug_interactions a b) <= 1)%nat.
Proof. unfold pair_results. destruct (findInteraction _ _ _); cbn; lia. Qed.

Lemma flat_map_short {A B : Type} (f : A -> list B) (l : list A) :
  (forall a, List.length (f a) <= 1)%nat ->
  (List.length (flat_map f l) <= List.length l)%nat.
Proof.
  intros Hf. induction l as [|a l IH]; cbn [flat_map List.length]; [lia|].
  rewrite length_app. specialize (Hf a). lia.
Qed.

Lemma check_pairs_bound (names : list string) :
  (2 * List.length (check_pairs drug_interactions names)
   <= List.length names * (List.length names - 1))%nat.
Proof.
  induction names as [|d rest IH]; cbn [check_pairs List.length]; [lia|].
  rewrite length_app.
  pose proof (flat_map_short (fun drug2 => pair_results drug_interactions d drug2)
                rest (pair_results_short d)) as H.
  destruct rest as [|d2 rest']; cbn [List.length] in *; nia.
Qed.

(** X12: [checkDrugInteractions] returns at most one result per
    unordered pair of positions of the plan: at most n(n-1)/2 results for
    n medications, so none for a plan of one medication. *)
Theorem at_most_one_result_per_pair (medications : list MedicationItem) :
  (2 * List.length (checkDrugInteractions drug_interactions medications)
   <= List.length medications * (List.length medications - 1))%nat.
Proof.
  unfold checkDrugInteractions. cbv zeta.
  pose proof (check_pairs_bound (map name medications)) as H.
  rewrite length_map in H. exact H.
Qed.

Lemma search_entries_symmetric (items : list DrugInteractionEntry) (a b : string) :
  is_some (search_entries items a b) = is_some (search_entries items b a).
Proof.
  induction items as [|item items IH]; cbn [search_entries]; [reflexivity|].
  destruct (entry_interaction item a b), (entry_interaction item b a);
    cbn [is_some]; try reflexivity. exact IH.
Qed.

(** X13: [findInteraction] finds an interaction for two names in one
    order exactly when it finds one in the other order, so a pair gets a
    result whichever of the two comes first in the plan. *)
Theorem interaction_found_in_either_order (drug1 drug2 : string) :
  is_some (findInteraction drug_interactions drug1 drug2)
  = is_some (findInteraction drug_interactions drug2 drug1)
  /\ List.length (pair_results drug_interactions drug1 drug2)
     = List.length (pair_results drug_interactions drug2 drug1).
Proof.
  assert (H : is_some (findInteraction drug_interactions drug1 drug2)
              = is_some (findInteraction drug_interactions drug2 drug1))
    by (unfold findInteraction; apply search_entries_symmetric).
  split; [exact H|]. unfold pair_results.
  destruct (findInteraction drug_interactions drug1 drug2),
           (findInteraction drug_interactions drug2 drug1);
    cbn in *; congruence.
Qed.

Lemma entry_interaction_provenance item a b r :
  entry_interaction item a b = Some r ->
  drug1 r = drug item /\ In (drug2 r) (interactions item)
  /\ description r = warning item /\ interaction_source r = LOCAL_SOURCE.
Proof.
  unfold entry_interaction. cbv zeta.
  destruct (matches_name _ _); [|discriminate].
  destruct (find _ (interactions item)) as [w|] eqn:Hfind; [|discriminate].
  destruct (truthy w); [|discriminate].
  intros H. injection H as <-. apply find_some in Hfind. cbn. tauto.
Qed.

Lemma search_entries_provenance items a b r :
  search_entries items a b = Some r ->
  exists item,
    In item items /\ drug1 r = drug item /\ In (drug2 r) (interactions item)
    /\ description r = warning item /\ interaction_source r = LOCAL_SOURCE.
Proof.
  induction items as [|item items IH]; cbn [search_entries]; [discriminate|].
  destruct (entry_interaction item a b) as [r1|] eqn:H1.
  - intros H. injection H as ->. exists item. split; [now left|].
    eapply entry_interaction_provenance; eassumption.
  - destruct (entry_interaction item b a) as [r2|] eqn:H2.
    + intros H. injection H as ->. exists item. split; [now left|].
      eapply entry_interaction_provenance; eassumption.
    + intros H. destruct (IH H) as [it [Hin Hit]]. exists it.
      split; [now right | exact Hit].
Qed.

(** X14: every result of [checkDrugInteractions] is read off one entry
    of the table: its first drug is the entry's drug, its second one of
    the entry's interactions, its description the entry's warning, and
    its source the local database. *)
Theorem results_come_from_the_table (medications : list MedicationItem) :
  Forall (fun r =>
            exists item,
              In item drug_interactions
              /\ drug1 r = drug item /\ In (drug2 r) (interactions item)
              /\ description r = warning item
              /\ interaction_source r = LOCAL_SOURCE)
         (checkDrugInteractions drug_interactions medications).
Proof.
  apply Forall_forall. intros r.
  unfold checkDrugInteractions. cbv zeta.
  induction (map name medications) as [|d rest IH]; cbn [check_pairs];
    [contradiction|].
  intros Hin. apply in_app_or in Hin. destruct Hin as [Hin|Hin]; [|now apply IH].
  apply in_flat_map in Hin. destruct Hin as [d2 [_ Hin]].
  unfold pair_results, findInteraction in Hin. cbv zeta in Hin.
  destruct (search_entries _ _ _) as [r'|] eqn:Hs; [|contradiction].
  destruct Hin as [<-|[]]. eapply search_entries_provenance. exact Hs.
Qed.
End PairFacts.

Section ConditionFacts.
Import JS Schemas Interactions Vocabulary.
Variable drug_interactions : list DrugInteractionEntry.
Variable condition_table : list ConditionEntry.
Variable allergy_table : list AllergyEntry.

Lemma first_result_some {E R : Type} (body : E -> option R) (items : list E) (r : R) :
  first_result body items = Some r ->
  exists item, In item items /\ body item = Some r.
Proof.
  induction items as [|item items IH]; cbn [first_result]; [discriminate|].
  destruct (body item) as [r'|] eqn:Hb.
  - intros H. injection H as ->. exists item. split; [now left | exact Hb].
  - intros H. destruct (IH H) as [it [Hin Hit]]. exists it.
    split; [now right | exact Hit].
Qed.

Lemma pushed_short {R : Type} (o : option R) : (List.length (pushed o) <= 1)%nat.
Proof. destruct o; cbn; lia. Qed.

Lemma nested_flat_map_bound {A B C : Type} (f : A -> B -> list C)
      (la : list A) (lb : list B) :
  (forall a b, List.length (f a b) <= 1)%nat ->
  (List.length (flat_map (fun a => flat_map (f a) lb) la)
   <= List.length la * List.length lb)%nat.
Proof.
  intros Hf. induction la as [|a la IH]; cbn [flat_map List.length]; [lia|].
  rewrite length_app.
  pose proof (@flat_map_short B C (f a) lb (Hf a)). lia.
Qed.

Lemma condition_entry_graded item nd nc r :
  condition_entry_interaction item nd nc = Some r ->
  dc_condition r = condition item
  /\ In (dc_drug r) (listed_drugs item)
  /\ includes (toLowerCase (dc_drug r)) nd = true
  /\ includes (toLowerCase (condition item)) nc = true
  /\ dc_severity r = graded item (dc_drug r)
  /\ dc_description r = condition_warning item.
Proof.
  unfold condition_entry_interaction. cbv zeta.
  destruct (matches_name (toLowerCase (condition item)) nc) eqn:Hc;
    [|discriminate].
  match goal with |- context [find ?f ?l] => destruct (find f l) as [d|] eqn:Hfind end;
    [|discriminate].
  destruct (truthy d); [|discriminate].
  intros H. injection H as <-. apply find_some in Hfind.
  destruct Hfind as [Hin Hd].
  rewrite matches_name_includes in Hc, Hd. cbn. unfold graded, listed_drugs.
  repeat split; assumption.
Qed.

(** X15: every result of [checkDrugConditionInteractions] is read off
    one entry of the condition table: the drug is one the entry lists,
    the severity is [avoid] if the entry's avoid list holds that drug,
    else [monitor] if its monitor list does, else [caution] (so a drug
    listed as high-risk only is graded [caution]); and there is at most
    one result per medication and stated condition. *)
Theorem condition_severity_follows_the_lists
        (medications : list MedicationItem) (conditions : list string) :
  Forall (fun r =>
            exists item,
              In item condition_table
              /\ dc_condition r = condition item
              /\ In (dc_drug r) (listed_drugs item)
              /\ dc_severity r = graded item (dc_drug r)
              /\ dc_description r = condition_warning item)
         (checkDrugConditionInteractions condition_table medications
                                         conditions)
  /\ (List.length (checkDrugConditionInteractions condition_table
                     medications conditions)
      <= List.length medications * List.length conditions)%nat.
Proof.
  split.
  - apply Forall_forall.
    intros r Hin. unfold checkDrugConditionInteractions in Hin.
    apply in_flat_map in Hin. destruct Hin as [m [_ Hin]].
    apply in_flat_map in Hin. destruct Hin as [c [_ Hin]].
    unfold findDrugConditionInteraction in Hin. cbv zeta in Hin.
    destruct (first_result _ condition_table) as [r'|] eqn:Hf;
      [|contradiction].
    destruct Hin as [<-|[]].
    apply first_result_some in Hf. destruct Hf as [item [Hitem Hbody]].
    apply condition_entry_graded in Hbody.
    exists item. tauto.
  - unfold checkDrugConditionInteractions.
    apply (nested_flat_map_bound
             (fun medication condition =>
                pushed (findDrugConditionInteraction condition_table
                          (name medication) condition))).
    intros a b. apply pushed_short.
Qed.

Lemma allergy_entry_provenance item nd na w :
  allergy_entry_match item nd na = Some w ->
  aw_allergy w = allergy item
  /\ In (aw_drug w) (allergy_avoid_drugs item)
  /\ includes (toLowerCase (aw_drug w)) nd = true
  /\ includes (toLowerCase (allergy item)) na = true
  /\ aw_warning w = allergy_warning item.
Proof.
  unfold allergy_entry_match. cbv zeta.
  destruct (matches_name (toLowerCase (allergy item)) na) eqn:Hc;
    [|discriminate].
  destruct (find _ (allergy_avoid_drugs item)) as [d|] eqn:Hfind;
    [|discriminate].
  destruct (truthy d); [|discriminate].
  intros H. injection H as <-. apply find_some in Hfind.
  destruct Hfind as [Hin Hd].
  rewrite matches_name_includes in Hc, Hd. cbn. repeat split; assumption.
Qed.

(** X16: every warning of [checkDrugAllergies] is read off one entry of
    the allergy table for one medication of the plan and one stated
    allergy: the entry's lower-cased allergy contains the normalized
    stated allergy, the warned drug is one of the entry's drugs to avoid
    and its lower-cased name contains the normalized medication name;
    and there is at most one warning per medication and stated allergy. *)
Theorem allergy_warnings_come_from_the_table
        (medications : list MedicationItem) (allergies : list string) :
  Forall (fun w =>
            exists item medication stated,
              In item allergy_table /\ In medication medications
              /\ In stated allergies
              /\ aw_allergy w = allergy item
              /\ In (aw_drug w) (allergy_avoid_drugs item)
              /\ includes (toLowerCase (aw_drug w))
                          (normalize (name medication)) = true
              /\ includes (toLowerCase (allergy item)) (normalize stated)
                 = true
              /\ aw_warning w = allergy_warning item)
         (checkDrugAllergies allergy_table medications allergies)
  /\ (List.length (checkDrugAllergies allergy_table medications allergies)
      <= List.length medications * List.length allergies)%nat.
Proof.
  split.
  - apply Forall_forall.
    intros w Hin. unfold checkDrugAllergies in Hin.
    apply in_flat_map in Hin. destruct Hin as [m [Hm Hin]].
    apply in_flat_map in Hin. destruct Hin as [a [Ha Hin]].
    unfold findDrugAllergy in Hin. cbv zeta in Hin.
    destruct (first_result _ allergy_table) as [w'|] eqn:Hf; [|contradiction].
    destruct Hin as [<-|[]].
    apply first_result_some in Hf. destruct Hf as [item [Hitem Hbody]].
    apply allergy_entry_provenance in Hbody.
    exists item, m, a. unfold normalize. tauto.
  - unfold checkDrugAllergies.
    apply (nested_flat_map_bound
             (fun medication allergy =>
                pushed (findDrugAllergy allergy_table (name medication) allergy))).
    intros a b. apply pushed_short.
Qed.

(** X17: in the report of [getInteractionReport] the flag
    [has_interactions] is set exactly when one of the three lists is not
    empty; conditions or allergies that are not given yield an empty
    list; and the report of an empty plan is empty. *)
Theorem report_flag_and_empty_plan
        (medications : list MedicationItem)
        (conditions allergies : option (list string)) :
  let report := getInteractionReport drug_interactions condition_table
                  allergy_table medications conditions allergies in
  has_interactions report
  = negb (is_nil (report_drug_interactions report)
          && is_nil (condition_interactions report)
          && is_nil (allergy_warnings report))
  /\ condition_interactions
       (getInteractionReport drug_interactions condition_table
          allergy_table medications None allergies) = []
  /\ allergy_warnings
       (getInteractionReport drug_interactions condition_table
          allergy_table medications conditions None) = []
  /\ getInteractionReport drug_interactions condition_table
       allergy_table [] conditions allergies
     = mkReport [] [] [] false.
Proof.
  unfold getInteractionReport. cbv zeta.
  cbn [has_interactions report_drug_interactions condition_interactions
       allergy_warnings].
  split; [|split; [|split]].
  - destruct (checkDrugInteractions drug_interactions medications);
      [|reflexivity].
    destruct (match conditions with Some _ => _ | None => _ end); [|reflexivity].
    destruct (match allergies with Some _ => _ | None => _ end); reflexivity.
  - reflexivity.
  - reflexivity.
  - destruct conditions, allergies; reflexivity.
Qed.
End ConditionFacts.

(* ================================================================== *)
(** * More properties of the explainability composer                    *)
(* ================================================================== *)

Section ContainmentFacts.
Import JS.

Lemma append_assoc (a b c : string) :
  ((a ++ b) ++ c = a ++ (b ++ c))%string.
Proof. induction a as [|x a IH]; cbn; [reflexivity | now rewrite IH]. Qed.

Lemma startsWith_prefix (s p : string) :
  startsWith s p = true <-> exists rest, s = (p ++ rest)%string.
Proof.
  revert s. induction p as [|a p IH]; intros s.
  - destruct s; cbn; (split; [intros _; eexists; reflexivity | reflexivity]).
  - destruct s as [|b s]; cbn [startsWith String.append].
    + split; [discriminate | intros [rest H]; discriminate H].
    + rewrite andb_true_iff, Ascii.eqb_eq, IH. split.
      * intros [<- [rest ->]]. now exists rest.
      * intros [rest H]. injection H as -> ->. split; [reflexivity|].
        now exists rest.
Qed.

Lemma includes_infix (s sub : string) :
  includes s sub = true
  <-> exists front rest, s = (front ++ sub ++ rest)%string.
Proof.
  induction s as [|c s IH].
  - cbn [includes]. rewrite orb_false_r, startsWith_prefix. split.
    + intros [rest H]. now exists EmptyString, rest.
    + intros [front [rest H]]. destruct front; [now exists rest|].
      discriminate H.
  - cbn [includes]. rewrite orb_true_iff, startsWith_prefix, IH. split.
    + intros [[rest H]|[front [rest H]]].
      * now exists EmptyString, rest.
      * exists (String c front), rest. cbn. now rewrite H.
    + intros [front [rest H]]. destruct front as [|x front].
      * left. now exists rest.
      * right. cbn in H. injection H as _ ->. now exists front, rest.
Qed.

Lemma includes_trans (s t u : string) :
  includes s t = true -> includes t u = true -> includes s u = true.
Proof.
  rewrite !includes_infix. intros [f1 [r1 ->]] [f2 [r2 ->]].
  exists (f1 ++ f2)%string, (r2 ++ r1)%string.
  now rewrite !append_assoc.
Qed.
End ContainmentFacts.

Section CardFacts.
Import JS Schemas Explainability Vocabulary.
Variable Number_toString : float -> string.

Lemma map_indexed_nth (A B : Type) (f : A -> nat -> B) (xs : list A) :
  forall index i,
    nth_error (map_indexed f index xs) i
    = option_map (fun x => f x (index + i)%nat) (nth_error xs i).
Proof.
  induction xs as [|x xs IH]; intros index i; cbn [map_indexed].
  - destruct i; reflexivity.
  - destruct i as [|i]; cbn [nth_error option_map].
    + now rewrite Nat.add_0_r.
    + rewrite IH. now rewrite Nat.add_succ_r.
Qed.

Lemma map_indexed_length (A B : Type) (f : A -> nat -> B) (xs : list A) :
  forall index, List.length (map_indexed f index xs) = List.length xs.
Proof.
  induction xs as [|x xs IH]; intros index; cbn; [reflexivity|].
  now rewrite IH.
Qed.

Lemma nth_error_skipn_shift (A : Type) (k : nat) :
  forall (l : list A) (i : nat),
    nth_error (skipn k l) i = nth_error l (k + i).
Proof.
  induction k as [|k IH]; intros l i; [reflexivity|].
  destruct l as [|x l]; cbn [skipn Nat.add nth_error];
    [now destruct i | apply IH].
Qed.

(** X18: [generateExplainabilityCards] returns one card per medication,
    in order; the card at a position is built from the medication and the
    drug information at that position; and the cards past the end of the
    information list carry the placeholder for missing information. *)
Theorem cards_pair_medications_with_information
        (medications : list MedicationItem)
        (drugInfoList : list (option DrugInfo)) :
  let cards := generateExplainabilityCards Number_toString medications
                                           drugInfoList in
  List.length cards = List.length medications
  /\ (forall i,
         nth_error cards i
         = option_map
             (fun med =>
                generateExplainabilityCard Number_toString med
                  (nth i drugInfoList None))
             (nth_error medications i))
  /\ Forall (fun card => drug_details card = NOT_AVAILABLE)
            (skipn (List.length drugInfoList) cards).
Proof.
  unfold generateExplainabilityCards. cbv zeta.
  split; [apply map_indexed_length|]. split.
  - intros i. now rewrite map_indexed_nth.
  - apply Forall_forall. intros card Hin.
    apply In_nth_error in Hin. destruct Hin as [i Hc].
    rewrite nth_error_skipn_shift, map_indexed_nth in Hc.
    cbn [Nat.add] in Hc.
    destruct (nth_error medications (List.length drugInfoList + i));
      [|discriminate Hc].
    injection Hc as <-.
    rewrite (nth_overflow drugInfoList None)
      by apply Nat.le_add_r.
    reflexivity.
Qed.

(** X19: a food instruction that mentions the stomach is explained as
    an instruction to take the medicine before meals: "stomach" contains
    "ac", which the timing rationale and the food reasoning test before
    anything else but "before"; the reasoning for an empty stomach is
    never given for it. *)
Theorem stomach_is_read_as_before_meals
        (medication : MedicationItem) (drugInfo : option DrugInfo)
        (instruction : string) :
  food_instruction medication = Some instruction ->
  includes (toLowerCase instruction) "stomach" = true ->
  let plan := why_this_plan
                (generateExplainabilityCard Number_toString medication
                                            drugInfo) in
  timing_rationale plan = BEFORE_MEALS_RATIONALE
  /\ food_instruction_reasoning plan = Some BEFORE_MEALS_REASONING.
Proof.
  intros Hfi Hst. cbv zeta.
  assert (Hac : includes (toLowerCase instruction) "ac" = true)
    by (eapply includes_trans; [exact Hst | reflexivity]).
  assert (Ht : truthy instruction = true).
  { destruct instruction; [discriminate Hst | reflexivity]. }
  unfold generateExplainabilityCard.
  cbn [why_this_plan timing_rationale food_instruction_reasoning].
  unfold generateTimingRationale, generateFoodInstructionReasoning.
  cbv zeta. rewrite Hfi, Ht, Hac, orb_true_r. split; reflexivity.
Qed.
End CardFacts.

Section CardSamples.
Import JS Schemas Explainability Vocabulary.

(** X19 at a medication to take on an empty stomach. *)
Lemma empty_stomach_card :
  food_instruction (medication_with_food "Levothyroxine"
                                         EMPTY_STOMACH_INSTRUCTION)
  = Some EMPTY_STOMACH_INSTRUCTION
  /\ includes (toLowerCase EMPTY_STOMACH_INSTRUCTION) "stomach" = true
  /\ timing_rationale
       (why_this_plan
          (generateExplainabilityCard (fun _ => "1")
             (medication_with_food "Levothyroxine" EMPTY_STOMACH_INSTRUCTION)
             None))
     = BEFORE_MEALS_RATIONALE
  /\ food_instruction_reasoning
       (why_this_plan
          (generateExplainabilityCard (fun _ => "1")
             (medication_with_food "Levothyroxine" EMPTY_STOMACH_INSTRUCTION)
             None))
     = Some BEFORE_MEALS_REASONING.
Proof.
  assert (Hfi : food_instruction
                  (medication_with_food "Levothyroxine"
                                        EMPTY_STOMACH_INSTRUCTION)
                = Some EMPTY_STOMACH_INSTRUCTION) by reflexivity.
  assert (Hst : includes (toLowerCase EMPTY_STOMACH_INSTRUCTION) "stomach"
                = true) by (vm_compute; reflexivity).
  split; [exact Hfi|]. split; [exact Hst|].
  exact (@stomach_is_read_as_before_meals (fun _ => "1")
           (medication_with_food "Levothyroxine" EMPTY_STOMACH_INSTRUCTION)
           None EMPTY_STOMACH_INSTRUCTION Hfi Hst).
Defined.

End CardSamples.

(* ================================================================== *)
(** * More properties of the nudge generator                            *)
(* ================================================================== *)

Section PriorityOrderFacts.
Import JS Schemas Nudges Vocabulary.

Lemma sorted_app_split (front back : list Nudge) :
  StronglySorted before (front ++ back) ->
  StronglySorted before front
  /\ Forall (fun r => Forall (before r) back) front.
Proof.
  induction front as [|n front IH]; cbn [app]; intros H.
  - split; constructor.
  - inversion H as [|? ? Hs Hn]; subst. destruct (IH Hs) as [Hf Hb].
    apply Forall_app in Hn. destruct Hn as [Hnf Hnb].
    split; constructor; assumption.
Qed.

Lemma filter_firstn_prefix (A : Type) (f : A -> bool) (k : nat) (l : list A) :
  filter f l = filter f (firstn k l) ++ filter f (skipn k l).
Proof. now rewrite <- filter_app, firstn_skipn. Qed.

Lemma sorted_head_below (l : list Nudge) :
  StronglySorted before l ->
  forall k,
    (k <= List.length (filter at_least_friction l))%nat ->
    Forall (fun n => (7 <= priority n)%Z) (firstn k l).
Proof.
  induction 1 as [|n l Hl IH Hn]; intros k Hk.
  - destruct k; constructor.
  - destruct k as [|k]; [constructor|]. cbn [firstn filter] in *.
    unfold at_least_friction in Hk at 1.
    destruct (7 <=? priority n)%Z eqn:H7.
    + apply Z.leb_le in H7. constructor; [exact H7|].
      apply IH. cbn [List.length] in Hk. lia.
    + apply Z.leb_gt in H7. exfalso.
      assert (He : filter at_least_friction l = []).
      { clear -Hn H7. induction Hn as [|m l Hm _ IH]; [reflexivity|].
        cbn [filter]. unfold at_least_friction at 1. unfold before in Hm.
        assert (Hlt : (7 <=? priority m)%Z = false) by (apply Z.leb_gt; lia).
        now rewrite Hlt. }
      rewrite He in Hk. cbn in Hk. lia.
Qed.

Lemma insert_nudge_counts (f : Nudge -> bool) (n : Nudge) (l : list Nudge) :
  List.length (filter f (insert_nudge n l))
  = List.length (filter f (n :: l)).
Proof.
  induction l as [|m l IH]; cbn [insert_nudge]; [reflexivity|].
  destruct (priority m <=? priority n)%Z; [reflexivity|].
  cbn [filter] in *. destruct (f m), (f n); cbn [List.length] in *; lia.
Qed.

Lemma sort_by_priority_counts (f : Nudge -> bool) (l : list Nudge) :
  List.length (filter f (sort_by_priority l)) = List.length (filter f l).
Proof.
  induction l as [|n l IH]; [reflexivity|].
  change (sort_by_priority (n :: l)) with (insert_nudge n (sort_by_priority l)).
  rewrite insert_nudge_counts. cbn [filter].
  destruct (f n); cbn [List.length]; now rewrite IH.
Qed.

Lemma sort_by_priority_length (l : list Nudge) :
  List.length (sort_by_priority l) = List.length l.
Proof. apply Permutation_length, sort_by_priority_perm. Qed.
End PriorityOrderFacts.

Section NudgeSelectionFacts.
Import JS Schemas Nudges Vocabulary.
Variable clock : nat -> string.

(** X20: [generateNudges] returns the nudges of highest priority, highest
    first: the result is in descending order of priority, it has five
    nudges or all of them if fewer were generated, and the generated
    nudges are those of the result and others, none of which ranks above
    a nudge of the result. *)
Theorem nudges_in_priority_order
        (medications : list MedicationItem)
        (userPreferences : option UserPreferences)
        (adherencePatterns : option (list AdherencePattern)) :
  let pushed := all_nudges clock medications userPreferences
                           adherencePatterns in
  let result := generateNudges clock medications userPreferences
                               adherencePatterns in
  StronglySorted before result
  /\ List.length result = Nat.min 5 (List.length pushed)
  /\ exists dropped,
       Permutation (result ++ dropped) pushed
       /\ Forall (fun r => Forall (before r) dropped) result.
Proof.
  cbv zeta. unfold generateNudges.
  set (pushed := all_nudges clock medications userPreferences
                            adherencePatterns).
  pose proof (sort_by_priority_sorted pushed) as Hs.
  rewrite <- (firstn_skipn 5 (sort_by_priority pushed)) in Hs.
  apply sorted_app_split in Hs. destruct Hs as [Hf Hb].
  split; [exact Hf|]. split.
  - rewrite length_firstn, sort_by_priority_length. reflexivity.
  - exists (skipn 5 (sort_by_priority pushed)). split; [|exact Hb].
    rewrite firstn_skipn. apply sort_by_priority_perm.
Qed.

(** X21: among nudges of equal priority [generateNudges] keeps the order
    of generation and cuts from the end: for each priority, the returned
    nudges of that priority are the first generated ones, in the same
    order. *)
Theorem equal_priority_keeps_generation_order
        (medications : list MedicationItem)
        (userPreferences : option UserPreferences)
        (adherencePatterns : option (list AdherencePattern)) (p : Z) :
  exists later,
    filter (fun n => (priority n =? p)%Z)
           (all_nudges clock medications userPreferences adherencePatterns)
    = filter (fun n => (priority n =? p)%Z)
             (generateNudges clock medications userPreferences
                             adherencePatterns)
      ++ later.
Proof.
  unfold generateNudges.
  set (pushed := all_nudges clock medications userPreferences
                            adherencePatterns).
  exists (filter (fun n => (priority n =? p)%Z)
                 (skipn 5 (sort_by_priority pushed))).
  rewrite <- filter_firstn_prefix. symmetry. apply sort_by_priority_stable.
Qed.

Lemma medications_ignore_preferences (medications : list MedicationItem)
      (prefs prefs' : UserPreferences) :
  forall t,
    nudges_of_medications clock medications prefs t
    = nudges_of_medications clock medications prefs' t.
Proof.
  induction medications as [|m rest IH]; intros t;
    cbn [nudges_of_medications]; [reflexivity|].
  change (generateImplementationIntentionNudges clock m prefs' t)
    with (generateImplementationIntentionNudges clock m prefs t).
  destruct (generateImplementationIntentionNudges clock m prefs t) as [n1 t1].
  destruct (generateFrictionReductionNudges clock m t1) as [n2 t2].
  destruct (generateWhyItMattersNudges clock m t2) as [n3 t3].
  now rewrite (IH t3).
Qed.

(** X22: the nudges do not depend on the user preferences, nor on what
    the adherence patterns say: only whether patterns are given
    matters. *)
Theorem nudges_ignore_preferences_and_patterns
        (medications : list MedicationItem)
        (userPreferences : option UserPreferences)
        (adherencePatterns : option (list AdherencePattern)) :
  generateNudges clock medications userPreferences adherencePatterns
  = generateNudges clock medications None
                   (option_map (fun _ => []) adherencePatterns).
Proof.
  unfold generateNudges, all_nudges. cbv zeta.
  destruct userPreferences as [prefs|];
    [rewrite (medications_ignore_preferences medications prefs
                                             DEFAULT_PREFERENCES 0)|];
    destruct (nudges_of_medications clock medications DEFAULT_PREFERENCES 0);
    destruct adherencePatterns; reflexivity.
Qed.

Lemma medications_friction_count (medications : list MedicationItem)
      (prefs : UserPreferences) :
  forall t,
    (List.length medications
     <= List.length
          (filter at_least_friction
                  (fst (nudges_of_medications clock medications prefs t))))%nat.
Proof.
  induction medications as [|m rest IH]; intros t;
    cbn [nudges_of_medications]; [cbn; lia|].
  destruct (generateImplementationIntentionNudges clock m prefs t) as [n1 t1].
  cbn [generateFrictionReductionNudges].
  destruct (generateWhyItMattersNudges clock m (S t1)) as [n3 t3].
  specialize (IH t3).
  destruct (nudges_of_medications clock rest prefs t3) as [more t4].
  cbn [fst] in *. rewrite !filter_app, !length_app.
  cbn [filter at_least_friction priority Z.leb Z.compare Pos.compare
       Pos.compare_cont List.length].
  lia.
Qed.

(** X23: for a plan of five medications or more [generateNudges] returns
    exactly five nudges, all of priority 7 or more: the why-it-matters
    message of a drug, of priority 6, is never among them. *)
Theorem long_plans_drop_the_reasons
        (medications : list MedicationItem)
        (userPreferences : option UserPreferences)
        (adherencePatterns : option (list AdherencePattern)) :
  (5 <= List.length medications)%nat ->
  let result := generateNudges clock medications userPreferences
                               adherencePatterns in
  List.length result = 5%nat
  /\ Forall (fun n => (7 <= priority n)%Z) result.
Proof.
  intros H5. cbv zeta. unfold generateNudges.
  set (pushed := all_nudges clock medications userPreferences
                            adherencePatterns).
  assert (Hc : (List.length medications
                <= List.length (filter at_least_friction pushed))%nat).
  { unfold pushed, all_nudges. cbv zeta.
    pose proof (medications_friction_count medications
                  (match userPreferences with
                   | Some p => p | None => DEFAULT_PREFERENCES end) 0) as H.
    destruct (nudges_of_medications clock medications _ 0) as [nudges t].
    cbn [fst] in H. destruct adherencePatterns; [|exact H].
    rewrite filter_app, length_app. lia. }
  split.
  - rewrite length_firstn, sort_by_priority_length.
    pose proof (filter_length_le at_least_friction pushed). lia.
  - apply sorted_head_below; [apply sort_by_priority_sorted|].
    rewrite sort_by_priority_counts. lia.
Qed.
End NudgeSelectionFacts.

Section NudgeSelectionSamples.
Import JS Schemas Nudges Vocabulary.

(** X23 at a plan of five medications taken in the morning. *)
Lemma five_medications_nudges :
  (5 <= List.length FIVE_MEDICATIONS)%nat
  /\ List.length (generateNudges SAMPLE_CLOCK FIVE_MEDICATIONS None None)
     = 5%nat
  /\ Forall (fun n => (7 <= priority n)%Z)
            (generateNudges SAMPLE_CLOCK FIVE_MEDICATIONS None None).
Proof.
  assert (H : (5 <= List.length FIVE_MEDICATIONS)%nat) by (cbn; lia).
  split; [exact H|].
  exact (@long_plans_drop_the_reasons SAMPLE_CLOCK FIVE_MEDICATIONS None None
           H).
Defined.

End NudgeSelectionSamples.

(* ================================================================== *)
(** * Properties of the adherence score                                 *)
(* ================================================================== *)

Section AdherenceFacts.
Import JS Extractor Adherence Vocabulary.
Variable nudgeLibrary : nat -> option AdherenceNudge.

Lemma positive_length (n : nat) :
  (0 <? n)%nat = true -> (1 <= Z.of_nat n)%Z.
Proof. intros H. apply Nat.ltb_lt in H. lia. Qed.

(** X24: the adherence score lies between 0 and 100, and it is 100
    exactly when no factor applies, that is, when the explanation is the
    one of a simple regimen. *)
Theorem adherence_score_bounded_and_explained (medications : list Medication) :
  let r := calculateAdherenceScore nudgeLibrary medications in
  (0 <= score r <= 100)%Z
  /\ (score r = 100%Z <-> explanation r = SIMPLE_REGIMEN).
Proof.
  unfold calculateAdherenceScore. cbv zeta. cbn [score explanation].
  split; [lia|].
  set (n := List.length medications).
  set (cf := List.length
               (filter (fun m => String.eqb (dose_pattern m) "TDS"
                                 || String.eqb (dose_pattern m) "QDS"
                                 || String.eqb (dose_pattern m) "QID")%bool
                       medications)).
  set (fi := List.length (filter (fun m => truthy_opt (food_instruction m)) medications)).
  set (prn := List.length (filter (fun m => String.eqb (dose_pattern m) "PRN") medications)).
  set (tv := List.length (fold_left add_timings medications [])).
  destruct (5 <? n)%nat eqn:H5; destruct (3 <? n)%nat eqn:H3;
    destruct (0 <? cf)%nat eqn:Hcf; destruct (2 <? fi)%nat eqn:Hfi;
    destruct (0 <? prn)%nat eqn:Hprn; destruct (3 <? tv)%nat eqn:Htv4;
    destruct (2 <? tv)%nat eqn:Htv3;
    try (apply positive_length in Hcf); try (apply positive_length in Hprn);
    cbn [app List.length Nat.ltb Nat.leb];
    (split; [intros Hs; try lia; reflexivity
            | intros He; try discriminate He; lia]).
Qed.


(** X26: a plan of at most three medications that scores 80 or more gets
    exactly four nudges from [calculateAdherenceScore]: entries 0, 1, 4
    and 7 of the library. *)
Theorem simple_regimen_gets_four_nudges (medications : list Medication) :
  (List.length medications <= 3)%nat ->
  (80 <= score (calculateAdherenceScore nudgeLibrary medications))%Z ->
  nudges (calculateAdherenceScore nudgeLibrary medications)
  = [nudgeLibrary 0%nat; nudgeLibrary 1%nat; nudgeLibrary 4%nat;
     nudgeLibrary 7%nat].
Proof.
  intros Hn Hs. unfold calculateAdherenceScore in *. cbv zeta in *.
  cbn [score nudges] in *. unfold selectNudges. cbv zeta.
  assert (H3 : (3 <? List.length medications)%nat = false)
    by (apply Nat.ltb_ge; exact Hn).
  assert (H5 : (5 <? List.length medications)%nat = false)
    by (apply Nat.ltb_ge; lia).
  rewrite H3, H5 in *.
  match goal with |- context [(?x <? 80)%Z] =>
    assert (H80 : (x <? 80)%Z = false) by (apply Z.ltb_ge; exact Hs);
    rewrite H80
  end.
  reflexivity.
Qed.
End AdherenceFacts.

Section AdherenceSamples.
Import JS Extractor Adherence Vocabulary.

(** X26 at the plan that holds the sample record only. *)
Lemma single_medication_four_nudges :
  (List.length [SAMPLE_RECORD] <= 3)%nat
  /\ (80 <= score (calculateAdherenceScore SAMPLE_LIBRARY [SAMPLE_RECORD]))%Z
  /\ nudges (calculateAdherenceScore SAMPLE_LIBRARY [SAMPLE_RECORD])
     = [SAMPLE_LIBRARY 0%nat; SAMPLE_LIBRARY 1%nat; SAMPLE_LIBRARY 4%nat;
        SAMPLE_LIBRARY 7%nat].
Proof.
  assert (Hn : (List.length [SAMPLE_RECORD] <= 3)%nat) by (cbn; lia).
  assert (Hs : (80 <= score (calculateAdherenceScore SAMPLE_LIBRARY
                               [SAMPLE_RECORD]))%Z)
    by (vm_compute; discriminate).
  split; [exact Hn|]. split; [exact Hs|].
  exact (@simple_regimen_gets_four_nudges SAMPLE_LIBRARY [SAMPLE_RECORD]
           Hn Hs).
Defined.

End AdherenceSamples.

(* ================================================================== *)
(** * Properties of the safety hints                                    *)
(* ================================================================== *)

Section SafetyFacts.
Import JS Extractor Safety Vocabulary.

Lemma findIndex_first (A : Type) (p : A -> bool) (x : A) (before rest : list A) :
  p x = true ->
  index_is (List.length before) (findIndex p (before ++ x :: rest))
  = negb (existsb p before).
Proof.
  intros Hx. induction before as [|y before IH];
    cbn [app findIndex List.length existsb].
  - rewrite Hx. reflexivity.
  - destruct (p y); [reflexivity|]. cbn [orb]. rewrite <- IH.
    destruct (findIndex p (before ++ x :: rest)); reflexivity.
Qed.

Lemma filter_first_occurrences (rest : list SafetyHint) :
  forall before : list SafetyHint,
    let kept :=
      filter_indexed
        (fun hint index =>
           index_is index
             (findIndex (fun h => String.eqb (message h) (message hint))
                        (before ++ rest)))
        (List.length before) rest in
    NoDup (map message kept)
    /\ Forall (fun h => In h rest /\ ~ In (message h) (map message before))
              kept
    /\ Forall (fun h => In (message h) (map message before)
                        \/ In (message h) (map message kept)) rest.
Proof.
  induction rest as [|x rest IH]; intros before; cbn [filter_indexed].
  - cbn. repeat split; constructor.
  - rewrite findIndex_first by apply String.eqb_refl.
    specialize (IH (before ++ [x])).
    rewrite <- app_assoc, length_app, Nat.add_1_r in IH. cbn [app] in IH.
    cbv zeta in IH. destruct IH as [Hnd [Hin Hall]].
    assert (Hin' :
      Forall (fun h => In h (x :: rest)
                       /\ ~ In (message h) (map message before)
                       /\ message h <> message x)
        (filter_indexed
           (fun hint index =>
              index_is index
                (findIndex (fun h => String.eqb (message h) (message hint))
                           (before ++ x :: rest)))
           (S (List.length before)) rest)).
    { eapply Forall_impl; [|exact Hin]. cbn beta. intros h [Hh Hn].
      rewrite map_app, in_app_iff in Hn. cbn [map In] in Hn.
      repeat split; [right; exact Hh| |]; intros Hc; apply Hn; auto. }
    assert (Hall' :
      Forall (fun h => In (message h) (map message before)
                       \/ message h = message x
                       \/ In (message h)
                             (map message
                                (filter_indexed
                                   (fun hint index =>
                                      index_is index
                                        (findIndex
                                           (fun h0 => String.eqb (message h0)
                                                        (message hint))
                                           (before ++ x :: rest)))
                                   (S (List.length before)) rest))) rest).
    { eapply Forall_impl; [|exact Hall]. cbn beta. intros h [Hh|Hh]; [|auto].
      rewrite map_app, in_app_iff in Hh. cbn [map In] in Hh.
      destruct Hh as [Hh|[Hh|[]]]; auto. }
    destruct (existsb (fun h => String.eqb (message h) (message x)) before)
      eqn:Hseen; cbn [negb].
    + apply existsb_exists in Hseen. destruct Hseen as [y [Hy Heq]].
      apply String.eqb_eq in Heq.
      assert (Hmx : In (message x) (map message before))
        by (rewrite <- Heq; now apply in_map).
      split; [exact Hnd|]. split.
      * eapply Forall_impl; [|exact Hin']. cbn beta. tauto.
      * constructor; [left; exact Hmx|].
        eapply Forall_impl; [|exact Hall']. cbn beta.
        intros h [Hh|[Hh|Hh]]; auto. left. rewrite Hh. exact Hmx.
    + assert (Hnew : ~ In (message x) (map message before)).
      { intros Hc. apply in_map_iff in Hc. destruct Hc as [y [Heq Hy]].
        assert (Ht : existsb (fun h => String.eqb (message h) (message x))
                             before = true)
          by (apply existsb_exists; exists y; split;
              [exact Hy | now apply String.eqb_eq]).
        rewrite Ht in Hseen. discriminate Hseen. }
      cbn [map]. split; [|split].
      * constructor; [|exact Hnd]. intros Hc. apply in_map_iff in Hc.
        destruct Hc as [h [Heq Hh]]. rewrite Forall_forall in Hin'.
        destruct (Hin' h Hh) as [_ [_ Hne]]. now apply Hne.
      * constructor; [split; [left; reflexivity | exact Hnew]|].
        eapply Forall_impl; [|exact Hin']. cbn beta. tauto.
      * constructor; [right; left; reflexivity|].
        eapply Forall_impl; [|exact Hall']. cbn beta.
        intros h [Hh|[Hh|Hh]]; auto; right; [left|right]; auto.
Qed.

Lemma unique_hints_first_occurrences (hints : list SafetyHint) :
  NoDup (map message (unique_hints hints))
  /\ incl (unique_hints hints) hints
  /\ incl (map message hints) (map message (unique_hints hints)).
Proof.
  pose proof (filter_first_occurrences hints []) as H. cbv zeta in H.
  cbn [app List.length map] in H. fold (unique_hints hints) in H.
  destruct H as [Hnd [Hin Hall]]. split; [exact Hnd|]. split.
  - intros h Hh. rewrite Forall_forall in Hin. apply (Hin h Hh).
  - intros m Hm. apply in_map_iff in Hm. destruct Hm as [h [<- Hh]].
    rewrite Forall_forall in Hall. destruct (Hall h Hh) as [[]|H]; exact H.
Qed.

Lemma array_includes_In (xs : list string) (x : string) :
  array_includes xs x = true <-> In x xs.
Proof.
  unfold array_includes. rewrite existsb_exists. split.
  - intros [y [Hy He]]. apply String.eqb_eq in He. now subst y.
  - intros H. exists x. split; [exact H | apply String.eqb_refl].
Qed.

Lemma filter_is_first_occurrences (rest : list SafetyHint) :
  forall (before : list SafetyHint) (seen : list string),
    (forall m, In m seen <-> In m (map message before)) ->
    filter_indexed
      (fun hint index =>
         index_is index
           (findIndex (fun h => String.eqb (message h) (message hint))
                      (before ++ rest)))
      (List.length before) rest
    = first_occurrences seen rest.
Proof.
  induction rest as [|x rest IH]; intros before seen Hseen;
    cbn [filter_indexed first_occurrences]; [reflexivity|].
  rewrite findIndex_first by apply String.eqb_refl.
  assert (Hsame :
    existsb (fun h => String.eqb (message h) (message x)) before
    = array_includes seen (message x)).
  { apply eq_true_iff_eq. rewrite array_includes_In, Hseen, existsb_exists.
    rewrite in_map_iff. split.
    - intros [h [Hh He]]. apply String.eqb_eq in He. now exists h.
    - intros [h [He Hh]]. exists h. split; [exact Hh|].
      now apply String.eqb_eq. }
  rewrite Hsame.
  assert (Hstep :
    filter_indexed
      (fun hint index =>
         index_is index
           (findIndex (fun h => String.eqb (message h) (message hint))
                      (before ++ x :: rest)))
      (S (List.length before)) rest
    = first_occurrences (if array_includes seen (message x)
                         then seen else message x :: seen) rest).
  { specialize (IH (before ++ [x])
                   (if array_includes seen (message x)
                    then seen else message x :: seen)).
    rewrite <- app_assoc, length_app, Nat.add_1_r in IH. cbn [app] in IH.
    apply IH. intros m. rewrite map_app, in_app_iff. cbn [map In].
    destruct (array_includes seen (message x)) eqn:Hin.
    - apply array_includes_In in Hin. rewrite <- Hseen. split; [tauto|].
      intros [H|[<-|[]]]; assumption.
    - cbn [In]. rewrite <- Hseen. tauto. }
  rewrite Hstep.
  destruct (array_includes seen (message x)); reflexivity.
Qed.

Lemma first_occurrences_are_first (rest : list SafetyHint) :
  forall seen : list string,
    Forall (fun h =>
              exists before after,
                rest = before ++ h :: after
                /\ ~ In (message h) (seen ++ map message before))
           (first_occurrences seen rest).
Proof.
  induction rest as [|x rest IH]; intros seen; cbn [first_occurrences];
    [constructor|].
  destruct (array_includes seen (message x)) eqn:Hin.
  - apply array_includes_In in Hin.
    eapply Forall_impl; [|apply IH]. cbn beta.
    intros h [before [after [-> Hnew]]].
    exists (x :: before), after. split; [reflexivity|].
    cbn [map]. rewrite in_app_iff in *. cbn [In].
    intros [H|[H|H]]; apply Hnew; [now left | | now right].
    left. rewrite <- H. exact Hin.
  - assert (Hnot : ~ In (message x) seen).
    { intros H. apply array_includes_In in H. rewrite H in Hin.
      discriminate Hin. }
    constructor.
    + exists [], rest. split; [reflexivity|]. cbn [map].
      now rewrite app_nil_r.
    + eapply Forall_impl; [|apply IH]. cbn beta.
      intros h [before [after [-> Hnew]]].
      exists (x :: before), after. split; [reflexivity|].
      cbn [map app In] in *. rewrite in_app_iff in *. cbn [In] in *.
      tauto.
Qed.

Lemma unique_hints_keep_the_first (hints : list SafetyHint) :
  unique_hints hints = first_occurrences [] hints
  /\ Forall (first_with_its_message hints) (unique_hints hints).
Proof.
  assert (He : unique_hints hints = first_occurrences [] hints).
  { unfold unique_hints.
    apply (filter_is_first_occurrences hints [] []). intros m. reflexivity. }
  split; [exact He|]. rewrite He.
  exact (first_occurrences_are_first hints []).
Qed.

Variable drug_interactions : list Interactions.DrugInteractionEntry.
Variable conditions : list Interactions.ConditionEntry.
Variable allergies : list Interactions.AllergyEntry.

(** X27: [generateSafetyHints] keeps the first hint with each message:
    what it returns is the list of the pushed hints without those whose
    message an earlier hint carries, each returned hint stands in the
    pushed list at a place before which no hint carries its message, no
    two returned hints carry the same message, every returned hint is
    one that was pushed, and every message that was pushed is the
    message of a returned hint. *)
Theorem safety_hints_are_deduplicated (medications : list Medication) :
  let hints := generateSafetyHints drug_interactions conditions allergies
                                   medications in
  let pushed := pushed_hints drug_interactions conditions allergies
                             medications in
  hints = first_occurrences [] pushed
  /\ Forall (first_with_its_message pushed) hints
  /\ NoDup (map message hints)
  /\ incl hints pushed
  /\ incl (map message pushed) (map message hints).
Proof.
  cbv zeta. unfold generateSafetyHints. cbv zeta.
  destruct (unique_hints_keep_the_first
              (pushed_hints drug_interactions conditions allergies
                            medications)) as [He Hfirst].
  split; [exact He|]. split; [exact Hfirst|].
  apply unique_hints_first_occurrences.
Qed.





End SafetyFacts.

(* ================================================================== *)
(** * Properties of the local drug information service                  *)
(* ================================================================== *)

Section ScoreFacts.
Import JS Schemas DrugInfoService Vocabulary.

Lemma startsWith_includes (s sub : string) :
  startsWith s sub = true -> includes s sub = true.
Proof. intros H. destruct s; cbn [includes]; rewrite H; reflexivity. Qed.

Lemma equal_includes (s sub : string) :
  String.eqb s sub = true -> includes s sub = true.
Proof.
  intros H. apply String.eqb_eq in H. subst sub.
  apply startsWith_includes. induction s as [|c s IH]; cbn [startsWith];
    [reflexivity|]. now rewrite Ascii.eqb_refl.
Qed.

Lemma fuzzy_score_range (q : string) (drug : KnowledgeBaseDrug) :
  (0 <= fuzzy_score q drug <= 100)%Z
  /\ (fuzzy_score q drug = 100%Z <-> name_is q drug = true)
  /\ (0 <? fuzzy_score q drug)%Z = fuzzy_match q drug.
Proof.
  unfold fuzzy_score, fuzzy_match, name_is.
  destruct (String.eqb (toLowerCase (kb_name drug)) q) eqn:He.
  - rewrite (equal_includes _ _ He). cbn. repeat split; lia.
  - destruct (startsWith (toLowerCase (kb_name drug)) q) eqn:Hs.
    + rewrite (startsWith_includes _ _ Hs). cbn.
      repeat split; try lia; discriminate.
    + destruct (includes (toLowerCase (kb_name drug)) q);
        [cbn; repeat split; try lia; discriminate|].
      cbn [orb].
      destruct (match kb_brand_names drug with
                | Some bs => existsb (fun b => includes (toLowerCase b) q) bs
                | None => false
                end);
        [cbn; repeat split; try lia; discriminate|].
      cbn [orb].
      destruct (match kb_generic_name drug with
                | Some g => includes (toLowerCase g) q
                | None => false
                end); cbn; repeat split; try lia; discriminate.
Qed.

Lemma exact_match_fuzzy_match (q : string) (drug : KnowledgeBaseDrug) :
  exact_match q drug = true -> fuzzy_match q drug = true.
Proof.
  unfold exact_match, fuzzy_match. cbv zeta. intros H.
  apply orb_true_iff in H. destruct H as [H|H];
    [apply orb_true_iff in H; destruct H as [H|H]|].
  - now rewrite (equal_includes _ _ H).
  - destruct (kb_generic_name drug) as [g|]; [|discriminate H].
    rewrite (equal_includes _ _ H). now rewrite !orb_true_r.
  - destruct (kb_brand_names drug) as [bs|]; [|discriminate H].
    apply existsb_exists in H. destruct H as [b [Hb He]].
    assert (Hx : existsb (fun b => includes (toLowerCase b) q) bs = true)
      by (apply existsb_exists; exists b; split;
          [exact Hb | now apply equal_includes]).
    rewrite Hx. now rewrite orb_true_r.
Qed.

Lemma insert_scored_Forall (P : KnowledgeBaseDrug * Z -> Prop)
      (r : KnowledgeBaseDrug * Z) (l : list (KnowledgeBaseDrug * Z)) :
  P r -> Forall P l -> Forall P (insert_scored r l).
Proof.
  intros Hr Hl. induction Hl as [|s l Hs Hl IH]; cbn [insert_scored].
  - constructor; [exact Hr | constructor].
  - destruct (snd s <=? snd r)%Z.
    + constructor; [exact Hr|]. constructor; assumption.
    + constructor; assumption.
Qed.

Lemma sort_by_score_Forall (P : KnowledgeBaseDrug * Z -> Prop)
      (l : list (KnowledgeBaseDrug * Z)) :
  Forall P l -> Forall P (sort_by_score l).
Proof.
  induction 1 as [|r l Hr Hl IH]; cbn [sort_by_score fold_right].
  - constructor.
  - apply insert_scored_Forall; assumption.
Qed.

Lemma insert_scored_length (r : KnowledgeBaseDrug * Z)
      (l : list (KnowledgeBaseDrug * Z)) :
  List.length (insert_scored r l) = S (List.length l).
Proof.
  induction l as [|s l IH]; cbn [insert_scored]; [reflexivity|].
  destruct (snd s <=? snd r)%Z; cbn [List.length]; [reflexivity|].
  now rewrite IH.
Qed.

Lemma sort_by_score_length (l : list (KnowledgeBaseDrug * Z)) :
  List.length (sort_by_score l) = List.length l.
Proof.
  induction l as [|r l IH]; cbn [sort_by_score fold_right]; [reflexivity|].
  rewrite insert_scored_length. cbn [List.length]. f_equal. exact IH.
Qed.

Lemma best_score_first (l : list (KnowledgeBaseDrug * Z))
      (best : KnowledgeBaseDrug * Z) :
  Forall (fun r => (snd r <= 100)%Z) l ->
  find (fun r => (snd r =? 100)%Z) l = Some best ->
  exists rest, sort_by_score l = best :: rest.
Proof.
  induction 1 as [|r l Hr Hl IH]; cbn [find]; [discriminate|].
  change (sort_by_score (r :: l)) with (insert_scored r (sort_by_score l)).
  destruct (snd r =? 100)%Z eqn:H100.
  - intros H. injection H as <-. apply Z.eqb_eq in H100.
    pose proof (sort_by_score_Forall Hl) as Hs.
    destruct Hs as [|s rest Hs _]; cbn [insert_scored]; [now exists []|].
    assert (Hle : (snd s <=? snd r)%Z = true) by (apply Z.leb_le; lia).
    rewrite Hle. now exists (s :: rest).
  - intros H. destruct (IH H) as [rest Hrest]. rewrite Hrest.
    apply find_some in H. destruct H as [_ Hb]. apply Z.eqb_eq in Hb.
    apply Z.eqb_neq in H100. cbn [insert_scored].
    assert (Hgt : (snd best <=? snd r)%Z = false) by (apply Z.leb_gt; lia).
    rewrite Hgt. now exists (insert_scored r rest).
Qed.

Lemma scored_find (q : string) (drugs : list KnowledgeBaseDrug) :
  find (fun r : KnowledgeBaseDrug * Z => (snd r =? 100)%Z)
       (flat_map (fun drug =>
                    if (0 <? fuzzy_score q drug)%Z
                    then [(drug, fuzzy_score q drug)] else [])
                 drugs)
  = option_map (fun drug => (drug, 100%Z)) (find (name_is q) drugs).
Proof.
  induction drugs as [|d drugs IH]; [reflexivity|].
  cbn [flat_map find].
  destruct (name_is q d) eqn:Hn;
    destruct (fuzzy_score_range q d) as [Hr [H100 _]].
  - apply H100 in Hn. rewrite Hn. cbn. reflexivity.
  - assert (Hne : fuzzy_score q d <> 100%Z)
      by (intros Hc; apply H100 in Hc; rewrite Hc in Hn; discriminate Hn).
    destruct (0 <? fuzzy_score q d)%Z; cbn [app find snd]; [|exact IH].
    apply Z.eqb_neq in Hne. rewrite Hne. exact IH.
Qed.
End ScoreFacts.

Section ServiceFacts.
Import JS Schemas DrugInfoService Explainability Vocabulary.
Variable drugs : list KnowledgeBaseDrug.
Variable clock : nat -> string.

Lemma map_indexed_Forall (A B : Type) (P : A -> Prop) (Q : B -> Prop)
      (f : A -> nat -> B) (l : list A) :
  (forall a i, P a -> Q (f a i)) ->
  Forall P l -> forall index, Forall Q (map_indexed f index l).
Proof.
  intros Hf. induction 1 as [|a l Ha Hl IH]; intros index;
    cbn [map_indexed]; constructor; [now apply Hf | apply IH].
Qed.

Lemma firstn_Forall (A : Type) (P : A -> Prop) (l : list A) :
  Forall P l -> forall n, Forall P (firstn n l).
Proof.
  induction 1 as [|a l Ha Hl IH]; intros [|n]; cbn [firstn];
    constructor; [exact Ha | apply IH].
Qed.

(** X29: [fuzzySearchDrugInfo] returns at most five entries of the local
    knowledge base, each of which holds the normalized query in its name,
    in a brand name or in its generic name (lower-cased); and if an entry
    has the query for its lower-cased name, the first such entry comes
    first in the result. *)
Theorem fuzzy_search_returns_best_matches (query : string) :
  let results := fuzzySearchDrugInfo drugs clock query in
  (List.length results <= 5)%nat
  /\ Forall (fun info =>
               source info = local
               /\ exists drug,
                    In drug drugs
                    /\ info_drug_name info = kb_name drug
                    /\ fuzzy_match (normalize query) drug = true)
            results
  /\ match find (name_is (normalize query)) drugs with
     | Some drug => exists rest, results = to_info drug (clock 0) :: rest
     | None => True
     end.
Proof.
  unfold fuzzySearchDrugInfo, normalize. cbv zeta.
  set (q := trim (toLowerCase query)).
  set (scored := flat_map _ drugs).
  assert (Hscored :
    Forall (fun r : KnowledgeBaseDrug * Z =>
              (snd r <= 100)%Z
              /\ In (fst r) drugs /\ fuzzy_match q (fst r) = true) scored).
  { apply Forall_forall. intros r Hr. unfold scored in Hr.
    apply in_flat_map in Hr. destruct Hr as [d [Hd Hr]].
    destruct (fuzzy_score_range q d) as [Hrange [_ Hm]].
    destruct (0 <? fuzzy_score q d)%Z; [|destruct Hr].
    destruct Hr as [<-|[]]. cbn [fst snd]. repeat split;
      [lia | exact Hd | now symmetry]. }
  split; [|split].
  - rewrite map_indexed_length. apply firstn_le_length.
  - apply (@map_indexed_Forall _ _
             (fun r : KnowledgeBaseDrug * Z =>
                (snd r <= 100)%Z
                /\ In (fst r) drugs /\ fuzzy_match q (fst r) = true)).
    + intros r i [_ [Hin Hm]]. split; [reflexivity|].
      exists (fst r). repeat split; assumption.
    + apply firstn_Forall. now apply sort_by_score_Forall.
  - pose proof (scored_find q drugs) as Hf. fold scored in Hf.
    destruct (find (name_is q) drugs) as [drug|]; [|exact I].
    cbn [option_map] in Hf.
    destruct (@best_score_first scored (drug, 100%Z)) as [rest Hrest];
      [eapply Forall_impl; [|exact Hscored]; cbn beta; tauto | exact Hf |].
    rewrite Hrest. cbn [firstn map_indexed fst]. eexists. reflexivity.
Qed.

(** X30: [searchLocalDrugInfo] returns an entry of the knowledge base
    whose name, generic name or one of whose brand names is the
    normalized query, and then [fuzzySearchDrugInfo] finds something for
    the same query too; it returns nothing only if no entry matches the
    query in this way. *)
Theorem exact_hit_implies_fuzzy_hit (drugName : string) :
  match searchLocalDrugInfo drugs clock drugName with
  | Some info =>
      (exists drug,
          In drug drugs
          /\ exact_match (normalize drugName) drug = true
          /\ info = to_info drug (clock 0))
      /\ is_nil (fuzzySearchDrugInfo drugs clock drugName) = false
  | None =>
      Forall (fun drug => exact_match (normalize drugName) drug = false) drugs
  end.
Proof.
  unfold searchLocalDrugInfo, normalize. cbv zeta.
  set (q := trim (toLowerCase drugName)).
  destruct (find (exact_match q) drugs) as [drug|] eqn:Hfind.
  - apply find_some in Hfind. destruct Hfind as [Hin Hm]. split.
    + exists drug. repeat split; assumption.
    + unfold fuzzySearchDrugInfo. cbv zeta. fold q.
      set (scored := flat_map _ drugs).
      assert (Hne : (0 < List.length scored)%nat).
      { assert (Hs : In (drug, fuzzy_score q drug) scored).
        { unfold scored. apply in_flat_map. exists drug. split; [exact Hin|].
          destruct (fuzzy_score_range q drug) as [_ [_ Hpos]].
          rewrite Hpos, (exact_match_fuzzy_match _ _ Hm). now left. }
        destruct scored; [destruct Hs | cbn; lia]. }
      rewrite <- (sort_by_score_length scored) in Hne.
      destruct (sort_by_score scored); [cbn in Hne; lia | reflexivity].
  - apply Forall_forall. intros d Hd.
    exact (find_none _ _ Hfind d Hd).
Qed.
End ServiceFacts.
